(** * HOPP clustering: a shallow embedding of [hybrid/clustering.py]

    The development follows the Python module class by class:
    [Clustering] (feature construction, cluster formation, ordering,
    boundary weighting, state-of-charge heuristics) and
    [AffinityPropagation] (the engine).

    Conventions of the embedding.
    - Python floats are modelled by exact rationals ([Qc]); every
      arithmetic step of the source is kept, rounding is not modelled.
    - A Python exception is a value [Raise e] of the [result] monad.
    - [self] is a record passed in and returned; NumPy's global random
      generator is a state threaded through the engine.
    - A Python dict with string keys is a [gmap string _]. *)

From Stdlib Require Import ZArith QArith Qcanon Lia Ascii.
From stdpp Require Import base numbers list strings pretty gmap fin_maps.

Local Open Scope Z_scope.

(** ** Exceptions and the error monad *)

Inductive exn :=
| KeyError (key : string)
| IndexError
| ValueError
| NameError (name : string)
| AttributeError (name : string)
| ZeroDivisionError
| TypeError.

Inductive result (A : Type) :=
| Ok (a : A)
| Raise (e : exn).
Arguments Ok {A} a.
Arguments Raise {A} e.

#[global] Instance result_ret : MRet result := λ A a, Ok a.
#[global] Instance result_bind : MBind result := λ A B f m,
  match m with Ok a => f a | Raise e => Raise e end.

#[global] Instance result_fmap : FMap result := λ A B f m,
  match m with Ok a => Ok (f a) | Raise e => Raise e end.

Definition is_ok {A} (r : result A) : bool :=
  match r with Ok _ => true | Raise _ => false end.

(** ** Numbers *)

(** Numbers, vectors and two-dimensional arrays. *)
Abbreviation num := Qc (only parsing).

Definition qz (z : Z) : num := Q2Qc (inject_Z z).
Definition qfrac (a : Z) (b : positive) : num := Q2Qc (a # b).

Definition qmax (a b : num) : num := if decide (a < b)%Qc then b else a.
Definition qmin (a b : num) : num := if decide (b < a)%Qc then b else a.
Definition qabs (a : num) : num := if decide (a < 0)%Qc then (- a)%Qc else a.
Definition qsqr (a : num) : num := (a * a)%Qc.

Definition qsum (l : list num) : num := foldr Qcplus 0%Qc l.

Abbreviation vec := (list Qc) (only parsing).
Abbreviation matrix := (list (list Qc)) (only parsing).

Definition zeros (n : nat) : vec := replicate n 0%Qc.
Definition zeros2 (n m : nat) : matrix := replicate n (zeros m).

(** [a[i]] on a NumPy array or a Python list, for an index that is not
    negative. *)
Definition getitem {A} (l : list A) (i : nat) : result A :=
  match l !! i with Some x => Ok x | None => Raise IndexError end.

(** [a[z]] for a Python int [z]: a negative index counts from the end. *)
Definition getitem_Z {A} (l : list A) (z : Z) : result A :=
  if decide (0 <= z) then getitem l (Z.to_nat z)
  else if decide (- Z.of_nat (length l) <= z)
       then getitem l (Z.to_nat (Z.of_nat (length l) + z))
       else Raise IndexError.

Definition entry (m : matrix) (i j : nat) : num :=
  default 0%Qc (default [] (m !! i) !! j).

Definition column (m : matrix) (j : nat) : vec :=
  map (λ row, default 0%Qc (row !! j)) m.

Definition diag (m : matrix) : vec :=
  imap (λ i row, default 0%Qc (row !! i)) m.

(** [m.sum(0)]: the sums of the columns of an array with [ncol] columns. *)
Definition sum0 (ncol : nat) (m : matrix) : vec :=
  map (λ j, qsum (column m j)) (seq 0 ncol).

(** [m.sum(1)]: the sums of the rows. *)
Definition sum1 (m : matrix) : vec := map qsum m.

(** Build an [n] by [m] array from its entries. *)
Definition tabulate2 (n m : nat) (f : nat → nat → num) : matrix :=
  map (λ i, map (f i) (seq 0 m)) (seq 0 n).

(** [argmin] and [argmax] return the first position of the extremum and
    raise [ValueError] on an empty sequence. *)
Fixpoint argmin_from (best : nat) (bv : num) (i : nat) (l : vec) : nat :=
  match l with
  | [] => best
  | x :: l' =>
      if decide (x < bv)%Qc then argmin_from i x (S i) l'
      else argmin_from best bv (S i) l'
  end.

Definition argmin (l : vec) : result nat :=
  match l with
  | [] => Raise ValueError
  | x :: l' => Ok (argmin_from 0 x 1 l')
  end.

(** Insertion sort, and the stable [argsort] it induces. *)
Fixpoint insert_sorted {A} (le : A → A → bool) (x : A) (l : list A) : list A :=
  match l with
  | [] => [x]
  | y :: l' => if le x y then x :: l else y :: insert_sorted le x l'
  end.

Definition sort_by {A} (le : A → A → bool) (l : list A) : list A :=
  foldr (insert_sorted le) [] l.

Definition qle_bool (a b : num) : bool := bool_decide (a ≤ b)%Qc.

(** [np.median] of the flattened array: the middle entry of the sorted
    values, or the mean of the two middle entries; [None] stands for the
    [nan] that NumPy returns on an empty array. *)
Definition median (l : vec) : option num :=
  let s := sort_by qle_bool l in
  let n := length s in
  if decide (n = 0%nat) then None
  else if Nat.even n
       then Some ((default 0 (s !! (n / 2 - 1)%nat)
                   + default 0 (s !! (n / 2)%nat)) / qz 2)%Qc
       else s !! (n / 2)%nat.

(** [a.argsort()] on an integer array. *)
Definition argsort (l : list nat) : list nat :=
  map snd (sort_by (λ a b, bool_decide (a.1 ≤ b.1)%nat) (imap (λ i x, (x, i)) l)).

(** ** NumPy's global random generator

    [np.random.seed] and [np.random.random_sample] belong to NumPy, not
    to this repository.  They are modelled as NumPy implements them: the
    Mersenne Twister MT19937, seeded from a 32-bit integer by Knuth's
    recurrence, and 53-bit doubles built from two 32-bit outputs. *)
Module MT19937.

Record state := { key : list Z; pos : nat }.

Definition mask32 (z : Z) : Z := Z.land z 0xffffffff.

Fixpoint seed_keys (n : nat) (p : Z) (s : Z) : list Z :=
  match n with
  | O => []
  | S n' =>
      s :: seed_keys n' (p + 1)
             (mask32 (1812433253 * Z.lxor s (Z.shiftr s 30) + p + 1))
  end.

Definition seed (s : Z) : state :=
  {| key := seed_keys 624 0 (mask32 s); pos := 624 |}.

Definition twist_at (k : list Z) (i : nat) : list Z :=
  let y := Z.lor (Z.land (k !!! i) 0x80000000)
                 (Z.land (k !!! ((i + 1) mod 624)%nat) 0x7fffffff) in
  let m := if Z.odd y then 0x9908b0df else 0 in
  <[i := Z.lxor (Z.lxor (k !!! ((i + 397) mod 624)%nat) (Z.shiftr y 1)) m]> k.

Definition gen (k : list Z) : list Z := foldl twist_at k (seq 0 624).

Definition temper (y : Z) : Z :=
  let y := Z.lxor y (Z.shiftr y 11) in
  let y := Z.lxor y (Z.land (Z.shiftl y 7) 0x9d2c5680) in
  let y := Z.lxor y (Z.land (Z.shiftl y 15) 0xefc60000) in
  Z.lxor y (Z.shiftr y 18).

Definition next_uint32 (st : state) : Z * state :=
  let st := if decide (624 ≤ pos st)%nat
            then {| key := gen (key st); pos := 0 |} else st in
  (temper (key st !!! pos st), {| key := key st; pos := S (pos st) |}).

Definition next_double (st : state) : num * state :=
  let '(a, st) := next_uint32 st in
  let '(b, st) := next_uint32 st in
  (qfrac (Z.shiftr a 5 * 67108864 + Z.shiftr b 6) 9007199254740992, st).

Fixpoint doubles (n : nat) (st : state) : vec * state :=
  match n with
  | O => ([], st)
  | S n' =>
      let '(x, st) := next_double st in
      let '(xs, st) := doubles n' st in
      (x :: xs, st)
  end.

(** [random_sample((n, m))], filled row by row. *)
Fixpoint random_sample (n m : nat) (st : state) : matrix * state :=
  match n with
  | O => ([], st)
  | S n' =>
      let '(row, st) := doubles m st in
      let '(rows, st) := random_sample n' m st in
      (row :: rows, st)
  end.

End MT19937.

Definition rng := MT19937.state.

(** ** Element-wise helpers on arrays *)

Definition mat_zip_with (f : num → num → num) (a b : matrix) : matrix :=
  zip_with (zip_with f) a b.

Definition mat_map (f : num → num) (a : matrix) : matrix := map (map f) a.

(** [m[inds, inds] = v] (one value) and [m[inds, inds] = vs] (a vector). *)
Definition set_diag (v : num) (m : matrix) : matrix :=
  imap (λ i row, <[i := v]> row) m.

Definition set_diag_vec (vs : vec) (m : matrix) : matrix :=
  imap (λ i row, <[i := default 0%Qc (vs !! i)]> row) m.

(** [a.min()] of the flattened array; NumPy raises on an empty array. *)
Definition np_min (l : vec) : result num :=
  match l with
  | [] => Raise ValueError
  | x :: l' => Ok (foldl qmin x l')
  end.

Fixpoint argmax_from (best : nat) (bv : num) (i : nat) (l : vec) : nat :=
  match l with
  | [] => best
  | x :: l' =>
      if decide (bv < x)%Qc then argmax_from i x (S i) l'
      else argmax_from best bv (S i) l'
  end.

Definition argmax (l : vec) : result nat :=
  match l with
  | [] => Raise ValueError
  | x :: l' => Ok (argmax_from 0 x 1 l')
  end.

(** Rows in which some entries have been overwritten by [-np.inf]. *)
Inductive ext := NegInf | Fin (q : num).

Definition ext_lt (a b : ext) : bool :=
  match a, b with
  | _, NegInf => false
  | NegInf, Fin _ => true
  | Fin x, Fin y => bool_decide (x < y)%Qc
  end.

Fixpoint argmax_ext_from (best : nat) (bv : ext) (i : nat) (l : list ext) : nat :=
  match l with
  | [] => best
  | x :: l' =>
      if ext_lt bv x then argmax_ext_from i x (S i) l'
      else argmax_ext_from best bv (S i) l'
  end.

Definition argmax_ext (l : list ext) : result nat :=
  match l with
  | [] => Raise ValueError
  | x :: l' => Ok (argmax_ext_from 0 x 1 l')
  end.

(** [np.where(mask)[0]]: the positions that hold [True]. *)
Definition where_true (mask : list bool) : list nat :=
  omap (λ p : nat * bool, if p.2 then Some p.1 else None) (imap (λ i b, (i, b)) mask).

(** Squared Euclidean distance of two rows, [((a - b) ** 2).sum()]. *)
Definition sqdist (a b : vec) : num :=
  qsum (zip_with (λ x y, qsqr (x - y)%Qc) a b).

(** [mapM] for the error monad. *)
Fixpoint mapM {A B} (f : A → result B) (l : list A) : result (list B) :=
  match l with
  | [] => Ok []
  | x :: l' => y ← f x; ys ← mapM f l'; Ok (y :: ys)
  end.

Fixpoint foldM {A B} (f : A → B → result A) (a : A) (l : list B) : result A :=
  match l with
  | [] => Ok a
  | x :: l' => a' ← f a x; foldM f a' l'
  end.

(** ** class AffinityPropagation *)
Module AffinityPropagation.
Local Open Scope Qc_scope.

Record t := {
  damping : num;
  max_iter : nat;
  convergence_iter : nat;
  preference : option num;
  random_seed : Z;
  (* filled by fit_predict *)
  n_clusters : option nat;
  cluster_means : option matrix;
  cluster_index : option (list nat);
  wcss : option num;
  exemplars : option (list nat);
  converged : option bool
}.

(** [__init__] *)
Definition init (damping : num) (max_iter convergence_iter : nat)
    (preference : option num) : t :=
  {| damping := damping; max_iter := max_iter;
     convergence_iter := convergence_iter; preference := preference;
     random_seed := 123;
     n_clusters := None; cluster_means := None; cluster_index := None;
     wcss := None; exemplars := None; converged := None |}.

(** [compute_wcss]: the value left in [self.wcss]. *)
Definition compute_wcss (data : matrix) (cluster_index : list nat)
    (means : matrix) : num :=
  foldl (λ w k,
           let dist := map (λ row, sqdist row (default [] (means !! k))) data in
           w + qsum (zip_with (λ d c, if decide (c = k) then d else 0)
                              dist cluster_index))
        0 (seq 0 (length means)).

(** The similarities, [S[p, :] = -((data[p, :] - data[:, :]) ** 2).sum(1)]. *)
Definition similarity (data : matrix) : matrix :=
  map (λ p, map (λ q, - sqdist p q) data) data.

(** [if self.preference:] holds for a number other than zero. *)
Definition truthy (p : option num) : option num :=
  match p with
  | Some v => if decide (v = 0) then None else Some v
  | None => None
  end.

(** The diagonal of [S] after the preference has been written to it.
    On an empty array [np.median] is [nan] and nothing is written. *)
Definition with_preference (preference : option num) (S : matrix) : matrix :=
  match truthy preference with
  | Some p => set_diag p S
  | None =>
      match median (concat S) with
      | Some pref => set_diag pref S
      | None => S
      end
  end.

(** [S += 1.e-8*mag * S * (sample - 0.5)] *)
Definition perturb (mag : num) (S sample : matrix) : matrix :=
  mat_zip_with (λ s r, s + qfrac 1 100000000 * mag * s * (r - qfrac 1 2)) S sample.

(** The responsibility update of one row: [S - max], and at the
    position of the maximum [S - second max].  A row of one entry has
    [-inf] as its second maximum; the source then fills [R] and [A]
    with [inf] and [nan], no diagonal entry ever compares positive, no
    exemplar is found and the later [argmin] over no columns raises
    [ValueError]: that outcome is returned here at once. *)
Definition responsibility_row (Srow Arow : vec) : result vec :=
  let M := zip_with Qcplus Arow Srow in
  k ← argmax M;
  let maxval := default 0 (M !! k) in
  let update := map (λ s, s - maxval) Srow in
  let M' := <[k := NegInf]> (map Fin M) in
  k2 ← argmax_ext M';
  match default NegInf (M' !! k2) with
  | Fin maxval2 => Ok (<[k := default 0 (Srow !! k) - maxval2]> update)
  | NegInf => Raise ValueError
  end.

Definition damp (d : num) (old new : matrix) : matrix :=
  mat_zip_with (λ o u, d * o + (1 - d) * u) old new.

Definition availability_update (R : matrix) : matrix :=
  let n := length R in
  let posR := mat_map (λ r, if decide (r < 0) then 0 else r) R in
  let sumR := sum0 n posR in
  let values := zip_with Qcminus sumR (diag posR) in
  let update := map (λ prow,
                   zip_with Qcplus (zip_with Qcminus values prow) (diag R)) posR in
  let update := mat_map (λ u, if decide (0 < u) then 0 else u) update in
  set_diag_vec values update.

Record loop_state := {
  ls_A : matrix; ls_R : matrix; ls_exemplars : list bool;
  ls_q : nat; ls_count : nat
}.

(** One round of the [while] loop. *)
Definition round (self : t) (S : matrix) (st : loop_state) : result loop_state :=
  let exemplars_prev := ls_exemplars st in
  update ← mapM (λ p : vec * vec, responsibility_row p.1 p.2) (zip S (ls_A st));
  let R := damp (damping self) (ls_R st) update in
  let A := damp (damping self) (ls_A st) (availability_update R) in
  let exemplars := zip_with (λ a r, bool_decide (0 < a + r)) (diag A) (diag R) in
  let diff := length (filter (λ p : bool * bool, p.1 ≠ p.2)
                             (zip exemplars exemplars_prev)) in
  Ok {| ls_A := A; ls_R := R; ls_exemplars := exemplars;
        ls_q := (ls_q st + 1)%nat;
        ls_count := if decide (diff = 0%nat) then (ls_count st + 1)%nat else 0%nat |}.

(** [while (q < self.max_iter) and (count < self.convergence_iter)];
    [fuel] bounds the rounds that are left and starts at [max_iter]. *)
Fixpoint loop (fuel : nat) (self : t) (S : matrix) (st : loop_state)
    : result loop_state :=
  match fuel with
  | O => Ok st
  | Datatypes.S fuel' =>
      if decide (ls_q st < max_iter self ∧ ls_count st < convergence_iter self)%nat
      then st' ← round self S st; loop fuel' self S st'
      else Ok st
  end.

(** [S[:, exemplars].argmin(1)]: the nearest exemplar of every point. *)
Definition assign (D : matrix) (exemplars : list nat) : result (list nat) :=
  mapM (λ row, argmin (map (λ e, default 0 (row !! e)) exemplars)) D.

(** [np.where(clusters == k)[0]] *)
Definition members (clusters : list nat) (k : nat) : list nat :=
  where_true (map (λ c, bool_decide (c = k)) clusters).

(** One pass of the loop that replaces exemplar [k]. *)
Definition refine_cluster (D : matrix) (clusters : list nat)
    (exemplars : list nat) (k : nat) : result (list nat) :=
  let pts := members clusters k in
  if decide (2 < length pts)%nat then
    let dist_sum := map (λ p, qsum (map (λ q, entry D p q) pts)) pts in
    i ← argmin dist_sum;
    Ok (<[k := default 0%nat (pts !! i)]> exemplars)
  else Ok exemplars.

Definition refine (D : matrix) (clusters exemplars : list nat) : result (list nat) :=
  foldM (refine_cluster D clusters) exemplars (seq 0 (length exemplars)).

(** The perturbed similarities after preference and symmetry breaking,
    with the generator as [np.random.seed] and the draw leave it. *)
Definition prepare (self : t) (data : matrix) (g : rng)
    : result (matrix * rng) :=
  let n_obs := length data in
  let S := with_preference (preference self) (similarity data) in
  let g := MT19937.seed (random_seed self) in
  mag ← np_min (map qabs (concat S));
  let '(sample, g) := MT19937.random_sample n_obs n_obs g in
  Ok (perturb mag S sample, g).

(** [S[inds, inds] = 0.0; S[:, :] = -S[:, :]] *)
Definition distances (S : matrix) : matrix :=
  mat_map Qcopp (set_diag 0 S).

Definition initial_state (n_obs : nat) : loop_state :=
  {| ls_A := zeros2 n_obs n_obs; ls_R := zeros2 n_obs n_obs;
     ls_exemplars := replicate n_obs false; ls_q := 0; ls_count := 0 |}.

(** [data[exemplars, :]] *)
Definition rows (data : matrix) (exemplars : list nat) : matrix :=
  map (λ e, default [] (data !! e)) exemplars.

Definition fit_predict (self : t) (data : matrix) (g : rng)
    : result (t * rng) :=
  let n_obs := length data in
  prepared ← prepare self data g;
  let S := prepared.1 in
  let g := prepared.2 in
  st ← loop (max_iter self) self S (initial_state n_obs);
  let converged :=
    negb (bool_decide (ls_count st < convergence_iter self
                       ∧ max_iter self ≤ ls_q st)%nat) in
  let exemplars := where_true (ls_exemplars st) in
  let found_exemplars := length exemplars in
  let D := distances S in
  clusters ← assign D exemplars;
  exemplars ← refine D clusters exemplars;
  clusters ← assign D exemplars;
  let cluster_means := rows data exemplars in
  Ok ({| damping := damping self; max_iter := max_iter self;
         convergence_iter := convergence_iter self;
         preference := preference self; random_seed := random_seed self;
         n_clusters := Some found_exemplars;
         cluster_means := Some cluster_means;
         cluster_index := Some clusters;
         wcss := Some (compute_wcss data clusters cluster_means);
         exemplars := Some exemplars;
         converged := Some converged |}, g).

End AffinityPropagation.

(** ** Values held by the [clusters] dict

    [PArr0B] is a zero-dimensional NumPy array of dtype bool, what
    [np.empty_like] returns for a Python bool; [PArr0I] and [PArr0F]
    are its integer and float counterparts. *)
Inductive pyval :=
| PInt (z : Z)
| PFloat (q : num)
| PBool (b : bool)
| PArr0I (z : Z)
| PArr0F (q : num)
| PArr0B (b : bool)
| PArrI (l : list nat)
| PArrF (l : vec)
| PMat (m : matrix).

(** What uninitialised memory happens to hold when [np.empty_like]
    allocates: the source never chooses it, so it is an input. *)
Record uninit := { u_int : nat; u_float : num; u_bool : bool }.

Definition empty_like (u : uninit) (v : pyval) : pyval :=
  match v with
  | PInt _ | PArr0I _ => PArr0I (Z.of_nat (u_int u))
  | PFloat _ | PArr0F _ => PArr0F (u_float u)
  | PBool _ | PArr0B _ => PArr0B (u_bool u)
  | PArrI l => PArrI (map (λ _, u_int u) l)
  | PArrF l => PArrF (map (λ _, u_float u) l)
  | PMat m => PMat (mat_map (λ _, u_float u) m)
  end.

(** Typed reads of [d[key]]; a missing key raises [KeyError]. *)
Definition dict_get (d : gmap string pyval) (key : string) : result pyval :=
  match d !! key with Some v => Ok v | None => Raise (KeyError key) end.

Definition as_int (v : pyval) : result Z :=
  match v with PInt z | PArr0I z => Ok z | _ => Raise (TypeError) end.
Definition as_bool (v : pyval) : result bool :=
  match v with PBool b | PArr0B b => Ok b | _ => Raise (TypeError) end.
Definition as_arrI (v : pyval) : result (list nat) :=
  match v with PArrI l => Ok l | _ => Raise (TypeError) end.
Definition as_arrF (v : pyval) : result vec :=
  match v with PArrF l => Ok l | _ => Raise (TypeError) end.
Definition as_mat (v : pyval) : result matrix :=
  match v with PMat m => Ok m | _ => Raise (TypeError) end.

(** An ordered Python dict (insertion order matters for the layout of
    the feature vector) as an association list. *)
Fixpoint assoc {A} (key : string) (l : list (string * A)) : option A :=
  match l with
  | [] => None
  | (k, v) :: l' => if decide (k = key) then Some v else assoc key l'
  end.

Definition assoc_get {A} (l : list (string * A)) (key : string) : result A :=
  match assoc key l with Some v => Ok v | None => Raise (KeyError key) end.

(** ** class Clustering *)
Module Clustering.
Local Open Scope Qc_scope.

Inductive bound := fullday | summer_daylight.

Record t := {
  power_sources : list string;
  wind_resource : option vec;
  price : option vec;
  price_limit : num;
  wind_stow_limits : list (string * option num);
  ndays : Z;
  use_default_weights : bool;
  weights : list (string * num);
  divisions : list (string * Z);
  bounds : list (string * bound);
  n_cluster : Z;
  Nmaxiter : nat;
  sim_hard_partitions : bool;
  afp_preference_mult : num;
  afp_damping : num;
  afp_Nconverge : nat;
  afp_enforce_Ncluster : bool;
  afp_enforce_Ncluster_tol : Z;
  afp_enforce_Ncluster_maxiter : nat;
  data : option matrix;
  data_first : option vec;
  data_last : option vec;
  clusters : gmap string pyval;
  sim_start_days : list Z;
  index_first : Z;
  index_last : Z;
  daily_avg_dni : pyval
}.

Definition set_weights (v : list (string * num)) (self : t) : t :=
  {| power_sources := power_sources self; wind_resource := wind_resource
     self; price := price self; price_limit := price_limit self;
     wind_stow_limits := wind_stow_limits self; ndays := ndays self;
     use_default_weights := use_default_weights self; weights := v; divisions
     := divisions self; bounds := bounds self; n_cluster := n_cluster self;
     Nmaxiter := Nmaxiter self; sim_hard_partitions := sim_hard_partitions
     self; afp_preference_mult := afp_preference_mult self; afp_damping :=
     afp_damping self; afp_Nconverge := afp_Nconverge self;
     afp_enforce_Ncluster := afp_enforce_Ncluster self;
     afp_enforce_Ncluster_tol := afp_enforce_Ncluster_tol self;
     afp_enforce_Ncluster_maxiter := afp_enforce_Ncluster_maxiter self; data
     := data self; data_first := data_first self; data_last := data_last
     self; clusters := clusters self; sim_start_days := sim_start_days self;
     index_first := index_first self; index_last := index_last self;
     daily_avg_dni := daily_avg_dni self |}.

Definition set_divisions (v : list (string * Z)) (self : t) : t :=
  {| power_sources := power_sources self; wind_resource := wind_resource
     self; price := price self; price_limit := price_limit self;
     wind_stow_limits := wind_stow_limits self; ndays := ndays self;
     use_default_weights := use_default_weights self; weights := weights
     self; divisions := v; bounds := bounds self; n_cluster := n_cluster
     self; Nmaxiter := Nmaxiter self; sim_hard_partitions :=
     sim_hard_partitions self; afp_preference_mult := afp_preference_mult
     self; afp_damping := afp_damping self; afp_Nconverge := afp_Nconverge
     self; afp_enforce_Ncluster := afp_enforce_Ncluster self;
     afp_enforce_Ncluster_tol := afp_enforce_Ncluster_tol self;
     afp_enforce_Ncluster_maxiter := afp_enforce_Ncluster_maxiter self; data
     := data self; data_first := data_first self; data_last := data_last
     self; clusters := clusters self; sim_start_days := sim_start_days self;
     index_first := index_first self; index_last := index_last self;
     daily_avg_dni := daily_avg_dni self |}.

Definition set_bounds (v : list (string * bound)) (self : t) : t :=
  {| power_sources := power_sources self; wind_resource := wind_resource
     self; price := price self; price_limit := price_limit self;
     wind_stow_limits := wind_stow_limits self; ndays := ndays self;
     use_default_weights := use_default_weights self; weights := weights
     self; divisions := divisions self; bounds := v; n_cluster := n_cluster
     self; Nmaxiter := Nmaxiter self; sim_hard_partitions :=
     sim_hard_partitions self; afp_preference_mult := afp_preference_mult
     self; afp_damping := afp_damping self; afp_Nconverge := afp_Nconverge
     self; afp_enforce_Ncluster := afp_enforce_Ncluster self;
     afp_enforce_Ncluster_tol := afp_enforce_Ncluster_tol self;
     afp_enforce_Ncluster_maxiter := afp_enforce_Ncluster_maxiter self; data
     := data self; data_first := data_first self; data_last := data_last
     self; clusters := clusters self; sim_start_days := sim_start_days self;
     index_first := index_first self; index_last := index_last self;
     daily_avg_dni := daily_avg_dni self |}.

Definition set_afp_preference_mult (v : num) (self : t) : t :=
  {| power_sources := power_sources self; wind_resource := wind_resource
     self; price := price self; price_limit := price_limit self;
     wind_stow_limits := wind_stow_limits self; ndays := ndays self;
     use_default_weights := use_default_weights self; weights := weights
     self; divisions := divisions self; bounds := bounds self; n_cluster :=
     n_cluster self; Nmaxiter := Nmaxiter self; sim_hard_partitions :=
     sim_hard_partitions self; afp_preference_mult := v; afp_damping :=
     afp_damping self; afp_Nconverge := afp_Nconverge self;
     afp_enforce_Ncluster := afp_enforce_Ncluster self;
     afp_enforce_Ncluster_tol := afp_enforce_Ncluster_tol self;
     afp_enforce_Ncluster_maxiter := afp_enforce_Ncluster_maxiter self; data
     := data self; data_first := data_first self; data_last := data_last
     self; clusters := clusters self; sim_start_days := sim_start_days self;
     index_first := index_first self; index_last := index_last self;
     daily_avg_dni := daily_avg_dni self |}.

Definition set_afp_damping (v : num) (self : t) : t :=
  {| power_sources := power_sources self; wind_resource := wind_resource
     self; price := price self; price_limit := price_limit self;
     wind_stow_limits := wind_stow_limits self; ndays := ndays self;
     use_default_weights := use_default_weights self; weights := weights
     self; divisions := divisions self; bounds := bounds self; n_cluster :=
     n_cluster self; Nmaxiter := Nmaxiter self; sim_hard_partitions :=
     sim_hard_partitions self; afp_preference_mult := afp_preference_mult
     self; afp_damping := v; afp_Nconverge := afp_Nconverge self;
     afp_enforce_Ncluster := afp_enforce_Ncluster self;
     afp_enforce_Ncluster_tol := afp_enforce_Ncluster_tol self;
     afp_enforce_Ncluster_maxiter := afp_enforce_Ncluster_maxiter self; data
     := data self; data_first := data_first self; data_last := data_last
     self; clusters := clusters self; sim_start_days := sim_start_days self;
     index_first := index_first self; index_last := index_last self;
     daily_avg_dni := daily_avg_dni self |}.

Definition set_data (v : option matrix) (self : t) : t :=
  {| power_sources := power_sources self; wind_resource := wind_resource
     self; price := price self; price_limit := price_limit self;
     wind_stow_limits := wind_stow_limits self; ndays := ndays self;
     use_default_weights := use_default_weights self; weights := weights
     self; divisions := divisions self; bounds := bounds self; n_cluster :=
     n_cluster self; Nmaxiter := Nmaxiter self; sim_hard_partitions :=
     sim_hard_partitions self; afp_preference_mult := afp_preference_mult
     self; afp_damping := afp_damping self; afp_Nconverge := afp_Nconverge
     self; afp_enforce_Ncluster := afp_enforce_Ncluster self;
     afp_enforce_Ncluster_tol := afp_enforce_Ncluster_tol self;
     afp_enforce_Ncluster_maxiter := afp_enforce_Ncluster_maxiter self; data
     := v; data_first := data_first self; data_last := data_last self;
     clusters := clusters self; sim_start_days := sim_start_days self;
     index_first := index_first self; index_last := index_last self;
     daily_avg_dni := daily_avg_dni self |}.

Definition set_data_first (v : option vec) (self : t) : t :=
  {| power_sources := power_sources self; wind_resource := wind_resource
     self; price := price self; price_limit := price_limit self;
     wind_stow_limits := wind_stow_limits self; ndays := ndays self;
     use_default_weights := use_default_weights self; weights := weights
     self; divisions := divisions self; bounds := bounds self; n_cluster :=
     n_cluster self; Nmaxiter := Nmaxiter self; sim_hard_partitions :=
     sim_hard_partitions self; afp_preference_mult := afp_preference_mult
     self; afp_damping := afp_damping self; afp_Nconverge := afp_Nconverge
     self; afp_enforce_Ncluster := afp_enforce_Ncluster self;
     afp_enforce_Ncluster_tol := afp_enforce_Ncluster_tol self;
     afp_enforce_Ncluster_maxiter := afp_enforce_Ncluster_maxiter self; data
     := data self; data_first := v; data_last := data_last self; clusters :=
     clusters self; sim_start_days := sim_start_days self; index_first :=
     index_first self; index_last := index_last self; daily_avg_dni :=
     daily_avg_dni self |}.

Definition set_data_last (v : option vec) (self : t) : t :=
  {| power_sources := power_sources self; wind_resource := wind_resource
     self; price := price self; price_limit := price_limit self;
     wind_stow_limits := wind_stow_limits self; ndays := ndays self;
     use_default_weights := use_default_weights self; weights := weights
     self; divisions := divisions self; bounds := bounds self; n_cluster :=
     n_cluster self; Nmaxiter := Nmaxiter self; sim_hard_partitions :=
     sim_hard_partitions self; afp_preference_mult := afp_preference_mult
     self; afp_damping := afp_damping self; afp_Nconverge := afp_Nconverge
     self; afp_enforce_Ncluster := afp_enforce_Ncluster self;
     afp_enforce_Ncluster_tol := afp_enforce_Ncluster_tol self;
     afp_enforce_Ncluster_maxiter := afp_enforce_Ncluster_maxiter self; data
     := data self; data_first := data_first self; data_last := v; clusters :=
     clusters self; sim_start_days := sim_start_days self; index_first :=
     index_first self; index_last := index_last self; daily_avg_dni :=
     daily_avg_dni self |}.

Definition set_clusters (v : gmap string pyval) (self : t) : t :=
  {| power_sources := power_sources self; wind_resource := wind_resource
     self; price := price self; price_limit := price_limit self;
     wind_stow_limits := wind_stow_limits self; ndays := ndays self;
     use_default_weights := use_default_weights self; weights := weights
     self; divisions := divisions self; bounds := bounds self; n_cluster :=
     n_cluster self; Nmaxiter := Nmaxiter self; sim_hard_partitions :=
     sim_hard_partitions self; afp_preference_mult := afp_preference_mult
     self; afp_damping := afp_damping self; afp_Nconverge := afp_Nconverge
     self; afp_enforce_Ncluster := afp_enforce_Ncluster self;
     afp_enforce_Ncluster_tol := afp_enforce_Ncluster_tol self;
     afp_enforce_Ncluster_maxiter := afp_enforce_Ncluster_maxiter self; data
     := data self; data_first := data_first self; data_last := data_last
     self; clusters := v; sim_start_days := sim_start_days self; index_first
     := index_first self; index_last := index_last self; daily_avg_dni :=
     daily_avg_dni self |}.

Definition set_sim_start_days (v : list Z) (self : t) : t :=
  {| power_sources := power_sources self; wind_resource := wind_resource
     self; price := price self; price_limit := price_limit self;
     wind_stow_limits := wind_stow_limits self; ndays := ndays self;
     use_default_weights := use_default_weights self; weights := weights
     self; divisions := divisions self; bounds := bounds self; n_cluster :=
     n_cluster self; Nmaxiter := Nmaxiter self; sim_hard_partitions :=
     sim_hard_partitions self; afp_preference_mult := afp_preference_mult
     self; afp_damping := afp_damping self; afp_Nconverge := afp_Nconverge
     self; afp_enforce_Ncluster := afp_enforce_Ncluster self;
     afp_enforce_Ncluster_tol := afp_enforce_Ncluster_tol self;
     afp_enforce_Ncluster_maxiter := afp_enforce_Ncluster_maxiter self; data
     := data self; data_first := data_first self; data_last := data_last
     self; clusters := clusters self; sim_start_days := v; index_first :=
     index_first self; index_last := index_last self; daily_avg_dni :=
     daily_avg_dni self |}.

Definition set_index_first (v : Z) (self : t) : t :=
  {| power_sources := power_sources self; wind_resource := wind_resource
     self; price := price self; price_limit := price_limit self;
     wind_stow_limits := wind_stow_limits self; ndays := ndays self;
     use_default_weights := use_default_weights self; weights := weights
     self; divisions := divisions self; bounds := bounds self; n_cluster :=
     n_cluster self; Nmaxiter := Nmaxiter self; sim_hard_partitions :=
     sim_hard_partitions self; afp_preference_mult := afp_preference_mult
     self; afp_damping := afp_damping self; afp_Nconverge := afp_Nconverge
     self; afp_enforce_Ncluster := afp_enforce_Ncluster self;
     afp_enforce_Ncluster_tol := afp_enforce_Ncluster_tol self;
     afp_enforce_Ncluster_maxiter := afp_enforce_Ncluster_maxiter self; data
     := data self; data_first := data_first self; data_last := data_last
     self; clusters := clusters self; sim_start_days := sim_start_days self;
     index_first := v; index_last := index_last self; daily_avg_dni :=
     daily_avg_dni self |}.

Definition set_index_last (v : Z) (self : t) : t :=
  {| power_sources := power_sources self; wind_resource := wind_resource
     self; price := price self; price_limit := price_limit self;
     wind_stow_limits := wind_stow_limits self; ndays := ndays self;
     use_default_weights := use_default_weights self; weights := weights
     self; divisions := divisions self; bounds := bounds self; n_cluster :=
     n_cluster self; Nmaxiter := Nmaxiter self; sim_hard_partitions :=
     sim_hard_partitions self; afp_preference_mult := afp_preference_mult
     self; afp_damping := afp_damping self; afp_Nconverge := afp_Nconverge
     self; afp_enforce_Ncluster := afp_enforce_Ncluster self;
     afp_enforce_Ncluster_tol := afp_enforce_Ncluster_tol self;
     afp_enforce_Ncluster_maxiter := afp_enforce_Ncluster_maxiter self; data
     := data self; data_first := data_first self; data_last := data_last
     self; clusters := clusters self; sim_start_days := sim_start_days self;
     index_first := index_first self; index_last := v; daily_avg_dni :=
     daily_avg_dni self |}.

Definition set_daily_avg_dni (v : pyval) (self : t) : t :=
  {| power_sources := power_sources self; wind_resource := wind_resource
     self; price := price self; price_limit := price_limit self;
     wind_stow_limits := wind_stow_limits self; ndays := ndays self;
     use_default_weights := use_default_weights self; weights := weights
     self; divisions := divisions self; bounds := bounds self; n_cluster :=
     n_cluster self; Nmaxiter := Nmaxiter self; sim_hard_partitions :=
     sim_hard_partitions self; afp_preference_mult := afp_preference_mult
     self; afp_damping := afp_damping self; afp_Nconverge := afp_Nconverge
     self; afp_enforce_Ncluster := afp_enforce_Ncluster self;
     afp_enforce_Ncluster_tol := afp_enforce_Ncluster_tol self;
     afp_enforce_Ncluster_maxiter := afp_enforce_Ncluster_maxiter self; data
     := data self; data_first := data_first self; data_last := data_last
     self; clusters := clusters self; sim_start_days := sim_start_days self;
     index_first := index_first self; index_last := index_last self;
     daily_avg_dni := v |}.

(** [self.data.shape]: [data] is the placeholder [{}] until
    [calculate_metrics] (or the caller) stores an array. *)
Definition get_data (self : t) : result matrix :=
  match data self with
  | Some d => Ok d
  | None => Raise (AttributeError "shape")
  end.

(** [data.shape[1]] *)
Definition ncols (m : matrix) : nat := length (default [] (head m)).

(** A value that [fit_predict] has filled in. *)
Definition fitted {A} (o : option A) : result A :=
  match o with Some a => Ok a | None => Raise TypeError end.

(** [a / b] between Python numbers. *)
Definition pydiv (a b : num) : result num :=
  if decide (b = 0) then Raise ZeroDivisionError else Ok (a / b).

(** *** Feature construction: [calculate_metrics] *)

Definition has (k : string) (l : list string) : bool := bool_decide (k ∈ l).

(** [sub in s] on strings. *)
Definition contains (sub s : string) : bool :=
  match String.index 0 sub s with Some _ => true | None => false end.

(** [key.split('_')[0]] *)
Fixpoint before_underscore (s : string) : string :=
  match s with
  | EmptyString => EmptyString
  | String c s' =>
      if decide (c = "_"%char) then EmptyString
      else String c (before_underscore s')
  end.

(** [int(x)] on a float: truncation towards zero. *)
Definition trunc (x : num) : Z := Z.quot (Qnum (this x)) (Zpos (Qden (this x))).

(** [d.update({k: v})] on an ordered dict. *)
Fixpoint assoc_set {A} (key : string) (v : A) (l : list (string * A))
    : list (string * A) :=
  match l with
  | [] => [(key, v)]
  | (k, x) :: l' =>
      if decide (k = key) then (k, v) :: l' else (k, x) :: assoc_set key v l'
  end.

(** [get_default_weights] *)
Definition get_default_weights (self : t)
    : list (string * num) * list (string * Z) * list (string * bound) :=
  let iscsp := has "tower" (power_sources self) || has "trough" (power_sources self) in
  let ispv := has "pv" (power_sources self) in
  let iswind := has "wind" (power_sources self) in
  let isdispatch := iscsp || has "battery" (power_sources self) in
  let w (b : bool) (x : num) : num := if b then x else 0 in
  let dv (b : bool) (x : Z) : Z := if b then x else 1%Z in
  let weights :=
    [("dni", w iscsp 1); ("dni_prev", w iscsp (qfrac 1 2));
     ("dni_next", w iscsp (qfrac 1 2)); ("ghi", w ispv 1);
     ("ghi_prev", w (ispv && isdispatch) (qfrac 1 2));
     ("ghi_next", w (ispv && isdispatch) (qfrac 1 2));
     ("tdry", w iscsp (qfrac 1 4)); ("wspd_solar", 0);
     ("wspd", w iswind 1);
     ("wspd_prev", w (iswind && isdispatch) (qfrac 1 2));
     ("wspd_next", w (iswind && isdispatch) (qfrac 1 2));
     ("price", w isdispatch (qfrac 3 4));
     ("price_prev", w isdispatch (qfrac 3 8));
     ("price_next", w isdispatch (qfrac 3 8))] in
  let divisions :=
    [("dni", dv iscsp 4%Z); ("dni_prev", dv iscsp 2%Z); ("dni_next", dv iscsp 2%Z);
     ("ghi", dv ispv 4%Z); ("ghi_prev", dv (ispv && isdispatch) 2%Z);
     ("ghi_next", dv (ispv && isdispatch) 2%Z); ("tdry", dv iscsp 2%Z);
     ("wspd_solar", 1%Z); ("wspd", dv iswind 4%Z);
     ("wspd_prev", dv (iswind && isdispatch) 2%Z);
     ("wspd_next", dv (iswind && isdispatch) 2%Z);
     ("price", dv isdispatch 4%Z); ("price_prev", dv isdispatch 2%Z);
     ("price_next", dv isdispatch 2%Z)] in
  let daylight_metrics :=
    ["dni"; "dni_prev"; "dni_next"; "ghi"; "ghi_prev"; "ghi_next"; "wspd_solar"] in
  let bounds :=
    map (λ kv : string * num,
           (kv.1, if has kv.1 daylight_metrics then summer_daylight else fullday))
        weights in
  (weights, divisions, bounds).

(** What [read_weather] returns (the parsed resource file) and what
    [get_sunrise_sunset] returns for day 172: both come from outside
    the class (file contents, the pysolar package) and are inputs. *)
Record Weather := {
  w_year : Z;
  w_ghi : vec; w_dni : vec; w_tdry : vec; w_wspd : vec;
  w_sunrise : num; w_sunset : num
}.

(** [a.mean()]; NumPy yields [nan] on an empty slice, which has no
    rational counterpart: the quotient by zero is 0 here. *)
Definition mean (l : vec) : num := qsum l / qz (Z.of_nat (length l)).

(** [a[i:j]] for indices that are not negative. *)
Definition slice {A} (l : list A) (i j : nat) : list A := take (j - i) (drop i l).

(** [np.percentile(a, q)] with linear interpolation, [a] not empty. *)
Definition percentile (l : vec) (q : num) : num :=
  let s := sort_by qle_bool l in
  let p := q / qz 100 * qz (Z.of_nat (length s) - 1) in
  let lo := Z.to_nat (trunc p) in
  let a := default 0 (s !! lo) in
  let b := default a (s !! S lo) in
  a + (p - qz (Z.of_nat lo)) * (b - a).

Definition np_max (l : vec) : result num :=
  match l with
  | [] => Raise ValueError
  | x :: l' => Ok (foldl qmax x l')
  end.

(** [limit_outliers] *)
Definition limit_outliers (array : vec) (cutoff_iqr max_iqr : num) : result vec :=
  let is_normalized :=
    bool_decide (qfrac 99 100 < mean array) && bool_decide (mean array < qfrac 101 100) in
  let q1 := percentile array (qz 25) in
  let q3 := percentile array (qz 75) in
  let iqr := q3 - q1 in
  let high := q3 + cutoff_iqr * iqr in
  let low := q1 - cutoff_iqr * iqr in
  ymax ← np_max array;
  ymin ← np_min array;
  let ymax_scaled := qmin ymax (q3 + max_iqr * iqr) in
  let ymin_scaled := qmax ymin (q1 - max_iqr * iqr) in
  let array := map (λ x, if decide (high < x)
                         then high + (x - high) / (ymax - high) * (ymax_scaled - high)
                         else x) array in
  let array := map (λ x, if decide (x < low)
                         then low - (low - x) / (low - ymin) * (low - ymin_scaled)
                         else x) array in
  Ok (if is_normalized then map (λ x, x / mean array) array else array).

(** The points of division [i] and their weights: [pts[i]], [wts[i]]. *)
Definition division_points (n : num) (i : Z) : list Z * vec :=
  let pstart := qz i * n in
  let pend := qz (i + 1) * n in
  let npt := Z.to_nat (trunc pend - trunc pstart + 1) in
  let pts := map (λ h, trunc pstart + Z.of_nat h)%Z (seq 0 npt) in
  let wts := replicate npt (1 / n) in
  let wts := <[0%nat := (1 - (pstart - qz (trunc pstart))) / n]> wts in
  let wts := <[(npt - 1)%nat := (pend - qz (trunc pend)) / n]> wts in
  (pts, wts).

(** [daily_metrics[key][d, i]] before normalization. *)
Definition division_average (series : vec) (n_pts : Z) (first : Z)
    (pw : list Z * vec) : result num :=
  foldM (λ acc (ph : Z * num),
           if decide (ph.1 = n_pts) then Ok acc
           else x ← getitem_Z series (first + ph.1);
                Ok (acc + x * ph.2))
        0 (zip pw.1 pw.2).

(** "Normalize daily metrics" *)
Definition normalize (table : matrix) : result matrix :=
  max_metric ← np_max (concat table);
  min_metric ← np_min (concat table);
  Ok (mat_map (λ x, (x - min_metric) / qmax (qfrac 1 1000000) (max_metric - min_metric))
              table).

(** The table of one metric whose weight is positive. *)
Definition daily_metric (self : t) (bounds : list (string * bound))
    (hourly_data : list (string * vec)) (n_pts_day sunrise_idx sunset_idx : Z)
    (key : string) : result matrix :=
  let data_name := before_underscore key in
  n_div ← assoc_get (divisions self) key;
  bd ← assoc_get bounds key;
  let n_pts := match bd with fullday => n_pts_day | _ => (sunset_idx - sunrise_idx)%Z end in
  let p1 := match bd with fullday => 0%Z | _ => sunrise_idx end in
  n ← pydiv (qz n_pts) (qz n_div);
  _ ← (if decide (0 < n_div)%Z then pydiv 1 n else Ok 0);
  let pw := map (division_points n) (map Z.of_nat (seq 0 (Z.to_nat n_div))) in
  table ← mapM (λ d : nat,
             mapM (λ p, series ← assoc_get hourly_data data_name;
                        division_average series n_pts (Z.of_nat d * n_pts_day + p1) p)
                  pw)
          (seq 0 365);
  normalize table.

(** [get_data_for_group(d1, name)] *)
Definition group_days (self : t) (d1 : Z) (name : string) : list Z :=
  if contains "_prev" name then [d1 - 1]%Z
  else if contains "_next" name then [d1 + ndays self]%Z
  else map (λ i, d1 + Z.of_nat i)%Z (seq 0 (Z.to_nat (ndays self))).

Definition sentinel : num := - qz 100000000.

Definition get_data_for_group (self : t) (daily_metrics : list (string * matrix))
    (d1 : Z) (name : string) : result vec :=
  let days := group_days self d1 name in
  ndiv ← assoc_get (divisions self) name;
  rows ← mapM (λ d : Z,
           if decide (0 ≤ d ∧ d < 365)%Z then
             table ← assoc_get daily_metrics name;
             row ← getitem table (Z.to_nat d);
             w ← assoc_get (weights self) name;
             Ok (map (λ x, x * w) row)
           else Ok (replicate (Z.to_nat ndiv) sentinel)) days;
  Ok (concat rows).

(** The stow limit of the concentrating-solar technologies,
    [max([limits[k] if k in power_sources else 0.0 for k in ...])]. *)
Definition csp_stow_limit (self : t) : result (option num) :=
  if has "tower" (power_sources self) || has "trough" (power_sources self) then
    limits ← mapM (λ k, if has k (power_sources self)
                        then assoc_get (wind_stow_limits self) k
                        else Ok (Some 0)) ["tower"; "trough"];
    match limits with
    | [Some a; Some b] => Ok (Some (qmax a b))
    | _ => Raise TypeError
    end
  else Ok None.

(** [a[mask > limit] = v], the mask taken from [by]. *)
Definition clip_where (by_ a : vec) (limit : num) (v : num → num) : vec :=
  zip_with (λ w x, if decide (limit < w) then v x else x) by_ a.

(** The hourly series after stow truncation and price handling.  When
    no wind resource is given, ["wspd"] and ["wspd_solar"] are one and
    the same array, so the stow truncation of one shows in the other. *)
Definition ingest (self : t) (weather : Weather) : result (list (string * vec)) :=
  let n_pts := length (w_ghi weather) in
  let dni := w_dni weather in
  let ghi := w_ghi weather in
  let wspd_solar := w_wspd weather in
  let own_wind := match wind_resource self with
                  | Some (x :: l) => Some (x :: l)
                  | _ => None
                  end in
  csp_stow_wspd ← csp_stow_limit self;
  pv_stow_wspd ← assoc_get (wind_stow_limits self) "pv";
  wind_stow_wspd ← assoc_get (wind_stow_limits self) "wind";
  let '(dni, wspd_solar) :=
    match AffinityPropagation.truthy csp_stow_wspd with
    | Some lim => (clip_where wspd_solar dni lim (λ _, 0),
                   clip_where wspd_solar wspd_solar lim (λ _, lim))
    | None => (dni, wspd_solar)
    end in
  let wspd := default wspd_solar own_wind in
  let ghi :=
    match AffinityPropagation.truthy pv_stow_wspd with
    | Some lim => clip_where wspd ghi lim (λ _, 0)
    | None => ghi
    end in
  let wspd :=
    match AffinityPropagation.truthy wind_stow_wspd with
    | Some lim => clip_where wspd wspd lim (λ _, lim)
    | None => wspd
    end in
  let wspd_solar := match own_wind with Some _ => wspd_solar | None => wspd end in
  price ←
    match price self with
    | None => Ok (replicate n_pts 1)
    | Some p =>
        if decide (length p = n_pts) then
          match AffinityPropagation.truthy (Some (price_limit self)) with
          | Some lim => limit_outliers p lim (lim + qfrac 1 2)
          | None => Ok p
          end
        else Ok (replicate n_pts 1)
    end;
  Ok [("dni", dni); ("ghi", ghi); ("tdry", w_tdry weather);
      ("wspd_solar", wspd_solar); ("wspd", wspd); ("price", price)].

(** The loop that is meant to fill [self.daily_avg_dni]: every pass
    re-binds the attribute to the mean of one day. *)
Definition daily_avg_dni_loop (dni : vec) (n_pts_day : nat) (self : t) : t :=
  foldl (λ self d,
           set_daily_avg_dni
             (PFloat (mean (slice dni (d * n_pts_day) ((d + 1) * n_pts_day))
                      / qz 1000)) self)
        (set_daily_avg_dni (PArrF (zeros 365)) self) (seq 0 365).

(** [n_group = int((365 - 2) / self.ndays)] and the shape check of
    [np.zeros]. *)
Definition count_groups (self : t) : result nat :=
  q ← pydiv (qz (365 - 2)) (qz (ndays self));
  if decide (trunc q < 0)%Z then Raise ValueError else Ok (Z.to_nat (trunc q)).

(** The row of group [d1]: the metrics with positive weight, in the
    order of [self.weights]. *)
Definition group_row (self : t) (daily_metrics : list (string * matrix))
    (d1 : Z) : result vec :=
  parts ← mapM (get_data_for_group self daily_metrics d1)
               (map fst (filter (λ kv : string * num, 0 < kv.2) (weights self)));
  Ok (concat parts).

(** "Set weighting factors, averaging divisions, and averaging
    boundaries": the defaults, or the user's dicts completed with the
    keys they lack. *)
Definition set_weighting (self : t) : t :=
  let '(weights0, divisions0, bounds0) := get_default_weights self in
  let self := set_bounds bounds0 self in
  if use_default_weights self || bool_decide (length (weights self) = 0%nat)
  then set_divisions divisions0 (set_weights weights0 self)
  else
    let missing := filter (λ k, assoc k (weights self) = None) (map fst weights0) in
    let self := set_weights (foldl (λ w k, assoc_set k 0 w) (weights self) missing) self in
    set_divisions (foldl (λ d k, assoc_set k 1%Z d) (divisions self) missing) self.

Definition calculate_metrics (weather : Weather) (self : t) : result t :=
  let bounds0 := (get_default_weights self).2 in
  let self := set_weighting self in
  let n_pts := length (w_ghi weather) in
  let n_pts_day := (n_pts / 365)%nat in
  let n_per_hour := (Z.of_nat n_pts / 8760)%Z in
  let self := daily_avg_dni_loop (w_dni weather) n_pts_day self in
  hourly_data ← ingest self weather;
  let sunrise_idx := trunc (w_sunrise weather * qz n_per_hour) in
  let sunset_idx := Z.succ (trunc (w_sunset weather * qz n_per_hour)) in
  daily_metrics ←
    mapM (λ kv : string * num,
            if decide (0 < kv.2) then
              table ← daily_metric self bounds0 hourly_data (Z.of_nat n_pts_day)
                        sunrise_idx sunset_idx kv.1;
              Ok (kv.1, table)
            else Ok (kv.1, []))
         (weights self);
  n_group ← count_groups self;
  let active := filter (λ kv : string * num, 0 < kv.2) (weights self) in
  if decide (n_group = 0%nat ∧ active ≠ []) then Raise TypeError
  else
    rows ← mapM (λ g : nat, group_row self daily_metrics (Z.of_nat g * ndays self + 1))
                (seq 0 n_group);
    first ← group_row self daily_metrics 0;
    last ← group_row self daily_metrics (ndays self * Z.of_nat n_group + 1);
    Ok (set_data_last (Some last) (set_data_first (Some first)
          (set_data (Some rows) self))).

(** The dict built when [n_group == 1]. *)
Definition single_cluster (data : matrix) : gmap string pyval :=
  <["exemplars" := PArrI (replicate 1 0%nat)]>
  (<["partition_matrix" := PMat (replicate 1 (replicate 1 1))]>
  (<["means" := PMat (mat_zip_with Qcmult (replicate 1 (replicate (ncols data) 1)) data)]>
  (<["count" := PArrI (replicate 1 1%nat)]>
  (<["index" := PArrI (replicate (length data) 0%nat)]>
  (<["wcss" := PFloat 0]>
  (<["n_cluster" := PInt 1]> ∅)))))).

(** [partition_matrix[inds, index[inds]] = 1.0] on an array of zeros. *)
Definition hard_partition (n_group n_cluster : nat) (index : list nat) : matrix :=
  imap (λ g row, <[default 0%nat (index !! g) := 1]> row) (zeros2 n_group n_cluster).

(** The [preference] handed to the engine: [None] for the default
    multiplier 1.0, else the median of the similarities (of all of
    them, [np.median(distsqr)]) times the multiplier.  On empty data
    the median is [nan] and the engine raises [ValueError]. *)
Definition chosen_preference (self : t) (data : matrix) : result (option num) :=
  if decide (afp_preference_mult self = 1) then Ok None
  else match median (concat (AffinityPropagation.similarity data)) with
       | Some m => Ok (Some (m * afp_preference_mult self))
       | None => Raise ValueError
       end.

(** [form_clusters_using_current_parameters]: the new [self], the
    generator, and the value returned to the caller ([None] unless the
    single-group branch returns its dict).  The fuzzy branch reads
    [self.mfuzzy], which no method of the class ever assigns. *)
Definition form_clusters_using_current_parameters (self : t) (g : rng)
    : result (t * rng * option (gmap string pyval)) :=
  data ← get_data self;
  let n_group := length data in
  if decide (n_group = 1%nat) then Ok (self, g, Some (single_cluster data))
  else
    pref ← chosen_preference self data;
    let alg := AffinityPropagation.init (afp_damping self) (Nmaxiter self)
                 (afp_Nconverge self) pref in
    fit ← AffinityPropagation.fit_predict alg data g;
    let alg := fit.1 in
    let g := fit.2 in
    index ← fitted (AffinityPropagation.cluster_index alg);
    n_cluster ← fitted (AffinityPropagation.n_clusters alg);
    means ← fitted (AffinityPropagation.cluster_means alg);
    wcss ← fitted (AffinityPropagation.wcss alg);
    exemplars ← fitted (AffinityPropagation.exemplars alg);
    converged ← fitted (AffinityPropagation.converged alg);
    let count := map (λ k, length (filter (λ c, c = k) index)) (seq 0 n_cluster) in
    partition_matrix ←
      (if sim_hard_partitions self
       then Ok (hard_partition n_group n_cluster index)
       else Raise (AttributeError "mfuzzy"));
    let weights := map (λ s, s / qz (Z.of_nat n_group)) (sum0 n_cluster partition_matrix) in
    let clusters : gmap string pyval :=
      <["weights" := PArrF weights]>
      (<["partition_matrix" := PMat partition_matrix]>
      (<["count" := PArrI count]>
      (<["converged" := PBool converged]>
      (<["exemplars" := PArrI exemplars]>
      (<["wcss" := PFloat wcss]>
      (<["means" := PMat means]>
      (<["n_cluster" := PInt (Z.of_nat n_cluster)]>
      (<["index" := PArrI index]> ∅)))))))) in
    Ok (set_clusters clusters self, g, None).

(** *** The search for the preference multiplier in [create_clusters] *)

Record search := {
  s_mult : num; s_mult_prev : num; s_Nc_prev : Z; s_finished : bool
}.

(** The body of [while i < maxiter and not finished]. *)
Definition search_round (damping_original : num) (self : t) (g : rng)
    (s : search) : result (t * rng * search) :=
  let Ntarget := n_cluster self in
  let tol := afp_enforce_Ncluster_tol self in
  let urf := qfrac 17 20 in
  let mult := s_mult s in
  let self := set_afp_preference_mult mult self in
  formed ← form_clusters_using_current_parameters self g;
  let self := formed.1.1 in
  let g := formed.1.2 in
  converged ← dict_get (clusters self) "converged" ≫= as_bool;
  if negb converged then
    let self := set_afp_damping (afp_damping self + qfrac 1 20) self in
    let self := set_afp_damping (qmin (afp_damping self) (qfrac 19 20)) self in
    Ok (self, g, s)
  else
    let self := set_afp_damping damping_original self in
    Nc ← dict_get (clusters self) "n_cluster" ≫= as_int;
    if decide (Z.abs (Nc - Ntarget) ≤ tol)%Z then
      Ok (self, g, {| s_mult := mult; s_mult_prev := s_mult_prev s;
                      s_Nc_prev := s_Nc_prev s; s_finished := true |})
    else
      mult_new ←
        (if decide (s_Nc_prev s = 0 ∨ Nc = s_Nc_prev s)%Z
         then pydiv (mult * qz Nc) (qz Ntarget)
         else dNcdmult ← pydiv (qz (Nc - s_Nc_prev s)) (mult - s_mult_prev s);
              step ← pydiv (urf * qz (Nc - Ntarget)) dNcdmult;
              Ok (mult - step));
      mult_new ← (if decide (mult_new ≤ 0)
                  then pydiv (mult * qz Nc) (qz Ntarget)
                  else Ok mult_new);
      Ok (self, g, {| s_mult := mult_new; s_mult_prev := mult;
                      s_Nc_prev := Nc; s_finished := false |}).

(** The loop itself; [fuel] counts the iterations [maxiter - i] left. *)
Fixpoint search_loop (fuel : nat) (damping_original : num) (self : t)
    (g : rng) (s : search) : result (t * rng * search) :=
  match fuel with
  | O => Ok (self, g, s)
  | S fuel' =>
      if s_finished s then Ok (self, g, s)
      else r ← search_round damping_original self g s;
           search_loop fuel' damping_original r.1.1 r.1.2 r.2
  end.

(** *** The relabelling at the end of [create_clusters] *)

(** [dst[:, i] = src[:, k]] *)
Definition copy_column (src dst : matrix) (k i : nat) : matrix :=
  zip_with (λ srow drow, <[i := default 0 (srow !! k)]> drow) src dst.

(** [dst[i] = src[k]] for the one-dimensional entries. *)
Definition copy_item (src dst : pyval) (k i : nat) : result pyval :=
  match src, dst with
  | PArrI s, PArrI d => x ← getitem s k; Ok (PArrI (<[i := x]> d))
  | PArrF s, PArrF d => x ← getitem s k; Ok (PArrF (<[i := x]> d))
  | _, _ => Raise TypeError
  end.

Definition sort_cluster (inds : list nat) (clusters : gmap string pyval)
    (sorted : gmap string pyval) (i : nat) : result (gmap string pyval) :=
  k ← getitem inds i;
  src ← dict_get clusters "partition_matrix" ≫= as_mat;
  dst ← dict_get sorted "partition_matrix" ≫= as_mat;
  let sorted := <["partition_matrix" := PMat (copy_column src dst k i)]> sorted in
  sorted ← foldM (λ sorted key,
                    src ← dict_get clusters key;
                    dst ← dict_get sorted key;
                    v ← copy_item src dst k i;
                    Ok (<[key := v]> sorted))
                 sorted ["count"; "weights"; "exemplars"];
  src ← dict_get clusters "means" ≫= as_mat;
  dst ← dict_get sorted "means" ≫= as_mat;
  row ← getitem src k;
  Ok (<["means" := PMat (<[i := row]> dst)]> sorted).

Definition sort_index (inds : list nat) (clusters : gmap string pyval)
    (sorted : gmap string pyval) (g : nat) : result (gmap string pyval) :=
  k ← (dict_get clusters "index" ≫= as_arrI) ≫= (λ l, getitem l g);
  dst ← dict_get sorted "index" ≫= as_arrI;
  v ← getitem (argsort inds) k;
  Ok (<["index" := PArrI (<[g := v]> dst)]> sorted).

(** "Sort clusters in order of lowest to highest exemplar points". *)
Definition sort_clusters (u : uninit) (self : t) : result t :=
  data ← get_data self;
  let n_group := length data in
  n_cluster ← dict_get (clusters self) "n_cluster" ≫= as_int;
  exemplars ← dict_get (clusters self) "exemplars" ≫= as_arrI;
  let inds := argsort exemplars in
  let clusters_sorted : gmap string pyval :=
    map_imap (λ key v,
                Some (if bool_decide (key ∈ ["n_cluster"; "wcss"])
                      then v else empty_like u v))
             (clusters self) in
  clusters_sorted ← foldM (sort_cluster inds (clusters self)) clusters_sorted
                          (seq 0 (Z.to_nat n_cluster));
  clusters_sorted ← foldM (sort_index inds (clusters self)) clusters_sorted
                          (seq 0 n_group);
  Ok (set_clusters clusters_sorted self).

(** [create_clusters], with [verbose = False]. *)
Definition create_clusters (u : uninit) (self : t) (g : rng) : result (t * rng) :=
  formed ←
    (if negb (afp_enforce_Ncluster self)
     then r ← form_clusters_using_current_parameters self g; Ok r.1
     else
       let damping_original := afp_damping self in
       r ← search_loop (afp_enforce_Ncluster_maxiter self) damping_original self g
             {| s_mult := 1; s_mult_prev := 1; s_Nc_prev := 0; s_finished := false |};
       (if s_finished r.2 then Ok r.1
        else _ ← dict_get (clusters r.1.1) "n_cluster"; Ok r.1));
  self ← sort_clusters u formed.1;
  Ok (self, formed.2).

(** [set_sim_days] *)
Definition set_sim_days (self : t) : result t :=
  exemplars ← dict_get (clusters self) "exemplars" ≫= as_arrI;
  Ok (set_sim_start_days (map (λ e, 1 + Z.of_nat e * ndays self)%Z exemplars) self).

(** [self.data_first[f]]: the placeholder [{}] has no key [f]. *)
Definition feature (v : option vec) (f : nat) : result num :=
  match v with
  | Some l => getitem l f
  | None => Raise (KeyError (pretty f))
  end.

(** The squared distance of a boundary vector to the mean of cluster
    [k], over the features defined for that vector. *)
Definition boundary_distance (self : t) (v : option vec) (nfeatures k : nat)
    : result num :=
  foldM (λ dist f,
           x ← feature v f;
           if decide (- qz 1000000 < x) then
             means ← dict_get (clusters self) "means" ≫= as_mat;
             m ← getitem means k ≫= (λ row, getitem row f);
             Ok (dist + qsqr (x - m))
           else Ok dist)
        0 (seq 0 nfeatures).

(** [adjust_weighting_for_incomplete_groups] *)
Definition adjust_weighting_for_incomplete_groups (self : t) : result t :=
  data ← get_data self;
  let ngroup := length data in
  let nfeatures := ncols data in
  n_clusters ← dict_get (clusters self) "n_cluster" ≫= as_int;
  let ks := seq 0 (Z.to_nat n_clusters) in
  dist_first ← mapM (boundary_distance self (data_first self) nfeatures) ks;
  dist_last ← mapM (boundary_distance self (data_last self) nfeatures) ks;
  index_first ← argmin dist_first;
  index_last ← argmin dist_last;
  let self := set_index_first (Z.of_nat index_first) self in
  let self := set_index_last (Z.of_nat index_last) self in
  let nfirst := 1 in
  let nlast := (365 - Z.of_nat ngroup * ndays self - 1)%Z in
  ffirst ← pydiv nfirst (qz (ndays self));
  flast ← pydiv (qz nlast) (qz (ndays self));
  let ngroup_adj := qz (Z.of_nat ngroup) + ffirst + flast in
  pm ← dict_get (clusters self) "partition_matrix" ≫= as_mat;
  let s := sum0 (ncols pm) pm in
  x ← getitem s index_first;
  let s := <[index_first := x + ffirst]> s in
  x ← getitem s index_last;
  let s := <[index_last := x + flast]> s in
  Ok (set_clusters (<["weights_adjusted" := PArrF (map (λ x, x / ngroup_adj) s)]>
                      (clusters self)) self).

(** [self.daily_avg_dni[i]]: a NumPy scalar cannot be indexed. *)
Definition index_daily_avg_dni (v : pyval) (i : nat) : result num :=
  match v with
  | PArrF l => getitem l i
  | PArrI _ | PMat _ => Raise TypeError
  | _ => Raise IndexError
  end.

(** [csp_soc_heuristic]; [solar_multiple = None] is the default. *)
Definition csp_soc_heuristic (self : t) (clusterid : Z)
    (solar_multiple : option num) : result Z :=
  d ← getitem_Z (sim_start_days self) clusterid;
  prev_day_dni ← index_daily_avg_dni (daily_avg_dni self) (Z.to_nat (Z.max 0 (d - 2)));
  match AffinityPropagation.truthy solar_multiple with
  | None => Ok 10%Z
  | Some solar_multiple =>
      if decide (prev_day_dni < qz 6 ∨ solar_multiple < qfrac 3 2)
      then Ok 5%Z
      else if decide (solar_multiple < qz 2) then Ok 10%Z else Ok 20%Z
  end.

(** [battery_soc_heuristic] *)
Definition battery_soc_heuristic (self : t) (clusterid : Z) : Z := 0%Z.

(** [run_clustering] *)
Definition run_clustering (u : uninit) (weather : Weather) (self : t) (g : rng)
    : result (t * rng) :=
  self ← calculate_metrics weather self;
  r ← create_clusters u self g;
  self ← set_sim_days r.1;
  self ← adjust_weighting_for_incomplete_groups self;
  Ok (self, r.2).

(** *** Further methods of [Clustering] *)


(** [self.use_default_weights = v], likewise. *)
Definition set_use_default_weights (v : bool) (self : t) : t :=
  {| power_sources := power_sources self;
     wind_resource := wind_resource self;
     price := price self;
     price_limit := price_limit self;
     wind_stow_limits := wind_stow_limits self;
     ndays := ndays self;
     use_default_weights := v;
     weights := weights self;
     divisions := divisions self;
     bounds := bounds self;
     n_cluster := n_cluster self;
     Nmaxiter := Nmaxiter self;
     sim_hard_partitions := sim_hard_partitions self;
     afp_preference_mult := afp_preference_mult self;
     afp_damping := afp_damping self;
     afp_Nconverge := afp_Nconverge self;
     afp_enforce_Ncluster := afp_enforce_Ncluster self;
     afp_enforce_Ncluster_tol := afp_enforce_Ncluster_tol self;
     afp_enforce_Ncluster_maxiter := afp_enforce_Ncluster_maxiter self;
     data := data self;
     data_first := data_first self;
     data_last := data_last self;
     clusters := clusters self;
     sim_start_days := sim_start_days self;
     index_first := index_first self;
     index_last := index_last self;
     daily_avg_dni := daily_avg_dni self |}.

(** [get_sim_start_end_times]: the seconds at which the simulation of a
    cluster starts and ends; [self.sim_start_days] is a Python list, so
    a negative [clusterid] counts from its end. *)
Definition get_sim_start_end_times (self : t) (clusterid : Z) : result (Z * Z) :=
  d ← getitem_Z (sim_start_days self) clusterid;
  let time_start := ((d - 1) * 24 * 3600)%Z in
  let time_end := ((d + ndays self + 1) * 24 * 3600)%Z in
  Ok (time_start, time_end).

(** [get_soln_start_end_times]: the seconds between which the solution
    of a cluster is saved. *)
Definition get_soln_start_end_times (self : t) (clusterid : Z) : result (Z * Z) :=
  d ← getitem_Z (sim_start_days self) clusterid;
  let time_start := (d * 24 * 3600)%Z in
  let time_end := ((d + ndays self) * 24 * 3600)%Z in
  Ok (time_start, time_end).

End Clustering.

(** ** Objects and inputs used in the examples *)

(** The attribute values that [Clustering.__init__] assigns, for the
    given technologies, group length, target count and data. *)
Definition new_clustering (power_sources : list string) (ndays n_cluster : Z)
    (enforce : bool) (data : option matrix) : Clustering.t :=
  {| Clustering.power_sources := power_sources;
     Clustering.wind_resource := None;
     Clustering.price := None;
     Clustering.price_limit := qfrac 7 2;
     Clustering.wind_stow_limits :=
       [("tower", Some (qz 15)); ("trough", Some (qz 25)); ("pv", None); ("wind", None)];
     Clustering.ndays := ndays;
     Clustering.use_default_weights := true;
     Clustering.weights := [];
     Clustering.divisions := [];
     Clustering.bounds := [];
     Clustering.n_cluster := n_cluster;
     Clustering.Nmaxiter := 200;
     Clustering.sim_hard_partitions := true;
     Clustering.afp_preference_mult := 1%Qc;
     Clustering.afp_damping := qfrac 1 2;
     Clustering.afp_Nconverge := 10;
     Clustering.afp_enforce_Ncluster := enforce;
     Clustering.afp_enforce_Ncluster_tol := 0;
     Clustering.afp_enforce_Ncluster_maxiter := 50;
     Clustering.data := data;
     Clustering.data_first := None;
     Clustering.data_last := None;
     Clustering.clusters := ∅;
     Clustering.sim_start_days := [];
     Clustering.index_first := -1;
     Clustering.index_last := -1;
     Clustering.daily_avg_dni := PArrF [] |}.

(** Feature matrices with one feature per group. *)
Definition column_data (l : list Z) : matrix := map (λ z, [qz z]) l.

Definition memory_zero : uninit := {| u_int := 0; u_float := 0%Qc; u_bool := false |}.


(** A synthetic year of hourly weather: clear-sky-like irradiance between
    hour 6 and hour 18 with a slow seasonal drift, a daily temperature
    cycle, and the sunrise and sunset hours of day 172. *)
Definition example_weather : Clustering.Weather :=
  let hours := map Z.of_nat (seq 0 (24 * 365)) in
  {| Clustering.w_year := 2012;
     Clustering.w_ghi := map (λ h, qz ((h mod 24) * 30)) hours;
     Clustering.w_dni :=
       map (λ h, qz (if decide (6 ≤ h mod 24 < 18)
                     then 100 + (h / 24) * 2 + (h * 37) mod 50 else 0)) hours;
     Clustering.w_tdry := map (λ h, qz (10 + h mod 24 + (h / 24) mod 9)) hours;
     Clustering.w_wspd := map (λ h, qz ((h * 7) mod 20)) hours;
     Clustering.w_sunrise := qfrac 26 5;
     Clustering.w_sunset := qfrac 97 5 |}.

(** A tower plant clustered in groups of 121 days (three groups) by its
    direct normal irradiance alone: the caller has switched the default
    weights off and given that one metric its weight and divisions. *)
Definition example_plant : Clustering.t :=
  Clustering.set_divisions [("dni", 4)]
    (Clustering.set_weights [("dni", 1%Qc)]
       (Clustering.set_use_default_weights false
          (new_clustering ["tower"] 121 2 false None))).

(** The rationals behind a vector, for stating concrete results. *)
Definition values (l : vec) : list Q := map this l.

Definition result_value (r : result num) : option Q :=
  match r with Ok x => Some (this x) | Raise _ => None end.

(** ** Notions used by the claims *)

(** The entries [S[i, j]] with [i ≠ j], row by row. *)
Definition off_diagonal (S : matrix) : vec :=
  concat (imap (λ i row, omap (λ p : nat * num, if decide (p.1 = i) then None else Some p.2)
                              (imap (λ j x, (j, x)) row)) S).

(** [x] is within [tol] of [y]. *)
Definition within (tol x y : num) : bool := bool_decide (qabs (x - y) ≤ tol)%Qc.

(** A daily table of 365 days and one division whose range is 1e-7. *)
Definition narrow_table : matrix := replicate 364 [0%Qc] ++ [[qfrac 1 10000000]].

(** Cluster [k] is the one whose mean is nearest to the boundary vector
    [v], over the features defined for [v]; the first such cluster if
    several are as near. *)
Definition nearest_cluster (self : Clustering.t) (v : option vec) (nfeatures k : nat)
    : Prop :=
  ∃ (n : Z) (dist : vec) (x : Qc),
    (dict_get (Clustering.clusters self) "n_cluster" ≫= as_int) = Ok n
    ∧ mapM (Clustering.boundary_distance self v nfeatures) (seq 0 (Z.to_nat n)) = Ok dist
    ∧ dist !! k = Some x
    ∧ (∀ j y, dist !! j = Some y → (x ≤ y)%Qc)
    ∧ (∀ j y, (j < k)%nat → dist !! j = Some y → (x < y)%Qc).

(** The adjusted weight of cluster [k]: the sum of column [k] of the
    partition matrix, plus [1 / ndays] if [k] is the cluster [k1] of the
    first day, plus [(365 - n_group * ndays - 1) / ndays] if [k] is the
    cluster [k2] of the last days, over [n_group] plus the two
    fractions. *)
Definition adjusted_weight (pm : matrix) (n_group ndays : Z) (k1 k2 k : nat) : Qc :=
  ((qsum (column pm k)
    + (if decide (k = k1) then 1 / qz ndays else 0)
    + (if decide (k = k2) then qz (365 - n_group * ndays - 1) / qz ndays else 0))
   / (qz n_group + 1 / qz ndays + qz (365 - n_group * ndays - 1) / qz ndays))%Qc.

(** Three groups whose single feature has the same value. *)
Definition example_flat : Clustering.t :=
  new_clustering ["tower"] 2 2 false (Some (column_data [7; 7; 7])).

(** The row [0 ... 0 1 0 ... 0] with the 1 at column [k]. *)
Definition one_hot (n k : nat) : vec := <[k := 1%Qc]> (zeros n).

(** The parameters of an engine object, and what a run reports. *)
Definition engine_parameters (self : AffinityPropagation.t)
    : Qc * nat * nat * option Qc * Z :=
  (AffinityPropagation.damping self, AffinityPropagation.max_iter self,
   AffinityPropagation.convergence_iter self, AffinityPropagation.preference self,
   AffinityPropagation.random_seed self).

Definition engine_outputs (r : result (AffinityPropagation.t * rng))
    : result (option (list nat) * option nat * option Qc * option (list nat) * option bool) :=
  match r with
  | Ok (alg, _) =>
      Ok (AffinityPropagation.exemplars alg, AffinityPropagation.n_clusters alg,
          AffinityPropagation.wcss alg, AffinityPropagation.cluster_index alg,
          AffinityPropagation.converged alg)
  | Raise e => Raise e
  end.

(** The engine as [form_clusters_using_current_parameters] creates it
    with the default settings of [Clustering]. *)
Definition default_engine : AffinityPropagation.t :=
  AffinityPropagation.init (qfrac 1 2) 200 10 None.

(** The cluster set that one call of
    [form_clusters_using_current_parameters] has built: the dict it
    returns if it returns one, else the dict it stored. *)
Definition formed_clusters (r : Clustering.t * rng * option (gmap string pyval))
    : gmap string pyval :=
  default (Clustering.clusters r.1.1) r.2.

(** The exemplars that the iteration elects and the assignment of every
    point to the nearest of them, before any exemplar is replaced; and
    the within-cluster sum of squares of that assignment. *)
Definition raw_assignment (self : AffinityPropagation.t) (data : matrix) (g : rng)
    : result (list nat * list nat) :=
  prepared ← AffinityPropagation.prepare self data g;
  st ← AffinityPropagation.loop (AffinityPropagation.max_iter self) self prepared.1
          (AffinityPropagation.initial_state (length data));
  let exemplars := where_true (AffinityPropagation.ls_exemplars st) in
  clusters ← AffinityPropagation.assign (AffinityPropagation.distances prepared.1) exemplars;
  Ok (exemplars, clusters).

Definition raw_wcss (self : AffinityPropagation.t) (data : matrix) (g : rng)
    : result Qc :=
  raw ← raw_assignment self data g;
  Ok (AffinityPropagation.compute_wcss data raw.2 (AffinityPropagation.rows data raw.1)).

(** The scale [mag] of the symmetry-breaking perturbation. *)
Definition perturbation_scale (self : AffinityPropagation.t) (data : matrix)
    : result Qc :=
  np_min (map qabs (concat (AffinityPropagation.with_preference
                              (AffinityPropagation.preference self)
                              (AffinityPropagation.similarity data)))).

#[global] Instance pyval_eq_dec : EqDecision pyval.
Proof. solve_decision. Defined.

(** Three groups with one feature each, with boundary vectors, before
    and after the clusters are formed. *)
Definition example_small : Clustering.t :=
  Clustering.set_data_first (Some [qz 0])
    (Clustering.set_data_last (Some [qz 5])
       (new_clustering ["tower"] 2 2 true (Some (column_data [0; 1; 5])))).

Definition example_small_clustered : Clustering.t :=
  match Clustering.form_clusters_using_current_parameters example_small (MT19937.seed 0) with
  | Ok r => r.1.1
  | Raise _ => example_small
  end.

(** Six groups in two well-separated triples, asked for two clusters,
    and the object as the search loop of [create_clusters] leaves it,
    before the relabelling. *)
Definition example_six : Clustering.t :=
  new_clustering ["tower"] 2 2 true (Some (column_data [0; 1; 2; 10; 11; 12])).

Definition example_six_accepted : Clustering.t :=
  match Clustering.search_loop (Clustering.afp_enforce_Ncluster_maxiter example_six)
          (Clustering.afp_damping example_six) example_six (MT19937.seed 0)
          {| Clustering.s_mult := 1; Clustering.s_mult_prev := 1;
             Clustering.s_Nc_prev := 0; Clustering.s_finished := false |} with
  | Ok r => r.1.1
  | Raise _ => example_six
  end.

(** The squared distances between the rows of [data], all pairs. *)
Definition distance_matrix (data : matrix) : matrix :=
  map (λ p, map (λ q, sqdist p q) data) data.

(** What a fit reports, with the rationals made explicit. *)
Definition fit_summary (r : result (AffinityPropagation.t * rng))
    : option (option Q * option bool * option (list nat) * option (list nat)) :=
  match r with
  | Ok (alg, _) =>
      Some (option_map this (AffinityPropagation.wcss alg),
            AffinityPropagation.converged alg,
            AffinityPropagation.exemplars alg,
            AffinityPropagation.cluster_index alg)
  | Raise _ => None
  end.

(** Four groups whose single feature is of the order of 1e4 to 1e5, and
    four groups of which three coincide. *)
Definition wide_data : matrix := column_data [50000; 40000; 10000; 110000].
Definition tied_data : matrix := column_data [3; 4; 4; 4].

(** ** Notions used by the further properties *)

(** The row [data[exemplars[k], :]] that stands for cluster [k], and the
    sum of the squared distances of the members of cluster [k] to a
    row. *)
Definition mean_of (data : matrix) (exemplars : list nat) (k : nat) : vec :=
  default [] (AffinityPropagation.rows data exemplars !! k).

Definition cluster_cost (data : matrix) (clusters : list nat) (k : nat) (mean : vec)
    : num :=
  qsum (map (λ q, sqdist (default [] (data !! q)) mean)
            (AffinityPropagation.members clusters k)).

(** A list in non-decreasing order for the comparison [le]. *)
Fixpoint ascending {A} (le : A → A → bool) (l : list A) : Prop :=
  match l with
  | [] => True
  | x :: l' => Forall (λ y, le x y = true) l' ∧ ascending le l'
  end.

(** Three groups in two clusters whose exemplars, groups 2 and 0, are
    listed out of order. *)
Definition example_unsorted : Clustering.t :=
  Clustering.set_clusters
    (<["n_cluster" := PInt 2]>
     (<["wcss" := PFloat (qz 1)]>
     (<["exemplars" := PArrI [2; 0]%nat]>
     (<["index" := PArrI [1; 1; 0]%nat]>
     (<["count" := PArrI [1; 2]%nat]>
     (<["weights" := PArrF [qfrac 1 3; qfrac 2 3]]>
     (<["means" := PMat [[qz 5]; [qz 0]]]>
     (<["partition_matrix" := PMat [[qz 0; qz 1]; [qz 0; qz 1]; [qz 1; qz 0]]]> ∅))))))))
    (new_clustering ["tower"] 2 2 true (Some (column_data [0; 1; 5]))).

(** A cluster set whose [n_cluster] is its number of exemplars and whose
    exemplars are positions of groups. *)
Definition exemplars_in_range (n_group : nat) (cl : gmap string pyval) : Prop :=
  ∃ ex, cl !! "exemplars" = Some (PArrI ex)
        ∧ cl !! "n_cluster" = Some (PInt (Z.of_nat (length ex)))
        ∧ ∀ e, e ∈ ex → (e < n_group)%nat.

(** What the steps of [create_clusters] keep: the feature matrix, the
    group length, and a cluster set that is still empty or has its
    exemplars in range. *)
Definition clustering_state (data : matrix) (nd : Z) (self : Clustering.t) : Prop :=
  Clustering.data self = Some data
  ∧ Clustering.ndays self = nd
  ∧ (Clustering.clusters self = ∅
     ∨ exemplars_in_range (length data) (Clustering.clusters self)).

(** ** Generic facts about the error monad *)

Lemma bind_Ok {A B} (m : result A) (f : A → result B) (b : B) :
  m ≫= f = Ok b → ∃ a, m = Ok a ∧ f a = Ok b.
Proof. destruct m as [a|e]; simpl; [eauto | discriminate]. Qed.

Lemma fmap_Ok {A B} (m : result A) (f : A → B) (b : B) :
  f <$> m = Ok b → ∃ a, m = Ok a ∧ b = f a.
Proof. destruct m as [a|e]; simpl; [intros [= <-]; eauto | discriminate]. Qed.

(** Closed equations between rationals in canonical form, possibly
    under [Some] or [Ok]. *)
Ltac qc_eq := vm_compute; repeat f_equal; apply Qc_is_canon; reflexivity.

Lemma is_ok_true {A} (r : result A) : is_ok r = true → ∃ a, r = Ok a.
Proof. destruct r; [eauto | discriminate]. Qed.

(** Invert one hypothesis [x ← m; k = Ok r] into its steps. *)
Ltac inv_bind H :=
  let a := fresh "v" in
  let Ha := fresh "E" in
  apply bind_Ok in H; destruct H as (a & Ha & H).

Lemma foldM_invariant {A B} (P : A → Prop) (f : A → B → result A) (l : list B) (a a' : A) :
  (∀ a b a', b ∈ l → P a → f a b = Ok a' → P a') →
  P a → foldM f a l = Ok a' → P a'.
Proof.
  revert a. induction l as [|b l IH]; simpl; intros a Hf Ha H.
  - by injection H as <-.
  - inv_bind H. apply (IH v); [|by eapply Hf; [left|..]|done].
    intros a0 b0 a0' Hb0. apply Hf. by right.
Qed.

Lemma mapM_Ok_length {A B} (f : A → result B) (l : list A) (r : list B) :
  mapM f l = Ok r → length r = length l.
Proof.
  revert r; induction l as [|x l IH]; simpl; intros r H.
  - by injection H as <-.
  - inv_bind H. inv_bind H. injection H as <-. simpl. f_equal. eauto.
Qed.

Lemma mapM_Ok_lookup {A B} (f : A → result B) (l : list A) (r : list B) i x :
  mapM f l = Ok r → l !! i = Some x → ∃ y, r !! i = Some y ∧ f x = Ok y.
Proof.
  revert r i; induction l as [|a l IH]; simpl; intros r i H Hi; [done|].
  inv_bind H. inv_bind H. injection H as <-.
  destruct i as [|i]; simpl in *.
  - injection Hi as ->. eauto.
  - eauto.
Qed.

Lemma mapM_Ok_elem {A B} (f : A → result B) (l : list A) (r : list B) y :
  mapM f l = Ok r → y ∈ r → ∃ x, x ∈ l ∧ f x = Ok y.
Proof.
  revert r; induction l as [|a l IH]; simpl; intros r H Hy.
  - injection H as <-. by apply elem_of_nil in Hy.
  - inv_bind H. inv_bind H. injection H as <-.
    apply elem_of_cons in Hy as [->|Hy].
    + exists a. split; [left|done].
    + destruct (IH _ E0 Hy) as (x & ? & ?). exists x. split; [by right|done].
Qed.

(** ** Integers as rationals *)

Lemma this_qz (z : Z) : this (qz z) = inject_Z z.
Proof. apply inject_Z_Qred. Qed.

Lemma qz_eq_0 (z : Z) : qz z = 0%Qc → z = 0.
Proof.
  intros H. apply (f_equal this) in H. rewrite this_qz in H.
  by injection H.
Qed.

(** ** Order facts on rationals *)

Section QcOrder.
Local Open Scope Qc_scope.

Lemma qc_sub_nonneg (lo x : Qc) : lo ≤ x → 0 ≤ x - lo.
Proof.
  intros H. apply (Qcplus_le_mono_r _ _ (- lo)) in H.
  by rewrite Qcplus_opp_r in H.
Qed.

Lemma qc_mul_nonneg (a b : Qc) : 0 ≤ a → 0 ≤ b → 0 ≤ a * b.
Proof.
  intros Ha Hb. rewrite <- (Qcmult_0_l b). by apply Qcmult_le_mono_nonneg_r.
Qed.

Lemma qc_sqr_nonneg (a : Qc) : 0 ≤ qsqr a.
Proof.
  unfold qsqr. destruct (Qclt_le_dec a 0) as [Hneg|Hpos].
  - replace (a * a) with ((- a) * (- a)) by ring.
    assert (0 ≤ - a).
    { apply Qclt_le_weak in Hneg. apply (Qcplus_le_mono_r _ _ (- a)) in Hneg.
      by rewrite Qcplus_opp_r, Qcplus_0_l in Hneg. }
    by apply qc_mul_nonneg.
  - by apply qc_mul_nonneg.
Qed.

Lemma qc_add_nonneg (a b : Qc) : 0 ≤ a → 0 ≤ b → 0 ≤ a + b.
Proof.
  intros Ha Hb. rewrite <- (Qcplus_0_l 0). by apply Qcplus_le_compat.
Qed.

Lemma qsum_nonneg (l : list Qc) : (∀ x, x ∈ l → 0 ≤ x) → 0 ≤ qsum l.
Proof.
  induction l as [|a l IH]; simpl; intros H; [done|].
  apply qc_add_nonneg; [apply H; left | apply IH; intros x Hx; apply H; by right].
Qed.

Lemma qsum_app (l1 l2 : list Qc) : qsum (l1 ++ l2) = qsum l1 + qsum l2.
Proof.
  induction l1 as [|a l1 IH]; simpl; [by rewrite Qcplus_0_l|].
  by rewrite IH, Qcplus_assoc.
Qed.
End QcOrder.

Lemma elem_of_concat {A} (x : A) (ls : list (list A)) :
  x ∈ concat ls ↔ ∃ l, x ∈ l ∧ l ∈ ls.
Proof.
  rewrite list_elem_of_In, in_concat. split.
  - intros (l & Hl & Hx). exists l. by rewrite !list_elem_of_In.
  - intros (l & Hx & Hl). exists l. by rewrite <- !list_elem_of_In.
Qed.

(** ** Minimum and maximum of an array *)

Section Extrema.
Local Open Scope Qc_scope.

Lemma qmin_le_l (a b : Qc) : qmin a b ≤ a.
Proof.
  unfold qmin. case_decide; [by apply Qclt_le_weak | apply Qcle_refl].
Qed.

Lemma qmin_le_r (a b : Qc) : qmin a b ≤ b.
Proof.
  unfold qmin. case_decide; [apply Qcle_refl | by apply Qcle_ngt].
Qed.

Lemma qmax_ge_l (a b : Qc) : a ≤ qmax a b.
Proof.
  unfold qmax. case_decide; [by apply Qclt_le_weak | apply Qcle_refl].
Qed.

Lemma qmax_ge_r (a b : Qc) : b ≤ qmax a b.
Proof.
  unfold qmax. case_decide; [apply Qcle_refl | by apply Qcle_ngt].
Qed.

Lemma foldl_qmin_le (l : list Qc) (a : Qc) :
  foldl qmin a l ≤ a ∧ ∀ x, x ∈ l → foldl qmin a l ≤ x.
Proof.
  revert a. induction l as [|y l IH]; simpl; intros a.
  - split; [apply Qcle_refl|]. intros x Hx. by apply elem_of_nil in Hx.
  - destruct (IH (qmin a y)) as [H1 H2]. split.
    + eapply Qcle_trans; [exact H1 | apply qmin_le_l].
    + intros x [->|Hx]%elem_of_cons; [|by apply H2].
      eapply Qcle_trans; [exact H1 | apply qmin_le_r].
Qed.

Lemma foldl_qmax_ge (l : list Qc) (a : Qc) :
  a ≤ foldl qmax a l ∧ ∀ x, x ∈ l → x ≤ foldl qmax a l.
Proof.
  revert a. induction l as [|y l IH]; simpl; intros a.
  - split; [apply Qcle_refl|]. intros x Hx. by apply elem_of_nil in Hx.
  - destruct (IH (qmax a y)) as [H1 H2]. split.
    + eapply Qcle_trans; [apply qmax_ge_l | exact H1].
    + intros x [->|Hx]%elem_of_cons; [|by apply H2].
      eapply Qcle_trans; [apply qmax_ge_r | exact H1].
Qed.

Lemma np_min_le (l : list Qc) (lo : Qc) :
  np_min l = Ok lo → ∀ x, x ∈ l → lo ≤ x.
Proof.
  destruct l as [|a l]; simpl; [done|]. intros [= <-] x Hx.
  destruct (foldl_qmin_le l a) as [H1 H2].
  apply elem_of_cons in Hx as [->|Hx]; [exact H1 | by apply H2].
Qed.

Lemma np_max_ge (l : list Qc) (hi : Qc) :
  Clustering.np_max l = Ok hi → ∀ x, x ∈ l → x ≤ hi.
Proof.
  destruct l as [|a l]; simpl; [done|]. intros [= <-] x Hx.
  destruct (foldl_qmax_ge l a) as [H1 H2].
  apply elem_of_cons in Hx as [->|Hx]; [exact H1 | by apply H2].
Qed.

(** Extrema commute with a strictly increasing map. *)
Context (f : Qc → Qc) (f_mono : ∀ a b, a < b ↔ f a < f b).

Lemma qmin_mono (a b : Qc) : qmin (f a) (f b) = f (qmin a b).
Proof.
  unfold qmin. destruct (decide (b < a)) as [H|H].
  - rewrite decide_True; [done|]. by apply (proj1 (f_mono b a)).
  - rewrite decide_False; [done|]. intros H'. by apply H, (proj2 (f_mono b a)).
Qed.

Lemma qmax_mono (a b : Qc) : qmax (f a) (f b) = f (qmax a b).
Proof.
  unfold qmax. destruct (decide (a < b)) as [H|H].
  - rewrite decide_True; [done|]. by apply (proj1 (f_mono a b)).
  - rewrite decide_False; [done|]. intros H'. by apply H, (proj2 (f_mono a b)).
Qed.

Lemma np_min_map (l : list Qc) (lo : Qc) :
  np_min l = Ok lo → np_min (map f l) = Ok (f lo).
Proof.
  destruct l as [|a l]; simpl; [done|]. intros [= <-]. f_equal.
  revert a. induction l as [|y l IH]; simpl; intros a; [done|].
  by rewrite qmin_mono, IH.
Qed.

Lemma np_max_map (l : list Qc) (hi : Qc) :
  Clustering.np_max l = Ok hi → Clustering.np_max (map f l) = Ok (f hi).
Proof.
  destruct l as [|a l]; simpl; [done|]. intros [= <-]. f_equal.
  revert a. induction l as [|y l IH]; simpl; intros a; [done|].
  by rewrite qmax_mono, IH.
Qed.
End Extrema.

Lemma concat_mat_map (f : Qc → Qc) (m : list (list Qc)) :
  concat (mat_map f m) = map f (concat m).
Proof.
  unfold mat_map. induction m as [|row m IH]; simpl; [done|].
  by rewrite map_app, IH.
Qed.

Lemma qmax_floor_pos (x : Qc) : (0 < qmax (qfrac 1 1000000) x)%Qc.
Proof.
  eapply Qclt_le_trans; [|apply qmax_ge_l]. done.
Qed.


(** ** Attributes that the setters leave alone *)

Lemma daily_avg_dni_set_data (v1 : option matrix) (v2 v3 : option vec)
    (self : Clustering.t) :
  Clustering.daily_avg_dni
    (Clustering.set_data_last v3 (Clustering.set_data_first v2 (Clustering.set_data v1 self)))
  = Clustering.daily_avg_dni self.
Proof. reflexivity. Qed.

Lemma data_set_data (v1 : option (list (list Qc))) (v2 v3 : option (list Qc))
    (self : Clustering.t) :
  Clustering.data
    (Clustering.set_data_last v3 (Clustering.set_data_first v2 (Clustering.set_data v1 self)))
  = v1.
Proof. reflexivity. Qed.

Lemma ndays_set_data (v1 : option (list (list Qc))) (v2 v3 : option (list Qc))
    (self : Clustering.t) :
  Clustering.ndays
    (Clustering.set_data_last v3 (Clustering.set_data_first v2 (Clustering.set_data v1 self)))
  = Clustering.ndays self.
Proof. reflexivity. Qed.

Lemma count_groups_ndays (s1 s2 : Clustering.t) :
  Clustering.ndays s1 = Clustering.ndays s2 →
  Clustering.count_groups s1 = Clustering.count_groups s2.
Proof. unfold Clustering.count_groups. by intros ->. Qed.

Lemma group_days_ndays (s1 s2 : Clustering.t) d1 name :
  Clustering.ndays s1 = Clustering.ndays s2 →
  Clustering.group_days s1 d1 name = Clustering.group_days s2 d1 name.
Proof. unfold Clustering.group_days. by intros ->. Qed.


(** ** Shapes of the similarities; one-hot rows *)

Lemma similarity_square (data : matrix) i row :
  AffinityPropagation.similarity data !! i = Some row → length row = length data.
Proof.
  unfold AffinityPropagation.similarity. rewrite list_lookup_fmap.
  destruct (data !! i); simpl; [|done]. intros [= <-]. by rewrite length_map.
Qed.

Lemma similarity_rows (data : matrix) :
  length (AffinityPropagation.similarity data) = length data.
Proof. unfold AffinityPropagation.similarity. by rewrite length_map. Qed.

Lemma one_hot_lookup (n k j : nat) :
  (j < n)%nat → one_hot n k !! j = Some (if decide (j = k) then 1%Qc else 0%Qc).
Proof.
  intros Hj. unfold one_hot, zeros. case_decide as Hjk.
  - subst. apply list_lookup_insert_eq. by rewrite length_replicate.
  - rewrite list_lookup_insert_ne by done. by apply lookup_replicate_2.
Qed.

Lemma one_hot_length (n k : nat) : length (one_hot n k) = n.
Proof. unfold one_hot, zeros. by rewrite length_insert, length_replicate. Qed.

Lemma qsum_zeros (n : nat) : qsum (zeros n) = 0%Qc.
Proof.
  unfold zeros. induction n as [|n IH]; simpl; [done|].
  by rewrite IH, Qcplus_0_l.
Qed.

Lemma qsum_one_hot (n k : nat) : (k < n)%nat → qsum (one_hot n k) = 1%Qc.
Proof.
  unfold one_hot, zeros. revert k. induction n as [|n IH]; intros k Hk; [lia|].
  destruct k as [|k]; simpl.
  - fold (zeros n). by rewrite qsum_zeros, Qcplus_0_r.
  - rewrite IH by lia. apply Qcplus_0_l.
Qed.


(** ** C1: one group *)

(** The single-group branch builds the expected dict, but hands it back
    to the caller: [self] is left as it was. *)
Lemma form_clusters_single_group (self : Clustering.t) (g : rng) (row : vec) :
  Clustering.data self = Some [row] →
  Clustering.form_clusters_using_current_parameters self g
  = Ok (self, g, Some (Clustering.single_cluster [row])).
Proof.
  intros Hd. unfold Clustering.form_clusters_using_current_parameters,
    Clustering.get_data. rewrite Hd. reflexivity.
Qed.

Lemma single_cluster_entries (data : matrix) :
  Clustering.single_cluster data !! "n_cluster" = Some (PInt 1)
  ∧ Clustering.single_cluster data !! "wcss" = Some (PFloat 0%Qc)
  ∧ Clustering.single_cluster data !! "weights" = None
  ∧ Clustering.single_cluster data !! "converged" = None.
Proof. unfold Clustering.single_cluster. repeat split; by simplify_map_eq. Qed.

(** C1. With one group, [create_clusters] on a new object does not
    produce a cluster set at all: the dict of the single-group branch is
    returned and dropped, [self.clusters] stays empty, and the first read
    of it raises [KeyError] (of ['converged'] inside the search loop, of
    ['n_cluster'] when the loop is not entered). *)
Theorem create_clusters_single_group (u : uninit) (self : Clustering.t) (g : rng)
    (row : vec) :
  Clustering.data self = Some [row] →
  Clustering.clusters self = ∅ →
  Clustering.create_clusters u self g
  = Raise (KeyError (if Clustering.afp_enforce_Ncluster self
                        && negb (Nat.eqb (Clustering.afp_enforce_Ncluster_maxiter self) 0)
                     then "converged" else "n_cluster")).
Proof.
  intros Hd Hc. unfold Clustering.create_clusters.
  destruct (Clustering.afp_enforce_Ncluster self) eqn:Henf; simpl.
  - destruct (Clustering.afp_enforce_Ncluster_maxiter self) as [|fuel]; simpl.
    + rewrite Hc. reflexivity.
    + unfold Clustering.search_round.
      rewrite (form_clusters_single_group _ _ row) by done.
      simpl. rewrite Hc. reflexivity.
  - rewrite (form_clusters_single_group _ _ row) by done. simpl.
    unfold Clustering.sort_clusters, Clustering.get_data. rewrite Hd. simpl.
    rewrite Hc. reflexivity.
Qed.

Lemma create_clusters_single_group_witness :
  Clustering.create_clusters memory_zero
    (new_clustering ["tower"] 200 20 true (Some (column_data [5]))) (MT19937.seed 0)
  = Raise (KeyError "converged").
Proof.
  exact (create_clusters_single_group memory_zero
           (new_clustering ["tower"] 200 20 true (Some (column_data [5])))
           (MT19937.seed 0) [qz 5] eq_refl eq_refl).
Defined.

(** ** The example run *)

(** The whole pipeline on the synthetic year. *)
Lemma example_run_succeeds :
  is_ok (Clustering.run_clustering memory_zero example_weather example_plant
           (MT19937.seed 0)) = true.
Proof. vm_compute. reflexivity. Qed.

Lemma run_clustering_calculate_metrics u weather (self : Clustering.t) (g : rng) :
  is_ok (Clustering.run_clustering u weather self g) = true →
  is_ok (Clustering.calculate_metrics weather self) = true.
Proof.
  unfold Clustering.run_clustering.
  by destruct (Clustering.calculate_metrics weather self).
Qed.

Lemma daily_avg_dni_loop_ndays (dni : list Qc) (n_pts_day : nat) (self : Clustering.t) :
  Clustering.ndays (Clustering.daily_avg_dni_loop dni n_pts_day self)
  = Clustering.ndays self.
Proof.
  unfold Clustering.daily_avg_dni_loop.
  generalize (seq 0 365).
  change (Clustering.ndays self)
    with (Clustering.ndays (Clustering.set_daily_avg_dni (PArrF (zeros 365)) self)).
  generalize (Clustering.set_daily_avg_dni (PArrF (zeros 365)) self).
  intros s l. revert s. induction l as [|d l IH]; intros s; simpl; [done|].
  by rewrite IH.
Qed.

Lemma set_weighting_ndays (self : Clustering.t) :
  Clustering.ndays (Clustering.set_weighting self) = Clustering.ndays self.
Proof.
  unfold Clustering.set_weighting.
  destruct (Clustering.get_default_weights self) as [[w0 d0] b0].
  by destruct (_ || _).
Qed.

Lemma calculate_metrics_ndays (weather : Clustering.Weather) (self self' : Clustering.t) :
  Clustering.calculate_metrics weather self = Ok self' →
  Clustering.ndays self' = Clustering.ndays self.
Proof.
  unfold Clustering.calculate_metrics. intros H.
  inv_bind H. inv_bind H. inv_bind H. case_decide; [discriminate|].
  inv_bind H. inv_bind H. inv_bind H. injection H as <-.
  by rewrite ndays_set_data, daily_avg_dni_loop_ndays, set_weighting_ndays.
Qed.

(** ** C2: what the relabelling keeps *)

(** Membership of a key in a literal list of keys. *)
Ltac keys :=
  repeat match goal with
         | H : _ ∈ _ |- _ => apply list_elem_of_In in H; simpl in H
         | H : _ ∉ _ |- _ => rewrite list_elem_of_In in H; simpl in H
         end;
  try rewrite list_elem_of_In; simpl;
  intuition (subst; try discriminate; auto).

Lemma sort_cluster_frame (inds : list nat) (clusters sorted sorted' : gmap string pyval)
    (i : nat) (key : string) :
  key ∉ ["partition_matrix"; "count"; "weights"; "exemplars"; "means"] →
  Clustering.sort_cluster inds clusters sorted i = Ok sorted' →
  sorted' !! key = sorted !! key.
Proof.
  intros Hkey H. unfold Clustering.sort_cluster in H.
  inv_bind H. inv_bind H. inv_bind H. inv_bind H.
  inv_bind H. inv_bind H. inv_bind H. injection H as <-.
  rewrite lookup_insert_ne by keys.
  revert E2. apply (foldM_invariant (λ s, s !! key = sorted !! key)).
  - intros a b a' Hb Ha Hf. do 3 inv_bind Hf. injection Hf as <-.
    rewrite lookup_insert_ne; [done|]. keys.
  - rewrite lookup_insert_ne; [done|]. keys.
Qed.

Lemma sort_index_frame (inds : list nat) (clusters sorted sorted' : gmap string pyval)
    (g : nat) (key : string) :
  key ≠ "index" →
  Clustering.sort_index inds clusters sorted g = Ok sorted' →
  sorted' !! key = sorted !! key.
Proof.
  intros Hkey H. unfold Clustering.sort_index in H.
  inv_bind H. inv_bind H. inv_bind H. injection H as <-.
  by rewrite lookup_insert_ne.
Qed.

(** The entries that the two loops of the relabelling never write keep
    what the first loop over the keys gave them. *)
Lemma sort_clusters_frame (u : uninit) (self self' : Clustering.t) (key : string) :
  key ∉ ["partition_matrix"; "count"; "weights"; "exemplars"; "means"; "index"] →
  Clustering.sort_clusters u self = Ok self' →
  Clustering.clusters self' !! key
  = (λ v, if bool_decide (key ∈ ["n_cluster"; "wcss"]) then v else empty_like u v)
      <$> Clustering.clusters self !! key.
Proof.
  intros Hkey H. unfold Clustering.sort_clusters in H.
  inv_bind H. inv_bind H. inv_bind H. inv_bind H. inv_bind H. injection H as <-.
  simpl.
  transitivity (v2 !! key).
  { revert E3. apply (foldM_invariant (λ s, s !! key = v2 !! key)); [|done].
    intros a b a' _ <-. apply sort_index_frame. keys. }
  transitivity (map_imap (λ key v, Some (if bool_decide (key ∈ ["n_cluster"; "wcss"])
                                         then v else empty_like u v))
                  (Clustering.clusters self) !! key).
  { revert E2.
    apply (foldM_invariant (λ s, s !! key = map_imap _ (Clustering.clusters self) !! key));
      [|done].
    intros a b a' _ <-. apply sort_cluster_frame. keys. }
  rewrite map_lookup_imap. by destruct (Clustering.clusters self !! key).
Qed.

(** C2, as the code has it.  The relabelling keeps [n_cluster] and
    [wcss], but not the convergence flag: the loop over the keys copies
    those two only and gives every other key a fresh [np.empty_like]
    array, and no later statement writes to the one made for
    ['converged'].  After the relabelling [clusters['converged']] is a
    zero-dimensional array holding whatever the allocated memory held. *)
Theorem relabelling_loses_converged (u : uninit) (self self' : Clustering.t) (b : bool) :
  Clustering.clusters self !! "converged" = Some (PBool b) →
  Clustering.sort_clusters u self = Ok self' →
  Clustering.clusters self' !! "converged" = Some (PArr0B (u_bool u))
  ∧ Clustering.clusters self' !! "n_cluster" = Clustering.clusters self !! "n_cluster"
  ∧ Clustering.clusters self' !! "wcss" = Clustering.clusters self !! "wcss".
Proof.
  intros Hc H. split_and!.
  - rewrite (sort_clusters_frame u self self' "converged") by keys.
    by rewrite Hc.
  - rewrite (sort_clusters_frame u self self' "n_cluster") by keys.
    by destruct (Clustering.clusters self !! "n_cluster").
  - rewrite (sort_clusters_frame u self self' "wcss") by keys.
    by destruct (Clustering.clusters self !! "wcss").
Qed.

(** Two readings of one value, from one evaluation of it. *)
Lemma shared_evaluation {A B C} (E : A) (f : A → B) (h : A → C) (b : B) (c : C) :
  (let s := E in (f s, h s)) = (b, c) → f E = b ∧ h E = c.
Proof. cbv zeta. by intros [= -> ->]. Qed.

(** The accepted attempt on the six groups: its flag, and that the
    relabelling of it returns. *)
Lemma example_six_search :
  (let s := example_six_accepted in
   (Clustering.clusters s !! "converged",
    is_ok (Clustering.sort_clusters memory_zero s)))
  = (Some (PBool true), true).
Proof. vm_compute. reflexivity. Qed.

Lemma example_six_converged :
  Clustering.clusters example_six_accepted !! "converged" = Some (PBool true).
Proof.
  exact (proj1 (shared_evaluation example_six_accepted
                  (λ s, Clustering.clusters s !! "converged")
                  (λ s, is_ok (Clustering.sort_clusters memory_zero s))
                  (Some (PBool true)) true example_six_search)).
Qed.

Lemma example_six_sorts :
  is_ok (Clustering.sort_clusters memory_zero example_six_accepted) = true.
Proof.
  exact (proj2 (shared_evaluation example_six_accepted
                  (λ s, Clustering.clusters s !! "converged")
                  (λ s, is_ok (Clustering.sort_clusters memory_zero s))
                  (Some (PBool true)) true example_six_search)).
Qed.

(** The accepted attempt converged, and the flag reads [False] once the
    clusters are relabelled (the allocated memory holding zeros). *)
Lemma relabelling_loses_converged_witness :
  ∃ self',
    Clustering.sort_clusters memory_zero example_six_accepted = Ok self'
    ∧ Clustering.clusters example_six_accepted !! "converged" = Some (PBool true)
    ∧ Clustering.clusters self' !! "converged" = Some (PArr0B false).
Proof.
  destruct (is_ok_true _ example_six_sorts) as [self' Hs].
  exists self'. split; [exact Hs|]. split; [exact example_six_converged|].
  exact (proj1 (relabelling_loses_converged memory_zero example_six_accepted self' true
                  example_six_converged Hs)).
Defined.

(** [create_clusters] on that object is the search followed by the
    relabelling. *)
Lemma example_six_create_clusters :
  (Clustering.create_clusters memory_zero example_six (MT19937.seed 0)
   ≫= λ r, Ok (Clustering.clusters r.1 !! "converged", Clustering.clusters r.1 !! "n_cluster"))
  = Ok (Some (PArr0B false), Some (PInt 2)).
Proof. vm_compute. reflexivity. Qed.

(** ** C3: the thermal-storage heuristic after a clustering run *)

Lemma daily_avg_dni_loop_scalar (dni : vec) (n_pts_day : nat) (self : Clustering.t) :
  ∃ q, Clustering.daily_avg_dni (Clustering.daily_avg_dni_loop dni n_pts_day self)
       = PFloat q.
Proof.
  unfold Clustering.daily_avg_dni_loop.
  change 365%nat with (S 364). rewrite seq_S, foldl_app. simpl. eauto.
Qed.

Lemma calculate_metrics_daily_avg_dni (weather : Clustering.Weather)
    (self self' : Clustering.t) :
  Clustering.calculate_metrics weather self = Ok self' →
  ∃ q, Clustering.daily_avg_dni self' = PFloat q.
Proof.
  unfold Clustering.calculate_metrics.
  generalize (Clustering.get_default_weights self).2 (Clustering.set_weighting self).
  intros b0 self1.
  intros H. inv_bind H. inv_bind H. inv_bind H.
  case_decide; [discriminate|].
  inv_bind H. inv_bind H. inv_bind H. injection H as <-.
  rewrite daily_avg_dni_set_data. apply daily_avg_dni_loop_scalar.
Qed.

Lemma form_clusters_daily_avg_dni (self self' : Clustering.t) (g g' : rng) ret :
  Clustering.form_clusters_using_current_parameters self g = Ok (self', g', ret) →
  Clustering.daily_avg_dni self' = Clustering.daily_avg_dni self.
Proof.
  unfold Clustering.form_clusters_using_current_parameters.
  intros H. inv_bind H. case_decide.
  - by injection H as <- _ _.
  - repeat inv_bind H. by injection H as <- _ _.
Qed.

Lemma search_round_daily_avg_dni d0 (self self' : Clustering.t) (g g' : rng) s s' :
  Clustering.search_round d0 self g s = Ok (self', g', s') →
  Clustering.daily_avg_dni self' = Clustering.daily_avg_dni self.
Proof.
  unfold Clustering.search_round. intros H.
  inv_bind H. destruct v as [[self1 g1] ret].
  apply form_clusters_daily_avg_dni in E. simpl in *.
  inv_bind H. destruct v.
  - simpl in H. inv_bind H. case_decide.
    + by injection H as <- _ _.
    + repeat inv_bind H. by injection H as <- _ _.
  - simpl in H. by injection H as <- _ _.
Qed.

Lemma search_loop_daily_avg_dni fuel d0 (self self' : Clustering.t) (g g' : rng) s s' :
  Clustering.search_loop fuel d0 self g s = Ok (self', g', s') →
  Clustering.daily_avg_dni self' = Clustering.daily_avg_dni self.
Proof.
  revert self g s. induction fuel as [|fuel IH]; simpl; intros self g s H.
  - by injection H as <- _ _.
  - destruct (Clustering.s_finished s).
    + by injection H as <- _ _.
    + inv_bind H. destruct v as [[self1 g1] s1]. simpl in H.
      apply search_round_daily_avg_dni in E. apply IH in H. congruence.
Qed.

Lemma sort_clusters_daily_avg_dni u (self self' : Clustering.t) :
  Clustering.sort_clusters u self = Ok self' →
  Clustering.daily_avg_dni self' = Clustering.daily_avg_dni self.
Proof.
  unfold Clustering.sort_clusters. intros H.
  repeat inv_bind H. by injection H as <-.
Qed.

Lemma create_clusters_daily_avg_dni u (self self' : Clustering.t) (g g' : rng) :
  Clustering.create_clusters u self g = Ok (self', g') →
  Clustering.daily_avg_dni self' = Clustering.daily_avg_dni self.
Proof.
  unfold Clustering.create_clusters. intros H.
  inv_bind H. inv_bind H. injection H as <- _.
  apply sort_clusters_daily_avg_dni in E0. rewrite E0. clear E0.
  destruct (Clustering.afp_enforce_Ncluster self); simpl in E.
  - inv_bind E. destruct v1 as [[self1 g1] s1]. simpl in E.
    apply search_loop_daily_avg_dni in E0.
    destruct (Clustering.s_finished s1).
    + by injection E as <-.
    + inv_bind E. by injection E as <-.
  - inv_bind E. destruct v1 as [[self1 g1] ret]. injection E as <-.
    by apply form_clusters_daily_avg_dni in E0.
Qed.

Lemma run_clustering_daily_avg_dni u weather (self self' : Clustering.t) (g g' : rng) :
  Clustering.run_clustering u weather self g = Ok (self', g') →
  ∃ q, Clustering.daily_avg_dni self' = PFloat q.
Proof.
  unfold Clustering.run_clustering. intros H.
  inv_bind H. inv_bind H. inv_bind H. inv_bind H. injection H as <- _.
  destruct (calculate_metrics_daily_avg_dni _ _ _ E) as [q Hq].
  destruct v0 as [self2 g2]. apply create_clusters_daily_avg_dni in E0.
  exists q. rewrite <- Hq, <- E0. clear Hq E0 E.
  unfold Clustering.set_sim_days in E1. repeat inv_bind E1. injection E1 as <-.
  unfold Clustering.adjust_weighting_for_incomplete_groups in E2.
  repeat inv_bind E2. by injection E2 as <-.
Qed.

(** C3. After [run_clustering] has completed, [csp_soc_heuristic] raises
    [IndexError] for every cluster id and every solar multiple (given or
    not): [calculate_metrics] has bound [daily_avg_dni] to a scalar, and
    the heuristic indexes it before it looks at the solar multiple. *)
Theorem csp_soc_heuristic_after_run (u : uninit) (weather : Clustering.Weather)
    (self self' : Clustering.t) (g g' : rng) (clusterid : Z)
    (solar_multiple : option num) :
  Clustering.run_clustering u weather self g = Ok (self', g') →
  Clustering.csp_soc_heuristic self' clusterid solar_multiple = Raise IndexError.
Proof.
  intros H. destruct (run_clustering_daily_avg_dni _ _ _ _ _ _ H) as [q Hq].
  unfold Clustering.csp_soc_heuristic. rewrite Hq.
  destruct (getitem_Z _ _) as [d|e] eqn:Hd; simpl; [done|].
  unfold getitem_Z, getitem in Hd.
  repeat case_decide; try destruct (_ !! _); congruence.
Qed.

Lemma csp_soc_heuristic_after_run_witness :
  ∃ self' g',
    Clustering.run_clustering memory_zero example_weather example_plant (MT19937.seed 0)
    = Ok (self', g')
    ∧ Clustering.csp_soc_heuristic self' 0 (Some (qz 2)) = Raise IndexError.
Proof.
  destruct (is_ok_true _ example_run_succeeds) as [[self' g'] Hrun].
  exists self', g'. split; [exact Hrun|].
  exact (csp_soc_heuristic_after_run _ _ _ _ _ _ 0 (Some (qz 2)) Hrun).
Defined.

(** ** C4: the preference written to the diagonal *)

Lemma diag_set_diag (v : num) (m : matrix) :
  (∀ i row, m !! i = Some row → (i < length row)%nat) →
  diag (set_diag v m) = replicate (length m) v.
Proof.
  intros Hsq. apply list_eq. intros i.
  unfold diag, set_diag. rewrite list_lookup_imap, list_lookup_imap.
  destruct (m !! i) as [row|] eqn:Hi; simpl.
  - rewrite list_lookup_insert_eq by eauto. simpl.
    symmetry. apply lookup_replicate_2. by eapply lookup_lt_Some.
  - symmetry. apply lookup_replicate_None. by apply lookup_ge_None.
Qed.

(** The value that ends up on the diagonal, for a multiplier [mult] and
    the median [m] of all the similarities. *)
Lemma diag_with_preference (data : matrix) (pref : option num) (m : num) :
  median (concat (AffinityPropagation.similarity data)) = Some m →
  diag (AffinityPropagation.with_preference pref (AffinityPropagation.similarity data))
  = replicate (length data) (default m (AffinityPropagation.truthy pref)).
Proof.
  intros Hm. unfold AffinityPropagation.with_preference. rewrite Hm.
  assert (Hsq : ∀ i row, AffinityPropagation.similarity data !! i = Some row
                         → (i < length row)%nat).
  { intros i row Hi. rewrite (similarity_square _ _ _ Hi).
    rewrite <- (similarity_rows data). by eapply lookup_lt_Some. }
  destruct (AffinityPropagation.truthy pref);
    simpl; rewrite diag_set_diag by done; by rewrite similarity_rows.
Qed.

(** C4, as the code has it.  The preference is the median of all the
    entries of [S], the zeros of its diagonal included: with the default
    multiplier that median itself is written to the diagonal, with
    another multiplier the median times the multiplier (and the median
    again, should that product be zero). *)
Theorem preference_is_median_of_all_similarities (self : Clustering.t)
    (data : matrix) (m : num) :
  median (concat (AffinityPropagation.similarity data)) = Some m →
  ∃ pref, Clustering.chosen_preference self data = Ok pref
    ∧ diag (AffinityPropagation.with_preference pref (AffinityPropagation.similarity data))
      = replicate (length data)
          (if decide (Clustering.afp_preference_mult self = 1%Qc) then m
           else if decide (m * Clustering.afp_preference_mult self = 0)%Qc then m
           else (m * Clustering.afp_preference_mult self)%Qc).
Proof.
  intros Hm. unfold Clustering.chosen_preference. rewrite Hm.
  case_decide as Hmult.
  - exists None. split; [done|]. by rewrite (diag_with_preference _ _ m).
  - eexists. split; [done|]. rewrite (diag_with_preference _ _ m) by done.
    simpl. by case_decide.
Qed.

Lemma preference_is_median_of_all_similarities_witness :
  ∃ pref, Clustering.chosen_preference
            (new_clustering ["tower"] 2 20 true None) (column_data [0; 1]) = Ok pref
    ∧ values (diag (AffinityPropagation.with_preference pref
                      (AffinityPropagation.similarity (column_data [0; 1]))))
      = [(-1 # 2)%Q; (-1 # 2)%Q].
Proof.
  destruct (preference_is_median_of_all_similarities
              (new_clustering ["tower"] 2 20 true None) (column_data [0; 1])
              (qfrac (-1) 2)) as (pref & Hp & Hd).
  - qc_eq.
  - exists pref. split; [exact Hp|]. rewrite Hd. reflexivity.
Defined.

(** Two groups at distance 1: every off-diagonal similarity is -1, and
    so is their median, yet the diagonal receives -1/2. *)
Lemma preference_counterexample :
  values (off_diagonal (AffinityPropagation.similarity (column_data [0; 1])))
  = [(-1 # 1)%Q; (-1 # 1)%Q]
  ∧ option_map this (median (off_diagonal (AffinityPropagation.similarity (column_data [0; 1]))))
    = Some (-1 # 1)%Q
  ∧ values (diag (AffinityPropagation.with_preference None
                    (AffinityPropagation.similarity (column_data [0; 1]))))
    = [(-1 # 2)%Q; (-1 # 2)%Q].
Proof. vm_compute. done. Qed.

(** ** C5: the adjusted weights *)

Section Sums.
Local Open Scope Qc_scope.

Lemma qz_add (a b : Z) : qz (a + b) = qz a + qz b.
Proof.
  apply Qc_is_canon. rewrite this_qz.
  change (this (qz a + qz b)) with (Qred (this (qz a) + this (qz b))).
  rewrite Qred_correct, !this_qz, inject_Z_plus. reflexivity.
Qed.

Lemma qz_mul (a b : Z) : qz (a * b) = qz a * qz b.
Proof.
  apply Qc_is_canon. rewrite this_qz.
  change (this (qz a * qz b)) with (Qred (this (qz a) * this (qz b))).
  rewrite Qred_correct, !this_qz, inject_Z_mult. reflexivity.
Qed.

Lemma qsum_map_add (f g : nat → Qc) (l : list nat) :
  qsum (map (λ j, f j + g j) l) = qsum (map f l) + qsum (map g l).
Proof.
  induction l as [|j l IH]; simpl; [by rewrite Qcplus_0_l|].
  rewrite IH. ring.
Qed.

Lemma map_lookup_seq (row : list Qc) :
  map (λ j, default 0 (row !! j)) (seq 0 (length row)) = row.
Proof.
  apply list_eq. intros i. rewrite list_lookup_fmap.
  destruct (row !! i) as [x|] eqn:Hi.
  - rewrite lookup_seq_lt by by eapply lookup_lt_Some. simpl. by rewrite Hi.
  - rewrite lookup_seq_ge; [done|]. by apply lookup_ge_None.
Qed.

(** The column sums of a rectangular array add up to the sum of its
    row sums. *)
Lemma qsum_sum0 (n : nat) (m : list (list Qc)) :
  (∀ row, row ∈ m → length row = n) →
  qsum (sum0 n m) = qsum (map qsum m).
Proof.
  unfold sum0, column. induction m as [|row m IH]; simpl; intros Hrect.
  - induction (seq 0 n) as [|j l IHl]; simpl; [done|]. by rewrite IHl, Qcplus_0_l.
  - rewrite (qsum_map_add (λ j, default 0 (row !! j))
               (λ j, qsum (map (λ r, default 0 (r !! j)) m))).
    rewrite IH by (intros r Hr; apply Hrect; by right).
    rewrite <- (Hrect row) by left. by rewrite map_lookup_seq.
Qed.

Lemma qsum_insert_add (l : list Qc) (i : nat) (x d : Qc) :
  l !! i = Some x → qsum (<[i := x + d]> l) = qsum l + d.
Proof.
  revert i. induction l as [|a l IH]; intros i Hi; [done|].
  destruct i as [|i]; simpl in *.
  - injection Hi as ->. ring.
  - rewrite (IH i Hi). ring.
Qed.

Lemma qsum_map_div (l : list Qc) (c : Qc) :
  qsum (map (λ x, x / c) l) = qsum l / c.
Proof.
  induction l as [|a l IH]; simpl.
  - unfold Qcdiv. by rewrite Qcmult_0_l.
  - rewrite IH. unfold Qcdiv. ring.
Qed.

Lemma qsum_ones {A} (f : A → Qc) (l : list A) :
  (∀ x, x ∈ l → f x = 1) → qsum (map f l) = qz (Z.of_nat (length l)).
Proof.
  induction l as [|a l IH]; intros H; [done|].
  cbn [map qsum foldr length]. fold (qsum (map f l)).
  rewrite IH by (intros x Hx; apply H; by right).
  rewrite (H a) by left.
  rewrite Nat2Z.inj_succ, <- Z.add_1_l, qz_add. done.
Qed.
End Sums.

Lemma getitem_Ok {A} (l : list A) (i : nat) (x : A) : getitem l i = Ok x → l !! i = Some x.
Proof. unfold getitem. destruct (l !! i); [by intros [= ->] | done]. Qed.

Lemma pydiv_Ok (a b q : Qc) : Clustering.pydiv a b = Ok q → b ≠ 0%Qc ∧ q = (a / b)%Qc.
Proof. unfold Clustering.pydiv. case_decide; [done|]. by intros [= <-]. Qed.

Lemma example_small_adjusts :
  is_ok (Clustering.adjust_weighting_for_incomplete_groups example_small_clustered) = true.
Proof. vm_compute. reflexivity. Qed.

Lemma example_small_data :
  Clustering.data example_small_clustered = Some (column_data [0; 1; 5]).
Proof. vm_compute. reflexivity. Qed.

Lemma example_small_partition :
  Clustering.clusters example_small_clustered !! "partition_matrix"
  = Some (PMat [one_hot 2 0; one_hot 2 0; one_hot 2 1]).
Proof. vm_compute. reflexivity. Qed.

Lemma example_small_rows (row : list Qc) :
  row ∈ [one_hot 2 0; one_hot 2 0; one_hot 2 1] →
  length row = Clustering.ncols [one_hot 2 0; one_hot 2 0; one_hot 2 1]
  ∧ qsum row = 1%Qc.
Proof.
  intros Hrow. apply list_elem_of_In in Hrow. simpl in Hrow.
  destruct Hrow as [<-|[<-|[<-|[]]]]; (split; [reflexivity | apply qsum_one_hot; lia]).
Qed.

Lemma example_small_ndays : 1 ≤ Clustering.ndays example_small_clustered.
Proof. vm_compute. discriminate. Qed.

(** ** C6: the hard partition matrix *)

Lemma argmin_from_bound (l : list Qc) (best i : nat) (bv : Qc) :
  (best < i)%nat → (argmin_from best bv i l < i + length l)%nat.
Proof.
  revert best bv i. induction l as [|x l IH]; simpl; intros best bv i Hb; [lia|].
  case_decide.
  - specialize (IH i x (S i) ltac:(lia)). lia.
  - specialize (IH best bv (S i) ltac:(lia)). lia.
Qed.

Lemma argmin_bound (l : list Qc) (k : nat) : argmin l = Ok k → (k < length l)%nat.
Proof.
  destruct l as [|x l]; simpl; [done|]. intros [= <-].
  pose proof (argmin_from_bound l 0 1 x ltac:(lia)). lia.
Qed.

Lemma assign_bound (D : list (list Qc)) (exemplars clusters : list nat) :
  AffinityPropagation.assign D exemplars = Ok clusters →
  length clusters = length D ∧ ∀ k, k ∈ clusters → (k < length exemplars)%nat.
Proof.
  unfold AffinityPropagation.assign. intros H. split.
  - by eapply mapM_Ok_length.
  - intros k Hk. destruct (mapM_Ok_elem _ _ _ _ H Hk) as (row & _ & Hr).
    apply argmin_bound in Hr. by rewrite length_map in Hr.
Qed.

Lemma refine_cluster_length D clusters (exemplars exemplars' : list nat) k :
  AffinityPropagation.refine_cluster D clusters exemplars k = Ok exemplars' →
  length exemplars' = length exemplars.
Proof.
  unfold AffinityPropagation.refine_cluster. intros H. case_decide.
  - inv_bind H. injection H as <-. apply length_insert.
  - by injection H as <-.
Qed.

Lemma refine_length D clusters (exemplars exemplars' : list nat) :
  AffinityPropagation.refine D clusters exemplars = Ok exemplars' →
  length exemplars' = length exemplars.
Proof.
  unfold AffinityPropagation.refine.
  generalize (seq 0 (length exemplars)). intros l.
  apply (foldM_invariant (λ e, length e = length exemplars)); [|done].
  intros a b a' _ Ha Hr. apply refine_cluster_length in Hr. congruence.
Qed.

Lemma random_sample_rows (n m : nat) (g : rng) :
  length (MT19937.random_sample n m g).1 = n.
Proof.
  revert g. induction n as [|n IH]; intros g; simpl; [done|].
  destruct (MT19937.doubles m g) as [row g1].
  specialize (IH g1). destruct (MT19937.random_sample n m g1) as [rows g2].
  simpl in *. by rewrite IH.
Qed.

Lemma set_diag_length v (m : list (list Qc)) : length (set_diag v m) = length m.
Proof. unfold set_diag. apply length_imap. Qed.

Lemma with_preference_length pref (S : list (list Qc)) :
  length (AffinityPropagation.with_preference pref S) = length S.
Proof.
  unfold AffinityPropagation.with_preference.
  destruct (AffinityPropagation.truthy pref); [apply set_diag_length|].
  destruct (median (concat S)); [apply set_diag_length | done].
Qed.

Lemma prepare_rows (self : AffinityPropagation.t) data (g g' : rng) S :
  AffinityPropagation.prepare self data g = Ok (S, g') → length S = length data.
Proof.
  unfold AffinityPropagation.prepare. intros H. inv_bind H.
  pose proof (random_sample_rows (length data) (length data)
                (MT19937.seed (AffinityPropagation.random_seed self))) as Hs.
  destruct (MT19937.random_sample _ _ _) as [sample g1]. injection H as <- _.
  unfold AffinityPropagation.perturb, mat_zip_with. rewrite length_zip_with.
  rewrite with_preference_length, similarity_rows. simpl in Hs. lia.
Qed.

Lemma distances_length (S : list (list Qc)) :
  length (AffinityPropagation.distances S) = length S.
Proof.
  unfold AffinityPropagation.distances, mat_map.
  by rewrite length_map, set_diag_length.
Qed.

(** What a successful fit stores: an index per observation, each below
    the number of clusters. *)
Lemma fit_predict_index (self alg : AffinityPropagation.t) data (g g' : rng) :
  AffinityPropagation.fit_predict self data g = Ok (alg, g') →
  ∃ index n exemplars means w conv,
    AffinityPropagation.cluster_index alg = Some index
    ∧ AffinityPropagation.n_clusters alg = Some n
    ∧ AffinityPropagation.exemplars alg = Some exemplars
    ∧ AffinityPropagation.cluster_means alg = Some means
    ∧ AffinityPropagation.wcss alg = Some w
    ∧ AffinityPropagation.converged alg = Some conv
    ∧ length index = length data
    ∧ length exemplars = n
    ∧ ∀ k, k ∈ index → (k < n)%nat.
Proof.
  unfold AffinityPropagation.fit_predict. intros H.
  inv_bind H. destruct v as [S g1]. simpl in H.
  inv_bind H. inv_bind H. inv_bind H. inv_bind H. injection H as <- _. simpl.
  apply prepare_rows in E. apply refine_length in E2.
  apply assign_bound in E3 as [Hlen Hk].
  do 6 eexists. repeat split; try done.
  - by rewrite Hlen, distances_length.
  - intros k Hin. rewrite <- E2. by apply Hk.
Qed.

Lemma zeros2_lookup (n m g : nat) : (g < n)%nat → zeros2 n m !! g = Some (zeros m).
Proof. intros Hg. unfold zeros2. by apply lookup_replicate_2. Qed.

Lemma hard_partition_lookup (n_group n_cluster : nat) (index : list nat) (g : nat) row :
  Clustering.hard_partition n_group n_cluster index !! g = Some row →
  (g < n_group)%nat ∧ row = one_hot n_cluster (default 0%nat (index !! g)).
Proof.
  unfold Clustering.hard_partition. rewrite list_lookup_imap.
  destruct (zeros2 n_group n_cluster !! g) as [z|] eqn:Hz; simpl; [|done].
  intros [= <-]. apply lookup_replicate in Hz as [-> Hg]. done.
Qed.

Lemma hard_partition_length (n_group n_cluster : nat) (index : list nat) :
  length (Clustering.hard_partition n_group n_cluster index) = n_group.
Proof.
  unfold Clustering.hard_partition, zeros2. by rewrite length_imap, length_replicate.
Qed.

(** C6. Under hard partitioning, the cluster set that
    [form_clusters_using_current_parameters] builds for a feature matrix
    of [n_group ≥ 1] rows has a partition matrix of [n_group] rows; row
    [g] holds 1 at the column [index[g]] (a valid cluster id) and 0 in
    every other column, and so sums to 1. *)
Theorem hard_partition_rows (self : Clustering.t) (g : rng) (data : list (list Qc))
    (r : Clustering.t * rng * option (gmap string pyval)) :
  Clustering.sim_hard_partitions self = true →
  Clustering.data self = Some data →
  (1 ≤ length data)%nat →
  Clustering.form_clusters_using_current_parameters self g = Ok r →
  ∃ (pm : list (list Qc)) (index : list nat) (n_cluster : nat),
    formed_clusters r !! "partition_matrix" = Some (PMat pm)
    ∧ formed_clusters r !! "index" = Some (PArrI index)
    ∧ formed_clusters r !! "n_cluster" = Some (PInt (Z.of_nat n_cluster))
    ∧ length pm = length data
    ∧ length index = length data
    ∧ ∀ (i : nat) (row : list Qc),
        pm !! i = Some row →
        ∃ k, index !! i = Some k
             ∧ (k < n_cluster)%nat
             ∧ length row = n_cluster
             ∧ (∀ j, (j < n_cluster)%nat →
                     row !! j = Some (if decide (j = k) then 1%Qc else 0%Qc))
             ∧ qsum row = 1%Qc.
Proof.
  intros Hhard Hdata Hn H.
  unfold Clustering.form_clusters_using_current_parameters, Clustering.get_data in H.
  rewrite Hdata in H. simpl in H. case_decide as Hone.
  - (* one group *)
    injection H as <-. unfold formed_clusters. simpl.
    exists [[1%Qc]], [0%nat], 1%nat. unfold Clustering.single_cluster.
    rewrite Hone. simplify_map_eq. split_and!; try done.
    intros i row Hi. destruct i as [|i]; [|done]. injection Hi as <-.
    exists 0%nat. split_and!; try done; [lia|].
    intros j Hj. by replace j with 0%nat by lia.
  - (* the engine *)
    inv_bind H. inv_bind H. destruct v0 as [alg g1].
    destruct (fit_predict_index _ _ _ _ _ E0)
      as (index & n & ex & means & w & conv & Hi & Hc & He & Hm & Hw & Hv & Hlen & _ & Hk).
    simpl in H. rewrite Hi, Hc, Hm, Hw, He, Hv, Hhard in H. simpl in H.
    injection H as <-. unfold formed_clusters. simpl.
    exists (Clustering.hard_partition (length data) n index), index, n.
    simplify_map_eq. split_and!; try done.
    + apply hard_partition_length.
    + intros i row Hrow. apply hard_partition_lookup in Hrow as [Hi' ->].
      destruct (index !! i) as [k|] eqn:Hik.
      2:{ apply lookup_ge_None in Hik. lia. }
      assert (k < n)%nat by (apply Hk; by eapply list_elem_of_lookup_2).
      exists k. simpl. split_and!; try done.
      * apply one_hot_length.
      * intros j Hj. by apply one_hot_lookup.
      * by apply qsum_one_hot.
Qed.

Lemma example_form_succeeds :
  is_ok (Clustering.form_clusters_using_current_parameters
           (new_clustering ["tower"] 2 2 true (Some (column_data [0; 1; 5])))
           (MT19937.seed 0)) = true.
Proof. vm_compute. reflexivity. Qed.

Lemma hard_partition_rows_witness :
  ∃ r (pm : list (list Qc)),
    Clustering.form_clusters_using_current_parameters
      (new_clustering ["tower"] 2 2 true (Some (column_data [0; 1; 5]))) (MT19937.seed 0)
    = Ok r
    ∧ formed_clusters r !! "partition_matrix" = Some (PMat pm)
    ∧ length pm = 3%nat
    ∧ ∀ (i : nat) (row : list Qc), pm !! i = Some row → qsum row = 1%Qc.
Proof.
  destruct (is_ok_true _ example_form_succeeds) as [r Hr].
  destruct (hard_partition_rows
              (new_clustering ["tower"] 2 2 true (Some (column_data [0; 1; 5])))
              (MT19937.seed 0) (column_data [0; 1; 5]) r eq_refl eq_refl
              ltac:(simpl; lia) Hr)
    as (pm & index & n & Hpm & _ & _ & Hlen & _ & Hrows).
  exists r, pm. split; [exact Hr|]. split; [exact Hpm|]. split; [exact Hlen|].
  intros i row Hi. destruct (Hrows i row Hi) as (k & _ & _ & _ & _ & Hsum). exact Hsum.
Defined.

(** Three groups with the same feature value, under hard partitioning:
    forming the clusters raises [ValueError]; no partition matrix is
    built and no group is given a cluster. *)
Lemma hard_partition_counterexample :
  Clustering.sim_hard_partitions example_flat = true
  ∧ option_map length (Clustering.data example_flat) = Some 3%nat
  ∧ Clustering.form_clusters_using_current_parameters example_flat (MT19937.seed 0)
    = Raise ValueError.
Proof. vm_compute. done. Qed.

(** ** C7: min-max normalization of a daily table *)

Lemma scale_mono (lo d a b : Qc) :
  (0 < d)%Qc → (a < b)%Qc ↔ ((a - lo) / d < (b - lo) / d)%Qc.
Proof.
  intros Hd. assert (Hi : (0 < / d)%Qc) by by apply Qcinv_pos.
  unfold Qcdiv. split; intros H.
  - apply Qcmult_lt_compat_r; [done|].
    unfold Qcminus. by apply Qcplus_lt_mono_r.
  - apply Qcmult_lt_mono_pos_r in H; [|done].
    unfold Qcminus in H. by apply Qcplus_lt_mono_r in H.
Qed.

(** C7, as the code has it.  A table that has a minimum [lo] and a
    maximum [hi] is normalized to a table whose minimum is exactly 0 and
    whose maximum is [(hi - lo) / max(1e-6, hi - lo)]: exactly 1 when the
    range is at least the floor 1e-6, and the range divided by 1e-6 (less
    than 1) when it is narrower. *)
Theorem normalize_extrema (table : list (list Qc)) (lo hi : Qc) :
  np_min (concat table) = Ok lo →
  Clustering.np_max (concat table) = Ok hi →
  ∃ table', Clustering.normalize table = Ok table'
    ∧ np_min (concat table') = Ok 0%Qc
    ∧ Clustering.np_max (concat table')
      = Ok ((hi - lo) / qmax (qfrac 1 1000000) (hi - lo))%Qc
    ∧ ((qfrac 1 1000000 ≤ hi - lo)%Qc → Clustering.np_max (concat table') = Ok 1%Qc)
    ∧ ((hi - lo < qfrac 1 1000000)%Qc →
       Clustering.np_max (concat table') = Ok ((hi - lo) / qfrac 1 1000000)%Qc).
Proof.
  intros Hlo Hhi. unfold Clustering.normalize. rewrite Hhi, Hlo. simpl.
  eexists. split; [reflexivity|].
  set (d := qmax (qfrac 1 1000000) (hi - lo)%Qc).
  assert (Hd : (0 < d)%Qc) by apply qmax_floor_pos.
  rewrite concat_mat_map.
  assert (Hmax : Clustering.np_max (map (λ x, (x - lo) / d)%Qc (concat table))
                 = Ok ((hi - lo) / d)%Qc).
  { apply (np_max_map (λ x, (x - lo) / d)%Qc); [|done].
    intros a b. by apply scale_mono. }
  repeat split.
  - rewrite (np_min_map (λ x, (x - lo) / d)%Qc (λ a b, scale_mono lo d a b Hd) _ lo Hlo).
    f_equal. unfold Qcminus. rewrite Qcplus_opp_r. unfold Qcdiv. apply Qcmult_0_l.
  - exact Hmax.
  - intros Hge. rewrite Hmax. f_equal.
    assert (d = (hi - lo)%Qc) as ->.
    { unfold d, qmax. destruct (decide (qfrac 1 1000000 < hi - lo)%Qc) as [|Hn]; [done|].
      apply Qcle_antisym; [done | by apply Qcnot_lt_le]. }
    unfold Qcdiv. apply Qcmult_inv_r. intros Hz. rewrite Hz in Hge. by apply Qcle_not_lt in Hge.
  - intros Hlt. rewrite Hmax. do 2 f_equal.
    unfold d, qmax. rewrite decide_False; [done|].
    intros H. by eapply Qclt_not_le; [exact Hlt | apply Qclt_le_weak].
Qed.

Lemma normalize_extrema_witness :
  ∃ table', Clustering.normalize [[qz 3; qz 7]; [qz 5; qz 4]] = Ok table'
    ∧ result_value (np_min (concat table')) = Some 0%Q
    ∧ result_value (Clustering.np_max (concat table')) = Some 1%Q.
Proof.
  destruct (normalize_extrema [[qz 3; qz 7]; [qz 5; qz 4]] (qz 3) (qz 7))
    as (table' & Hn & Hmin & _ & Hmax & _); [qc_eq | qc_eq |].
  exists table'. split; [exact Hn|]. rewrite Hmin, Hmax by done. done.
Defined.

(** A table whose maximum 1e-7 is strictly greater than its minimum 0 is
    normalized to a table whose maximum is 0.1, which is not within 1e-6
    of 1. *)
Lemma normalize_counterexample :
  result_value (np_min (concat narrow_table)) = Some 0%Q
  ∧ result_value (Clustering.np_max (concat narrow_table)) = Some (1 # 10000000)%Q
  ∧ result_value (Clustering.normalize narrow_table ≫= λ t, Clustering.np_max (concat t))
    = Some (1 # 10)%Q
  ∧ within (qfrac 1 1000000) (qfrac 1 10) 1%Qc = false.
Proof. vm_compute. done. Qed.

(** ** C8: the refinement of the exemplars and the WCSS *)

Section SquaredDistance.
Local Open Scope Qc_scope.

Lemma sqdist_sym (a b : list Qc) : sqdist a b = sqdist b a.
Proof.
  unfold sqdist. f_equal. revert b. induction a as [|x a IH]; intros [|y b]; simpl; [done..|].
  rewrite IH. f_equal. unfold qsqr. ring.
Qed.

Lemma sqdist_nonneg (a b : list Qc) : 0 ≤ sqdist a b.
Proof.
  unfold sqdist. apply qsum_nonneg. intros x Hx.
  apply elem_of_lookup_zip_with in Hx as (i & u & v & -> & _ & _).
  apply qc_sqr_nonneg.
Qed.

Lemma sqdist_nil_r (a : list Qc) : sqdist a [] = 0.
Proof. unfold sqdist. by destruct a. Qed.

Lemma sqdist_refl (a : list Qc) : sqdist a a = 0.
Proof.
  unfold sqdist. induction a as [|x a IH]; simpl; [done|].
  rewrite IH. unfold qsqr. ring.
Qed.

Lemma qsqr_zero (x : Qc) : qsqr x = 0 → x = 0.
Proof.
  unfold qsqr. intros H. destruct (decide (x = 0)) as [|Hx]; [done|].
  apply Qcmult_integral in H. tauto.
Qed.

Lemma qc_add_zero (a b : Qc) : 0 ≤ a → 0 ≤ b → a + b = 0 → a = 0 ∧ b = 0.
Proof.
  intros Ha Hb Hab.
  assert (a ≤ 0).
  { rewrite <- Hab. rewrite <- (Qcplus_0_r a) at 1. by apply Qcplus_le_compat. }
  assert (a = 0) as -> by by apply Qcle_antisym.
  split; [done|]. by rewrite Qcplus_0_l in Hab.
Qed.

(** Rows of equal length at squared distance zero are equal. *)
Lemma sqdist_zero (a b : list Qc) :
  length a = length b → sqdist a b = 0 → a = b.
Proof.
  unfold sqdist. revert b. induction a as [|x a IH]; intros [|y b] Hlen H; try done.
  simpl in *.
  apply qc_add_zero in H as [Hx Hs];
    [|apply qc_sqr_nonneg|apply (sqdist_nonneg a b)].
  apply qsqr_zero in Hx. f_equal.
  - apply (f_equal (λ z, z + y)) in Hx. by ring_simplify in Hx.
  - apply IH; [lia | done].
Qed.
End SquaredDistance.

Section ArgminFacts.
Local Open Scope Qc_scope.

(** [argmin_from] scans [l] after a prefix [pre] whose first minimum
    is [bv] at [best]. *)
Lemma argmin_from_spec (l pre : list Qc) (best : nat) (bv : Qc) :
  pre !! best = Some bv →
  (∀ j y, pre !! j = Some y → bv ≤ y) →
  (∀ j y, (j < best)%nat → pre !! j = Some y → bv < y) →
  ∃ x, (pre ++ l) !! argmin_from best bv (length pre) l = Some x
       ∧ (∀ j y, (pre ++ l) !! j = Some y → x ≤ y)
       ∧ (∀ j y, (j < argmin_from best bv (length pre) l)%nat →
                 (pre ++ l) !! j = Some y → x < y).
Proof.
  revert pre best bv. induction l as [|x l IH]; intros pre best bv Hb Hmin Hfirst; simpl.
  - rewrite app_nil_r. eauto.
  - assert (Hlen : length (pre ++ [x]) = S (length pre))
      by (rewrite length_app; simpl; lia).
    replace (pre ++ x :: l) with ((pre ++ [x]) ++ l) by by rewrite <- app_assoc.
    rewrite <- Hlen. case_decide as Hlt.
    + apply (IH (pre ++ [x]) (length pre) x).
      * rewrite lookup_app_r by lia. by rewrite Nat.sub_diag.
      * intros j y Hj. apply lookup_app_Some in Hj as [Hj|[_ Hj]].
        -- apply Qclt_le_weak. eapply Qclt_le_trans; [exact Hlt | by eapply Hmin].
        -- apply list_lookup_singleton_Some in Hj as [_ <-]. apply Qcle_refl.
      * intros j y Hj Hy. apply lookup_app_Some in Hy as [Hy|[Hge _]]; [|lia].
        eapply Qclt_le_trans; [exact Hlt | by eapply Hmin].
    + apply IH.
      * by apply lookup_app_l_Some.
      * intros j y Hj. apply lookup_app_Some in Hj as [Hj|[_ Hj]]; [by eapply Hmin|].
        apply list_lookup_singleton_Some in Hj as [_ <-]. by apply Qcnot_lt_le.
      * intros j y Hj Hy. apply lookup_app_Some in Hy as [Hy|[Hge Hy]]; [by eapply Hfirst|].
        apply lookup_lt_Some in Hb. lia.
Qed.

(** [argmin] returns the first position of the minimum. *)
Lemma argmin_spec (l : list Qc) (k : nat) :
  argmin l = Ok k →
  ∃ x, l !! k = Some x
       ∧ (∀ j y, l !! j = Some y → x ≤ y)
       ∧ (∀ j y, (j < k)%nat → l !! j = Some y → x < y).
Proof.
  destruct l as [|a l]; simpl; [done|]. intros [= <-].
  apply (argmin_from_spec l [a] 0 a); [done|..].
  - intros [|j] y Hj; [|done]. injection Hj as <-. apply Qcle_refl.
  - intros j y Hj. lia.
Qed.

Lemma foldl_qsum {A} (F : A → Qc) (l : list A) (w : Qc) :
  foldl (λ w k, w + F k) w l = w + qsum (map F l).
Proof.
  revert w. induction l as [|k l IH]; intros w; simpl; [by rewrite Qcplus_0_r|].
  rewrite IH. ring.
Qed.

Lemma qsum_map_add_gen {A} (f g : A → Qc) (l : list A) :
  qsum (map (λ j, f j + g j) l) = qsum (map f l) + qsum (map g l).
Proof.
  induction l as [|j l IH]; simpl; [by rewrite Qcplus_0_l|].
  rewrite IH. ring.
Qed.

Lemma qsum_map_zero {A} (l : list A) : qsum (map (λ _, 0) l) = 0.
Proof. induction l as [|j l IH]; simpl; [done|]. by rewrite IH, Qcplus_0_l. Qed.

Lemma qsum_map_le {A} (f g : A → Qc) (l : list A) :
  (∀ x, x ∈ l → f x ≤ g x) → qsum (map f l) ≤ qsum (map g l).
Proof.
  induction l as [|a l IH]; simpl; intros H; [apply Qcle_refl|].
  apply Qcplus_le_compat; [apply H; left | apply IH; intros x Hx; apply H; by right].
Qed.

Lemma qsum_map_ext {A} (f g : A → Qc) (l : list A) :
  (∀ x, x ∈ l → f x = g x) → qsum (map f l) = qsum (map g l).
Proof.
  induction l as [|a l IH]; simpl; intros H; [done|].
  rewrite (H a) by left. f_equal. apply IH. intros x Hx. apply H. by right.
Qed.

(** One term of an indicator sum survives. *)
Lemma qsum_indicator (K c : nat) (G : nat → Qc) :
  (c < K)%nat →
  qsum (map (λ k, if decide (c = k) then G k else 0) (seq 0 K)) = G c.
Proof.
  intros Hc. induction K as [|K IH]; [lia|].
  rewrite seq_S, map_app, qsum_app. simpl.
  destruct (decide (c = K)) as [->|Hne].
  - rewrite (qsum_map_ext _ (λ _, 0)).
    + rewrite qsum_map_zero. ring.
    + intros k Hk%elem_of_seq. rewrite decide_False; [done | lia].
  - rewrite IH by lia. ring.
Qed.

(** Summing cluster by cluster is summing point by point. *)
Lemma regroup {A} (ps : list (A * nat)) (G : A → nat → Qc) (K : nat) :
  (∀ p, p ∈ ps → (p.2 < K)%nat) →
  qsum (map (λ k, qsum (map (λ p : A * nat, if decide (p.2 = k) then G p.1 k else 0) ps))
            (seq 0 K))
  = qsum (map (λ p : A * nat, G p.1 p.2) ps).
Proof.
  induction ps as [|[a c] ps IH]; intros Hb; simpl.
  - apply qsum_map_zero.
  - rewrite (qsum_map_add_gen (λ k, if decide (c = k) then G a k else 0)).
    rewrite qsum_indicator by (apply (Hb (a, c)); left).
    f_equal. apply IH. intros p Hp. apply Hb. by right.
Qed.
End ArgminFacts.
(** ** C5: the adjusted weights, entry by entry *)

Section Adjusted.
Local Open Scope Qc_scope.

Lemma sum0_lookup (n : nat) (m : list (list Qc)) (k : nat) :
  (k < n)%nat → sum0 n m !! k = Some (qsum (column m k)).
Proof.
  intros Hk. unfold sum0. rewrite list_lookup_fmap, lookup_seq_lt by done. done.
Qed.

Lemma sum0_length (n : nat) (m : list (list Qc)) : length (sum0 n m) = n.
Proof. unfold sum0. by rewrite length_map, length_seq. Qed.

(** The two additions at [k1] and then at [k2], read at position [k]. *)
Lemma boundary_additions (s : list Qc) (k1 k2 k : nat) (x1 x2 a b : Qc) :
  s !! k1 = Some x1 →
  <[k1 := x1 + a]> s !! k2 = Some x2 →
  (k < length s)%nat →
  ∃ x, s !! k = Some x
       ∧ <[k2 := x2 + b]> (<[k1 := x1 + a]> s) !! k
         = Some (x + (if decide (k = k1) then a else 0)
                   + (if decide (k = k2) then b else 0)).
Proof.
  intros H1 H2 Hk. destruct (lookup_lt_is_Some_2 s k Hk) as [x Hx].
  exists x. split; [done|].
  pose proof (lookup_lt_Some _ _ _ H1) as Hk1.
  destruct (decide (k = k2)) as [->|Hne2].
  - rewrite list_lookup_insert_eq by (by rewrite length_insert). f_equal.
    destruct (decide (k2 = k1)) as [->|Hne1].
    + rewrite list_lookup_insert_eq in H2 by done. injection H2 as <-.
      rewrite H1 in Hx. injection Hx as <-. done.
    + rewrite list_lookup_insert_ne in H2 by done.
      rewrite Hx in H2. injection H2 as <-. ring.
  - rewrite list_lookup_insert_ne by done.
    destruct (decide (k = k1)) as [->|Hne1].
    + rewrite list_lookup_insert_eq by done. rewrite H1 in Hx. injection Hx as <-.
      f_equal. ring.
    + rewrite list_lookup_insert_ne by done. rewrite Hx. f_equal. ring.
Qed.
End Adjusted.

(** C5. Let the partition matrix be a hard partition of the [n_group]
    groups (one row per group, every row as long as the matrix is wide
    and summing to 1), and let [ndays ≥ 1].  When
    [adjust_weighting_for_incomplete_groups] returns, it has stored the
    adjusted weights under ['weights_adjusted'] and changed no other
    entry of the cluster set; [index_first] and [index_last] are the
    clusters whose means are nearest to the first and to the last
    boundary vector; the weight of cluster [k] is the sum of column [k]
    of the partition matrix, plus [1 / ndays] for the cluster of the
    first day and [(365 - n_group * ndays - 1) / ndays] for the cluster
    of the last days, divided by [n_group] plus those two fractions; and
    the weights sum to exactly 1. *)
Theorem adjusted_weights_sum_to_one (self self' : Clustering.t)
    (data pm : list (list Qc)) :
  Clustering.data self = Some data →
  Clustering.clusters self !! "partition_matrix" = Some (PMat pm) →
  length pm = length data →
  (∀ row, row ∈ pm → length row = Clustering.ncols pm ∧ qsum row = 1%Qc) →
  1 ≤ Clustering.ndays self →
  Clustering.adjust_weighting_for_incomplete_groups self = Ok self' →
  ∃ (w : list Qc) (k1 k2 : nat),
    Clustering.clusters self'
    = <["weights_adjusted" := PArrF w]> (Clustering.clusters self)
    ∧ Clustering.index_first self' = Z.of_nat k1
    ∧ Clustering.index_last self' = Z.of_nat k2
    ∧ nearest_cluster self (Clustering.data_first self) (Clustering.ncols data) k1
    ∧ nearest_cluster self (Clustering.data_last self) (Clustering.ncols data) k2
    ∧ length w = Clustering.ncols pm
    ∧ (∀ k, (k < Clustering.ncols pm)%nat →
            w !! k = Some (adjusted_weight pm (Z.of_nat (length data))
                             (Clustering.ndays self) k1 k2 k))
    ∧ qsum w = 1%Qc.
Proof.
  intros Hdata Hpm Hlen Hrows Hnd.
  unfold Clustering.adjust_weighting_for_incomplete_groups, Clustering.get_data.
  rewrite Hdata. cbn [mbind result_bind]. intros H.
  apply bind_Ok in H as (n & Hn & H).
  apply bind_Ok in H as (dist_first & Hdf & H).
  apply bind_Ok in H as (dist_last & Hdl & H).
  apply bind_Ok in H as (k1 & Hk1 & H).
  apply bind_Ok in H as (k2 & Hk2 & H).
  apply bind_Ok in H as (ffirst & Hff & H).
  apply bind_Ok in H as (flast & Hfl & H).
  apply bind_Ok in H as (pm' & Hpm' & H).
  apply bind_Ok in H as (x1 & Hx1 & H).
  apply bind_Ok in H as (x2 & Hx2 & H).
  injection H as <-.
  unfold dict_get in Hpm'. cbn in Hpm'. rewrite Hpm in Hpm'. injection Hpm' as <-.
  apply pydiv_Ok in Hff as [Hnz ->]. apply pydiv_Ok in Hfl as [_ ->].
  apply getitem_Ok in Hx1, Hx2.
  change (Clustering.ndays (Clustering.set_index_last _ (Clustering.set_index_first _ self)))
    with (Clustering.ndays self) in *.
  destruct (argmin_spec _ _ Hk1) as (d1 & Hd1 & Hmin1 & Hfst1).
  destruct (argmin_spec _ _ Hk2) as (d2 & Hd2 & Hmin2 & Hfst2).
  eexists _, k1, k2. split; [reflexivity|].
  split; [reflexivity|]. split; [reflexivity|].
  split; [by exists n, dist_first, d1|]. split; [by exists n, dist_last, d2|].
  split; [by rewrite length_map, !length_insert, sum0_length|]. split.
  - intros k Hk. rewrite list_lookup_fmap.
    destruct (boundary_additions _ k1 k2 k x1 x2 _
                (qz (365 - Z.of_nat (length data) * Clustering.ndays self - 1)
                 / qz (Clustering.ndays self))%Qc Hx1 Hx2) as (x & Hx & ->);
      [by rewrite sum0_length|].
    rewrite sum0_lookup in Hx by done. injection Hx as <-. done.
  - set (nd := qz (Clustering.ndays self)) in *.
    set (ng := Z.of_nat (length data)) in *.
    set (nlast := (365 - ng * Clustering.ndays self - 1)) in *.
    rewrite qsum_map_div, (qsum_insert_add _ _ _ _ Hx2), (qsum_insert_add _ _ _ _ Hx1).
    rewrite qsum_sum0 by (intros row Hr; by apply Hrows).
    rewrite (qsum_ones qsum) by (intros row Hr; by apply Hrows).
    rewrite Hlen. fold ng.
    unfold Qcdiv at 1. apply Qcmult_inv_r.
    (* the adjusted group count is 365 / ndays *)
    intros Hz.
    assert (Hadj : ((qz ng + 1 / nd + qz nlast / nd) * nd = qz 365)%Qc).
    { transitivity (qz ng * nd + 1 + qz nlast)%Qc; [by field|].
      unfold nd, nlast. change 1%Qc with (qz 1).
      rewrite <- qz_mul, <- !qz_add. f_equal. lia. }
    rewrite Hz, Qcmult_0_l in Hadj. by apply (f_equal this) in Hadj.
Qed.

Lemma adjusted_weights_sum_to_one_witness :
  ∃ self' w,
    Clustering.adjust_weighting_for_incomplete_groups example_small_clustered = Ok self'
    ∧ Clustering.clusters self' !! "weights_adjusted" = Some (PArrF w)
    ∧ qsum w = 1%Qc.
Proof.
  destruct (is_ok_true _ example_small_adjusts) as [self' Hadj].
  destruct (adjusted_weights_sum_to_one example_small_clustered self'
              (column_data [0; 1; 5]) [one_hot 2 0; one_hot 2 0; one_hot 2 1]
              example_small_data example_small_partition eq_refl
              example_small_rows example_small_ndays Hadj)
    as (w & k1 & k2 & Hw & _ & _ & _ & _ & _ & _ & Hsum).
  exists self', w. split; [exact Hadj|]. split; [|exact Hsum].
  rewrite Hw. apply lookup_insert_eq.
Defined.

(** ** C9: a fit depends on the data and the parameters only *)

Lemma round_parameters (s1 s2 : AffinityPropagation.t) S st :
  AffinityPropagation.damping s1 = AffinityPropagation.damping s2 →
  AffinityPropagation.round s1 S st = AffinityPropagation.round s2 S st.
Proof. unfold AffinityPropagation.round. by intros ->. Qed.

Lemma loop_parameters (fuel : nat) (s1 s2 : AffinityPropagation.t) S st :
  engine_parameters s1 = engine_parameters s2 →
  AffinityPropagation.loop fuel s1 S st = AffinityPropagation.loop fuel s2 S st.
Proof.
  intros Hp. injection Hp as Hd Hm Hc _ _.
  revert st. induction fuel as [|fuel IH]; intros st; simpl; [done|].
  rewrite Hm, Hc, (round_parameters s1 s2) by done.
  case_decide; [|done].
  destruct (AffinityPropagation.round s2 S st); simpl; [apply IH | done].
Qed.

Lemma prepare_parameters (s1 s2 : AffinityPropagation.t) data (g1 g2 : rng) :
  engine_parameters s1 = engine_parameters s2 →
  AffinityPropagation.prepare s1 data g1 = AffinityPropagation.prepare s2 data g2.
Proof.
  intros Hp. injection Hp as _ _ _ Hpref Hseed.
  unfold AffinityPropagation.prepare. by rewrite Hpref, Hseed.
Qed.

Lemma fit_predict_parameters (s1 s2 : AffinityPropagation.t) data (g1 g2 : rng) :
  engine_parameters s1 = engine_parameters s2 →
  AffinityPropagation.fit_predict s1 data g1 = AffinityPropagation.fit_predict s2 data g2.
Proof.
  intros Hp. unfold AffinityPropagation.fit_predict.
  rewrite (prepare_parameters s1 s2 data g1 g2 Hp).
  destruct (AffinityPropagation.prepare s2 data g2) as [[S g]|]; simpl; [|done].
  rewrite (loop_parameters _ s1 s2) by done.
  injection Hp as -> -> -> -> ->. done.
Qed.

Lemma fit_predict_keeps_parameters (self alg : AffinityPropagation.t) data (g g' : rng) :
  AffinityPropagation.fit_predict self data g = Ok (alg, g') →
  engine_parameters alg = engine_parameters self.
Proof.
  unfold AffinityPropagation.fit_predict. intros H.
  do 5 inv_bind H. by injection H as <- _.
Qed.

(** C9. Two runs of the engine on the same feature matrix with the same
    parameters (damping, iteration caps, preference and the seed, 123
    after [__init__]) report the same exemplars, the same cluster count,
    the same WCSS, the same assignment and the same convergence flag,
    whatever state NumPy's generator is in when each run starts and
    whatever an earlier fit has left in the object: every fit seeds the
    generator anew. *)
Theorem fit_predict_deterministic (self1 self2 : AffinityPropagation.t)
    (data : list (list Qc)) (g1 g2 : rng) :
  engine_parameters self1 = engine_parameters self2 →
  engine_outputs (AffinityPropagation.fit_predict self1 data g1)
  = engine_outputs (AffinityPropagation.fit_predict self2 data g2).
Proof. intros Hp. by rewrite (fit_predict_parameters self1 self2 data g1 g2 Hp). Qed.

Lemma example_fit_succeeds :
  is_ok (AffinityPropagation.fit_predict default_engine (column_data [0; 1; 5])
           (MT19937.seed 42)) = true.
Proof. vm_compute. reflexivity. Qed.

(** A second fit on the object and the generator that a first fit left. *)
Lemma fit_predict_deterministic_witness :
  ∃ alg g',
    AffinityPropagation.fit_predict default_engine (column_data [0; 1; 5]) (MT19937.seed 42)
    = Ok (alg, g')
    ∧ engine_outputs (AffinityPropagation.fit_predict alg (column_data [0; 1; 5]) g')
      = engine_outputs (AffinityPropagation.fit_predict default_engine
                          (column_data [0; 1; 5]) (MT19937.seed 42)).
Proof.
  destruct (is_ok_true _ example_fit_succeeds) as [[alg g'] Hfit].
  exists alg, g'. split; [exact Hfit|].
  exact (fit_predict_deterministic alg default_engine (column_data [0; 1; 5]) g'
           (MT19937.seed 42) (fit_predict_keeps_parameters _ _ _ _ _ Hfit)).
Defined.

(** ** C10: the days that an interior group refers to *)

(** The fraction behind [a / b], cross-multiplied. *)
Lemma quotient_cross (a b : Z) :
  b ≠ 0 →
  Qnum (this (qz a / qz b)%Qc) * b = a * Zpos (Qden (this (qz a / qz b)%Qc)).
Proof.
  intros Hb. set (x := (qz a / qz b)%Qc).
  assert (Hx : (x * qz b)%Qc = qz a).
  { unfold x, Qcdiv. rewrite <- Qcmult_assoc, (Qcmult_comm (/ qz b)), Qcmult_inv_r.
    - apply Qcmult_1_r.
    - by intros H%qz_eq_0. }
  assert (Hq : (this x * inject_Z b == inject_Z a)%Q).
  { rewrite <- (this_qz b), <- (this_qz a), <- Hx. symmetry.
    exact (Qred_correct (this x * this (qz b))). }
  destruct (this x) as [n d]. unfold Qeq in Hq. simpl in *. lia.
Qed.

(** [int(a / b)] is the integer quotient, for [a ≥ 0] and [b > 0]. *)
Lemma trunc_quotient (a b : Z) :
  0 ≤ a → 0 < b → Clustering.trunc (qz a / qz b)%Qc = a / b.
Proof.
  intros Ha Hb. pose proof (quotient_cross a b ltac:(lia)) as Hnb.
  unfold Clustering.trunc.
  destruct (this (qz a / qz b)%Qc) as [n d]. simpl in *.
  assert (Hn : 0 ≤ n).
  { destruct (Z_lt_le_dec n 0) as [Hlt|]; [|done].
    assert (n * b < 0) by (apply Z.mul_neg_pos; lia).
    assert (0 ≤ a * Zpos d) by (apply Z.mul_nonneg_nonneg; lia). lia. }
  rewrite Z.quot_div_nonneg by lia.
  set (q := n / Zpos d).
  pose proof (Z.mul_div_le n (Zpos d) ltac:(lia)) as Hlo.
  pose proof (Z.mul_succ_div_gt n (Zpos d) ltac:(lia)) as Hhi.
  fold q in Hlo, Hhi.
  apply Z.div_unique_pos with (r := (a - b * q)); [|lia].
  split.
  - assert (b * (Zpos d * q) ≤ b * n) by (apply Z.mul_le_mono_nonneg_l; lia).
    assert (b * q * Zpos d ≤ a * Zpos d) by lia.
    apply Z.mul_le_mono_pos_r in H0; lia.
  - assert (b * n < b * (Zpos d * Z.succ q)) by (apply Z.mul_lt_mono_pos_l; lia).
    assert (a * Zpos d < (b * (q + 1)) * Zpos d) by lia.
    apply Z.mul_lt_mono_pos_r in H0; lia.
Qed.

(** A negative divisor gives a quotient that does not truncate to a
    positive integer. *)
Lemma trunc_negative_divisor (a b : Z) :
  0 ≤ a → b < 0 → Clustering.trunc (qz a / qz b)%Qc ≤ 0.
Proof.
  intros Ha Hb. pose proof (quotient_cross a b ltac:(lia)) as Hnb.
  unfold Clustering.trunc.
  destruct (this (qz a / qz b)%Qc) as [n d]. simpl in *.
  assert (Hn : n ≤ 0).
  { destruct (Z_lt_le_dec 0 n) as [Hlt|]; [|done].
    assert (n * b < 0) by (apply Z.mul_pos_neg; lia).
    assert (0 ≤ a * Zpos d) by (apply Z.mul_nonneg_nonneg; lia). lia. }
  replace n with (- (- n)) by lia. rewrite Z.quot_opp_l by lia.
  assert (0 ≤ (- n) ÷ Zpos d) by (apply Z.quot_pos; lia). lia.
Qed.

Lemma count_groups_Ok (self : Clustering.t) (n_group : nat) :
  Clustering.count_groups self = Ok n_group →
  (0 < n_group)%nat →
  1 ≤ Clustering.ndays self ∧ Z.of_nat n_group = 363 / Clustering.ndays self.
Proof.
  unfold Clustering.count_groups, Clustering.pydiv. intros H Hpos.
  case_decide as Hz; [discriminate|]. simpl in H.
  case_decide as Hneg; [discriminate|]. injection H as <-.
  assert (Clustering.ndays self ≠ 0) as Hnz by (intros E; apply Hz; by rewrite E).
  change (365 - 2) with 363 in *.
  destruct (decide (0 < Clustering.ndays self)) as [Hp|Hn].
  - rewrite trunc_quotient in * by lia. split; [lia|].
    rewrite Z2Nat.id; [done|]. apply Z.div_pos; lia.
  - pose proof (trunc_negative_divisor 363 (Clustering.ndays self)). lia.
Qed.

(** Every day that [get_data_for_group] looks up for an interior group
    lies in the year. *)
Lemma group_days_in_year (self : Clustering.t) (n_group g : nat) (name : string) (d : Z) :
  Clustering.count_groups self = Ok n_group →
  (g < n_group)%nat →
  d ∈ Clustering.group_days self (Z.of_nat g * Clustering.ndays self + 1) name →
  0 ≤ d ≤ 364.
Proof.
  intros Hn Hg Hd.
  destruct (count_groups_Ok _ _ Hn ltac:(lia)) as [Hnd Hq].
  assert (Hmul : Clustering.ndays self * Z.of_nat n_group ≤ 363).
  { rewrite Hq. apply Z.mul_div_le. lia. }
  unfold Clustering.group_days in Hd.
  destruct (Clustering.contains "_prev" name).
  { apply list_elem_of_singleton in Hd as ->. nia. }
  destruct (Clustering.contains "_next" name).
  { apply list_elem_of_singleton in Hd as ->. nia. }
  apply list_elem_of_fmap in Hd as (i & -> & Hi).
  apply elem_of_seq in Hi. nia.
Qed.

Lemma elem_of_mat_map (f : Qc → Qc) (m : list (list Qc)) (row : list Qc) (x : Qc) :
  row ∈ mat_map f m → x ∈ row → ∃ y, x = f y ∧ y ∈ concat m.
Proof.
  unfold mat_map. intros (row0 & -> & Hrow0)%list_elem_of_fmap
    (y & -> & Hy)%list_elem_of_fmap.
  exists y. split; [done|]. apply elem_of_concat. eauto.
Qed.

(** A normalized table has no negative entry. *)
Lemma normalize_nonneg (table table' : list (list Qc)) (row : list Qc) (x : Qc) :
  Clustering.normalize table = Ok table' → row ∈ table' → x ∈ row → (0 ≤ x)%Qc.
Proof.
  unfold Clustering.normalize. intros H Hrow Hx.
  inv_bind H. inv_bind H. injection H as <-.
  destruct (elem_of_mat_map _ _ _ _ Hrow Hx) as (y & -> & Hy).
  pose proof (np_min_le _ _ E0 y Hy) as Hlo.
  unfold Qcdiv. apply qc_mul_nonneg; [by apply qc_sub_nonneg|].
  apply Qclt_le_weak, Qcinv_pos, qmax_floor_pos.
Qed.

Lemma daily_metric_nonneg self b0 hd npd sr ss name (tbl : list (list Qc)) row x :
  Clustering.daily_metric self b0 hd npd sr ss name = Ok tbl →
  row ∈ tbl → x ∈ row → (0 ≤ x)%Qc.
Proof.
  unfold Clustering.daily_metric. intros H.
  do 5 inv_bind H. by eapply normalize_nonneg.
Qed.

(** The table stored for a metric is the one computed for the weight
    that [self.weights] holds under the same name. *)
Lemma daily_metrics_assoc self b0 hd npd sr ss (ws : list (string * Qc))
    (dm : list (string * list (list Qc))) (name : string) (tbl : list (list Qc)) :
  mapM (λ kv : string * Qc,
          if decide (0 < kv.2)%Qc then
            table ← Clustering.daily_metric self b0 hd npd sr ss kv.1;
            Ok (kv.1, table)
          else Ok (kv.1, [])) ws = Ok dm →
  assoc name dm = Some tbl →
  ∃ w, assoc name ws = Some w
       ∧ (if decide (0 < w)%Qc
          then Clustering.daily_metric self b0 hd npd sr ss name = Ok tbl
          else tbl = []).
Proof.
  revert dm. induction ws as [|[k w] ws IH]; simpl; intros dm H Ha.
  - by injection H as <-.
  - inv_bind H. inv_bind H. injection H as <-.
    assert (Hv : ∃ t, v = (k, t) ∧ (if decide (0 < w)%Qc
                          then Clustering.daily_metric self b0 hd npd sr ss k = Ok t
                          else t = [])).
    { case_decide.
      - inv_bind E. injection E as <-. eauto.
      - injection E as <-. eauto. }
    destruct Hv as (t & -> & Ht). simpl in Ha.
    destruct (decide (k = name)) as [->|Hk].
    + injection Ha as <-. eauto.
    + eauto.
Qed.


Lemma sentinel_negative : (Clustering.sentinel < 0)%Qc.
Proof. done. Qed.

(** For a group whose days all lie in the year, [get_data_for_group]
    returns weighted entries of normalized tables: none is negative. *)
Lemma get_data_for_group_nonneg self b0 hd npd sr ss
    (dm : list (string * list (list Qc))) (d1 : Z) (name : string)
    (v : list Qc) (x : Qc) :
  mapM (λ kv : string * Qc,
          if decide (0 < kv.2)%Qc then
            table ← Clustering.daily_metric self b0 hd npd sr ss kv.1;
            Ok (kv.1, table)
          else Ok (kv.1, [])) (Clustering.weights self) = Ok dm →
  (∀ d, d ∈ Clustering.group_days self d1 name → 0 ≤ d ≤ 364) →
  Clustering.get_data_for_group self dm d1 name = Ok v →
  x ∈ v → (0 ≤ x)%Qc.
Proof.
  intros Hdm Hdays H Hx. unfold Clustering.get_data_for_group in H.
  inv_bind H. inv_bind H. injection H as <-.
  apply elem_of_concat in Hx as (row & Hx & Hrow).
  destruct (mapM_Ok_elem _ _ _ _ E0 Hrow) as (d & Hd & Hf).
  rewrite decide_True in Hf by (specialize (Hdays d Hd); lia).
  inv_bind Hf. inv_bind Hf. inv_bind Hf. injection Hf as <-.
  unfold assoc_get in E1, E3.
  destruct (assoc name dm) as [tbl|] eqn:Htbl; [|done]. injection E1 as <-.
  destruct (assoc name (Clustering.weights self)) as [w|] eqn:Hw; [|done].
  injection E3 as <-.
  destruct (daily_metrics_assoc _ _ _ _ _ _ _ _ _ _ Hdm Htbl) as (w' & Hw' & Ht).
  rewrite Hw in Hw'. injection Hw' as <-.
  unfold getitem in E2. destruct (tbl !! Z.to_nat d) as [r|] eqn:Hr; [|done].
  injection E2 as <-.
  apply list_elem_of_fmap in Hx as (y & -> & Hy).
  case_decide as Hpos.
  - apply qc_mul_nonneg; [|by apply Qclt_le_weak].
    eapply daily_metric_nonneg; [exact Ht | by eapply list_elem_of_lookup_2 | done].
  - subst tbl. done.
Qed.

(** C10. In the feature matrix that [calculate_metrics] stores, group
    [g] of the [n_group = int(363 / ndays)] interior groups starts on day
    [g * ndays + 1]; every day it refers to, for every metric name (the
    previous day of a [_prev] metric and the following day of a [_next]
    metric included), lies in [0, 364], and no entry of any row is the
    sentinel -1e8 (the entries are weighted normalized values, none of
    them negative). *)
Theorem interior_groups_stay_in_year (weather : Clustering.Weather)
    (self self' : Clustering.t) :
  Clustering.calculate_metrics weather self = Ok self' →
  ∃ (rows : list (list Qc)) (n_group : nat),
    Clustering.data self' = Some rows
    ∧ Clustering.count_groups self' = Ok n_group
    ∧ length rows = n_group
    ∧ (∀ (g : nat) (name : string) (d : Z),
         (g < n_group)%nat →
         d ∈ Clustering.group_days self' (Z.of_nat g * Clustering.ndays self' + 1) name →
         0 ≤ d ≤ 364)
    ∧ (∀ (row : list Qc) (x : Qc),
         row ∈ rows → x ∈ row → (0 ≤ x)%Qc ∧ x ≠ Clustering.sentinel).
Proof.
  unfold Clustering.calculate_metrics. intros H.
  remember (Clustering.daily_avg_dni_loop _ _ _) as s eqn:Hs in H. clear Hs.
  inv_bind H. inv_bind H. inv_bind H. rename v1 into n_group.
  case_decide as Hempty; [discriminate|].
  inv_bind H. inv_bind H. inv_bind H. injection H as <-.
  rename v1 into rows. exists rows, n_group.
  rewrite data_set_data.
  rewrite (count_groups_ndays _ s) by apply ndays_set_data.
  assert (Hdays : ∀ (g : nat) name d, (g < n_group)%nat →
            d ∈ Clustering.group_days s (Z.of_nat g * Clustering.ndays s + 1) name →
            0 ≤ d ≤ 364).
  { intros g name d Hg Hd. by eapply group_days_in_year. }
  split; [done|]. split; [done|]. split.
  { apply mapM_Ok_length in E2. by rewrite length_seq in E2. }
  split.
  { intros g name d Hg. rewrite ndays_set_data.
    rewrite (group_days_ndays _ s) by apply ndays_set_data. by apply Hdays. }
  intros row x Hrow Hx.
  assert (Hnn : (0 ≤ x)%Qc).
  { destruct (mapM_Ok_elem _ _ _ _ E2 Hrow) as (g & Hg & Hgr).
    apply elem_of_seq in Hg. unfold Clustering.group_row in Hgr.
    inv_bind Hgr. injection Hgr as <-.
    apply elem_of_concat in Hx as (part & Hx & Hpart).
    destruct (mapM_Ok_elem _ _ _ _ E5 Hpart) as (name & _ & Hget).
    eapply get_data_for_group_nonneg; [exact E0 | | exact Hget | exact Hx].
    intros d Hd. apply (Hdays g name d); [lia | done]. }
  split; [done|]. intros ->.
  eapply Qclt_not_le; [apply sentinel_negative | exact Hnn].
Qed.

Lemma interior_groups_stay_in_year_witness :
  ∃ (self' : Clustering.t) (rows : list (list Qc)),
    Clustering.calculate_metrics example_weather example_plant = Ok self'
    ∧ Clustering.data self' = Some rows
    ∧ length rows = 3%nat
    ∧ (∀ (row : list Qc) (x : Qc), row ∈ rows → x ∈ row → x ≠ Clustering.sentinel).
Proof.
  destruct (is_ok_true _ (run_clustering_calculate_metrics _ _ _ _ example_run_succeeds))
    as [self' Hcalc].
  destruct (interior_groups_stay_in_year _ _ _ Hcalc)
    as (rows & n_group & Hdata & Hn & Hlen & _ & Hrows).
  exists self', rows. split; [exact Hcalc|]. split; [exact Hdata|]. split.
  - rewrite (count_groups_ndays _ example_plant) in Hn
      by (by eapply calculate_metrics_ndays).
    vm_compute in Hn. injection Hn as <-. exact Hlen.
  - intros row x Hrow Hx. by apply (Hrows row x).
Defined.

(** ** The refinement of the exemplars on unperturbed distances *)

Section Unperturbed.
Local Open Scope Qc_scope.

Lemma doubles_length (m : nat) (g : rng) : length (MT19937.doubles m g).1 = m.
Proof.
  revert g. induction m as [|m IH]; intros g; [done|].
  cbn [MT19937.doubles]. destruct (MT19937.next_double g) as [x g1].
  specialize (IH g1). destruct (MT19937.doubles m g1) as [xs g2].
  cbn [fst length] in *. lia.
Qed.

Lemma random_sample_columns (n m : nat) (g : rng) (row : list Qc) :
  row ∈ (MT19937.random_sample n m g).1 → length row = m.
Proof.
  revert g. induction n as [|n IH]; intros g; cbn [MT19937.random_sample].
  - intros H. by apply elem_of_nil in H.
  - pose proof (doubles_length m g) as Hd.
    destruct (MT19937.doubles m g) as [r g1].
    specialize (IH g1). destruct (MT19937.random_sample n m g1) as [rs g2].
    cbn [fst] in *. intros [->|H]%elem_of_cons; [done | by apply IH].
Qed.

Lemma zip_with_left {A B} (f : A → B → A) (a : list A) (b : list B) :
  (∀ x y, f x y = x) → (length a ≤ length b)%nat → zip_with f a b = a.
Proof.
  intros Hf. revert b. induction a as [|x a IH]; intros [|y b] Hlen; simpl in *;
    [done | done | lia |].
  rewrite Hf, IH; [done | lia].
Qed.

(** A perturbation of scale zero changes nothing. *)
Lemma perturb_zero (S sample : list (list Qc)) (n : nat) :
  (length S ≤ length sample)%nat →
  (∀ row, row ∈ S → length row = n) →
  (∀ row, row ∈ sample → length row = n) →
  AffinityPropagation.perturb 0 S sample = S.
Proof.
  unfold AffinityPropagation.perturb, mat_zip_with.
  revert sample. induction S as [|r S IH]; intros [|s sample] Hlen HS Hs; simpl in *;
    [done | done | lia |].
  f_equal.
  - apply zip_with_left; [intros x y; ring|].
    rewrite (HS r), (Hs s); [done | left | left].
  - apply IH; [lia | intros row Hr; apply HS; by right | intros row Hr; apply Hs; by right].
Qed.

Lemma set_diag_columns (v : Qc) (m : list (list Qc)) (n : nat) :
  (∀ row, row ∈ m → length row = n) → ∀ row, row ∈ set_diag v m → length row = n.
Proof.
  unfold set_diag. intros Hm row (i & r & -> & Hr)%elem_of_lookup_imap.
  rewrite length_insert. apply Hm. by eapply list_elem_of_lookup_2.
Qed.

Lemma with_preference_columns pref (data : list (list Qc)) (row : list Qc) :
  row ∈ AffinityPropagation.with_preference pref (AffinityPropagation.similarity data) →
  length row = length data.
Proof.
  assert (Hs : ∀ r, r ∈ AffinityPropagation.similarity data → length r = length data).
  { intros r (i & Hi)%list_elem_of_lookup_1. by eapply similarity_square. }
  unfold AffinityPropagation.with_preference.
  destruct (AffinityPropagation.truthy pref); [by apply set_diag_columns|].
  destruct (median _); [by apply set_diag_columns | apply Hs].
Qed.

(** With a scale of zero the iteration runs on the similarities
    themselves. *)
Lemma prepare_unperturbed (self : AffinityPropagation.t) (data : list (list Qc))
    (g g' : rng) (S : list (list Qc)) :
  perturbation_scale self data = Ok 0 →
  AffinityPropagation.prepare self data g = Ok (S, g') →
  S = AffinityPropagation.with_preference (AffinityPropagation.preference self)
        (AffinityPropagation.similarity data).
Proof.
  unfold perturbation_scale, AffinityPropagation.prepare. intros -> H. simpl in H.
  pose proof (random_sample_rows (length data) (length data)
                (MT19937.seed (AffinityPropagation.random_seed self))) as Hn.
  pose proof (random_sample_columns (length data) (length data)
                (MT19937.seed (AffinityPropagation.random_seed self))) as Hm.
  destruct (MT19937.random_sample _ _ _) as [sample g1]. simpl in *.
  injection H as <- _. apply (perturb_zero _ _ (length data)).
  - by rewrite with_preference_length, similarity_rows, Hn.
  - apply with_preference_columns.
  - exact Hm.
Qed.

Lemma set_diag_twice (v w : Qc) (m : list (list Qc)) :
  set_diag w (set_diag v m) = set_diag w m.
Proof.
  unfold set_diag. apply list_eq. intros i. rewrite !list_lookup_imap.
  destruct (m !! i) as [row|]; simpl; [|done]. by rewrite list_insert_insert_eq.
Qed.

(** Clearing the diagonal and changing the sign gives back the squared
    distances, whatever the preference was. *)
Lemma distances_with_preference pref (data : list (list Qc)) :
  AffinityPropagation.distances
    (AffinityPropagation.with_preference pref (AffinityPropagation.similarity data))
  = distance_matrix data.
Proof.
  assert (H : AffinityPropagation.distances (AffinityPropagation.similarity data)
              = distance_matrix data).
  { unfold AffinityPropagation.distances, mat_map, set_diag, distance_matrix,
      AffinityPropagation.similarity.
    apply list_eq. intros i. rewrite list_lookup_fmap, list_lookup_imap, !list_lookup_fmap.
    destruct (data !! i) as [p|] eqn:Hp; simpl; [|done]. f_equal.
    apply list_eq. intros j. rewrite list_lookup_fmap.
    destruct (decide (i = j)) as [<-|Hij].
    - rewrite list_lookup_fmap, Hp. simpl.
      rewrite list_lookup_insert_eq
        by (rewrite length_map; by eapply lookup_lt_Some).
      simpl. by rewrite sqdist_refl.
    - rewrite list_lookup_insert_ne by done. rewrite !list_lookup_fmap.
      destruct (data !! j); simpl; [|done]. f_equal. ring. }
  unfold AffinityPropagation.with_preference.
  destruct (AffinityPropagation.truthy pref); [|destruct (median _)]; [..|done].
  - unfold AffinityPropagation.distances in *. by rewrite set_diag_twice.
  - unfold AffinityPropagation.distances in *. by rewrite set_diag_twice.
Qed.
End Unperturbed.

Section Nearest.
Local Open Scope Qc_scope.
Context (data : list (list Qc)).

Local Abbreviation row i := (default [] (data !! i)).

Lemma distance_row (i : nat) (p : list Qc) :
  data !! i = Some p → distance_matrix data !! i = Some (map (sqdist p) data).
Proof. intros Hp. unfold distance_matrix. by rewrite list_lookup_fmap, Hp. Qed.

(** A column that does not exist reads as zero, the squared distance
    to the empty row. *)
Lemma distance_lookup (p : list Qc) (e : nat) :
  default 0 (map (sqdist p) data !! e) = sqdist p (row e).
Proof.
  rewrite list_lookup_fmap. destruct (data !! e); simpl; [done|].
  by rewrite sqdist_nil_r.
Qed.

Lemma entry_distance (p q : nat) :
  entry (distance_matrix data) p q = sqdist (row p) (row q).
Proof.
  unfold entry. destruct (data !! p) as [x|] eqn:Hp.
  - rewrite (distance_row p x Hp). simpl. apply distance_lookup.
  - unfold distance_matrix. rewrite list_lookup_fmap, Hp. simpl.
    by rewrite sqdist_sym, sqdist_nil_r.
Qed.

(** Every point goes to the first of its nearest exemplars. *)
Lemma assign_nearest (exemplars clusters : list nat) (i : nat) (p : list Qc) :
  AffinityPropagation.assign (distance_matrix data) exemplars = Ok clusters →
  data !! i = Some p →
  ∃ c, clusters !! i = Some c
       ∧ argmin (map (λ e, sqdist p (row e)) exemplars) = Ok c.
Proof.
  unfold AffinityPropagation.assign. intros H Hp.
  destruct (mapM_Ok_lookup _ _ _ i _ H (distance_row i p Hp)) as (c & Hc & Ha).
  exists c. split; [done|]. rewrite <- Ha. f_equal.
  apply map_ext. intros e. symmetry. apply distance_lookup.
Qed.

Lemma where_true_elem (mask : list bool) (i : nat) :
  i ∈ where_true mask ↔ mask !! i = Some true.
Proof.
  unfold where_true. rewrite list_elem_of_omap. split.
  - intros ([j b] & (j' & b' & [= -> ->] & Hb)%elem_of_lookup_imap & Hsel).
    simpl in Hsel. destruct b'; [|done]. by injection Hsel as <-.
  - intros Hi. exists (i, true). split; [|done].
    apply elem_of_lookup_imap. eauto.
Qed.

Lemma where_true_bound (mask : list bool) (i : nat) :
  i ∈ where_true mask → (i < length mask)%nat.
Proof. intros Hi%where_true_elem. by eapply lookup_lt_Some. Qed.

Lemma members_elem (clusters : list nat) (k q : nat) :
  q ∈ AffinityPropagation.members clusters k ↔ clusters !! q = Some k.
Proof.
  unfold AffinityPropagation.members. rewrite where_true_elem, list_lookup_fmap.
  destruct (clusters !! q) as [c|]; simpl; [|done]. split.
  - intros [= Hc%bool_decide_eq_true]. by subst.
  - intros [= ->]. by rewrite bool_decide_eq_true_2.
Qed.

(** A sum over the selected positions is a masked sum over all
    positions. *)
Lemma qsum_where_true (f : nat → Qc) (mask : list bool) :
  qsum (map f (where_true mask))
  = qsum (map (λ i, if default false (mask !! i) then f i else 0)
              (seq 0 (length mask))).
Proof.
  unfold where_true.
  enough (H : ∀ (g : nat → nat),
    qsum (map f (omap (λ p : nat * bool, if p.2 then Some p.1 else None)
                      (imap (λ i b, (g i, b)) mask)))
    = qsum (map (λ i, if default false (mask !! i) then f (g i) else 0)
                (seq 0 (length mask)))) by apply (H id).
  induction mask as [|b mask IH]; intros g; [done|].
  rewrite imap_cons. cbn [omap list_omap length snd fst].
  rewrite <- cons_seq, <- fmap_S_seq. cbn [map]. rewrite map_map.
  change ((λ i b0, (g i, b0)) ∘ S) with (λ i (b0 : bool), ((g ∘ S) i, b0)).
  specialize (IH (g ∘ S)). cbn [lookup list_lookup default option_rect] in *.
  unfold qsum in *. destruct b; cbn [map foldr]; rewrite IH; [done|].
  symmetry. apply Qcplus_0_l.
Qed.

Lemma qsum_members (f : nat → Qc) (clusters : list nat) (k : nat) :
  qsum (map f (AffinityPropagation.members clusters k))
  = qsum (map (λ i, if decide (default 0%nat (clusters !! i) = k) then f i else 0)
              (seq 0 (length clusters))).
Proof.
  unfold AffinityPropagation.members. rewrite qsum_where_true, length_map.
  apply qsum_map_ext. intros i Hi%elem_of_seq. rewrite list_lookup_fmap.
  destruct (clusters !! i) as [c|] eqn:Hc; simpl.
  - destruct (decide (c = k)) as [->|Hne].
    + by rewrite bool_decide_eq_true_2.
    + by rewrite bool_decide_eq_false_2.
  - apply lookup_ge_None in Hc. lia.
Qed.
End Nearest.

Section Refinement.
Local Open Scope Qc_scope.
Context (data : list (list Qc)).

Local Abbreviation row i := (default [] (data !! i)).

Lemma mean_of_lookup (exemplars : list nat) (k e : nat) :
  exemplars !! k = Some e → mean_of data exemplars k = row e.
Proof.
  intros He. unfold mean_of, AffinityPropagation.rows.
  by rewrite list_lookup_fmap, He.
Qed.

(** [compute_wcss] adds up the costs of the clusters. *)
Lemma wcss_by_cluster (clusters : list nat) (means : list (list Qc)) :
  length clusters = length data →
  AffinityPropagation.compute_wcss data clusters means
  = qsum (map (λ k, cluster_cost data clusters k (default [] (means !! k)))
              (seq 0 (length means))).
Proof.
  intros Hlen. unfold AffinityPropagation.compute_wcss.
  rewrite foldl_qsum, Qcplus_0_l. apply qsum_map_ext. intros k _.
  unfold cluster_cost. rewrite qsum_members. f_equal.
  apply list_eq. intros i. rewrite lookup_zip_with, !list_lookup_fmap.
  destruct (decide (i < length data)%nat) as [Hi|Hi].
  - rewrite lookup_seq_lt by lia.
    destruct (lookup_lt_is_Some_2 data i Hi) as [p Hp].
    destruct (lookup_lt_is_Some_2 clusters i ltac:(lia)) as [c Hc].
    rewrite Hp, Hc. simpl. by rewrite Hp, Hc.
  - rewrite lookup_seq_ge by lia.
    rewrite (proj2 (lookup_ge_None data i)) by lia. done.
Qed.

(** The same sum, point by point. *)
Lemma cost_by_point (clusters : list nat) (M : nat → list Qc) (K : nat) :
  (∀ c, c ∈ clusters → (c < K)%nat) →
  qsum (map (λ k, cluster_cost data clusters k (M k)) (seq 0 K))
  = qsum (map (λ i, sqdist (row i) (M (default 0%nat (clusters !! i))))
              (seq 0 (length clusters))).
Proof.
  intros Hb.
  pose (ps := map (λ i, (i, default 0%nat (clusters !! i))) (seq 0 (length clusters))).
  transitivity
    (qsum (map (λ k, qsum (map (λ p : nat * nat,
                                  if decide (p.2 = k) then sqdist (row p.1) (M k) else 0) ps))
               (seq 0 K))).
  - apply qsum_map_ext. intros k _. unfold cluster_cost, ps.
    by rewrite qsum_members, map_map.
  - rewrite (regroup ps (λ i k, sqdist (row i) (M k)) K).
    + unfold ps. by rewrite map_map.
    + unfold ps. intros p (i & -> & Hi%elem_of_seq)%list_elem_of_fmap. simpl.
      destruct (lookup_lt_is_Some_2 clusters i ltac:(lia)) as [c Hc].
      rewrite Hc. simpl. apply Hb. by eapply list_elem_of_lookup_2.
Qed.

(** Re-assigning every point to its nearest exemplar does not raise
    any point's distance. *)
Lemma reassign_le (exemplars old new : list nat) (i : nat) :
  AffinityPropagation.assign (distance_matrix data) exemplars = Ok new →
  (i < length data)%nat →
  (default 0%nat (old !! i) < length exemplars)%nat →
  sqdist (row i) (mean_of data exemplars (default 0%nat (new !! i)))
  ≤ sqdist (row i) (mean_of data exemplars (default 0%nat (old !! i))).
Proof.
  intros Ha Hi Hold.
  destruct (lookup_lt_is_Some_2 data i Hi) as [p Hp].
  destruct (assign_nearest data _ _ i p Ha Hp) as (c & Hc & Hmin).
  rewrite Hc, Hp. simpl.
  pose proof (argmin_bound _ _ Hmin) as Hcb. rewrite length_map in Hcb.
  apply argmin_spec in Hmin as (x & Hx & Hle & _).
  destruct (lookup_lt_is_Some_2 exemplars c Hcb) as [e He].
  destruct (lookup_lt_is_Some_2 exemplars _ Hold) as [e' He'].
  rewrite (mean_of_lookup _ _ _ He), (mean_of_lookup _ _ _ He').
  rewrite list_lookup_fmap, He in Hx. injection Hx as <-.
  apply (Hle (default 0%nat (old !! i))). by rewrite list_lookup_fmap, He'.
Qed.
(** An elected exemplar whose cluster is not empty belongs to it:
    the exemplar is at distance zero from itself, and an earlier
    exemplar at distance zero would have taken every point of the
    cluster. *)
Lemma exemplar_in_cluster (m : nat) (exemplars clusters : list nat) (k e q : nat) :
  (∀ r, r ∈ data → length r = m) →
  (∀ e, e ∈ exemplars → (e < length data)%nat) →
  AffinityPropagation.assign (distance_matrix data) exemplars = Ok clusters →
  exemplars !! k = Some e →
  q ∈ AffinityPropagation.members clusters k →
  e ∈ AffinityPropagation.members clusters k.
Proof.
  intros Hrect Hb Ha He Hq. apply members_elem in Hq. apply members_elem.
  assert (He_lt : (e < length data)%nat)
    by (apply Hb; by eapply list_elem_of_lookup_2).
  destruct (lookup_lt_is_Some_2 data e He_lt) as [pe Hpe].
  destruct (assign_nearest data _ _ e pe Ha Hpe) as (j & Hj & Hmin_e).
  rewrite Hj. f_equal.
  assert (Hq_lt : (q < length data)%nat).
  { apply assign_bound in Ha as [Hl _]. apply lookup_lt_Some in Hq.
    unfold distance_matrix in Hl. rewrite length_map in Hl. lia. }
  destruct (lookup_lt_is_Some_2 data q Hq_lt) as [pq Hpq].
  destruct (assign_nearest data _ _ q pq Ha Hpq) as (k' & Hk' & Hmin_q).
  rewrite Hq in Hk'. injection Hk' as <-.
  apply argmin_spec in Hmin_e as (x & Hx & Hle_e & Hfirst_e).
  apply argmin_spec in Hmin_q as (y & Hy & Hle_q & Hfirst_q).
  assert (Hk0 : map (λ e', sqdist pe (row e')) exemplars !! k = Some 0).
  { rewrite list_lookup_fmap, He. simpl. rewrite Hpe. simpl. by rewrite sqdist_refl. }
  pose proof (Hle_e k 0 Hk0) as Hx0.
  rewrite list_lookup_fmap in Hx.
  destruct (exemplars !! j) as [ej|] eqn:Hej; [|done]. simpl in Hx. injection Hx as <-.
  assert (Hxz : sqdist pe (row ej) = 0)
    by (apply Qcle_antisym; [done | apply sqdist_nonneg]).
  destruct (lt_eq_lt_dec j k) as [[Hlt|Heq]|Hgt]; [|done|]; exfalso.
  - assert (Hej_lt : (ej < length data)%nat)
      by (apply Hb; by eapply list_elem_of_lookup_2).
    destruct (lookup_lt_is_Some_2 data ej Hej_lt) as [pj Hpj].
    rewrite Hpj in Hxz. simpl in Hxz.
    apply sqdist_zero in Hxz;
      [|rewrite (Hrect pe), (Hrect pj); eauto using list_elem_of_lookup_2].
    subst pj.
    rewrite list_lookup_fmap, He in Hy. simpl in Hy. rewrite Hpe in Hy. simpl in Hy.
    injection Hy as <-.
    apply (Qclt_not_eq (sqdist pq pe) (sqdist pq pe)); [|done].
    apply (Hfirst_q j); [done|].
    rewrite list_lookup_fmap, Hej. simpl. by rewrite Hpj.
  - pose proof (Hfirst_e k 0 Hgt Hk0) as Hlt. rewrite Hxz in Hlt.
    by apply (Qclt_not_eq 0 0).
Qed.

Lemma refine_cluster_other (D : list (list Qc)) (clusters exemplars exemplars' : list nat)
    (k k' : nat) :
  AffinityPropagation.refine_cluster D clusters exemplars k = Ok exemplars' →
  k' ≠ k → exemplars' !! k' = exemplars !! k'.
Proof.
  unfold AffinityPropagation.refine_cluster. intros H Hne. case_decide.
  - inv_bind H. injection H as <-. by rewrite list_lookup_insert_ne.
  - by injection H as <-.
Qed.

(** Replacing the exemplar of cluster [k] by the member with the least
    total distance to the members does not raise the cost of the
    cluster, as long as the old exemplar is a member. *)
Lemma refine_cluster_step (clusters exemplars exemplars' : list nat) (k e0 e' : nat) :
  AffinityPropagation.refine_cluster (distance_matrix data) clusters exemplars k
  = Ok exemplars' →
  (k < length exemplars)%nat →
  (∀ q, q ∈ AffinityPropagation.members clusters k →
        e0 ∈ AffinityPropagation.members clusters k) →
  (∀ e, exemplars !! k = Some e →
        cluster_cost data clusters k (row e) ≤ cluster_cost data clusters k (row e0)) →
  exemplars' !! k = Some e' →
  cluster_cost data clusters k (row e') ≤ cluster_cost data clusters k (row e0).
Proof.
  unfold AffinityPropagation.refine_cluster. intros H Hk Hin Hold. case_decide as Hlen.
  - apply bind_Ok in H as (i & Hi & H). injection H as <-.
    rewrite list_lookup_insert_eq by done. intros [= <-].
    pose proof (argmin_bound _ _ Hi) as Hv. rewrite length_map in Hv.
    destruct (lookup_lt_is_Some_2 _ i Hv) as [p Hp]. rewrite Hp. simpl.
    apply argmin_spec in Hi as (x & Hx & Hle & _).
    rewrite list_lookup_fmap, Hp in Hx. simpl in Hx. injection Hx as <-.
    assert (He0 : e0 ∈ AffinityPropagation.members clusters k)
      by (apply (Hin p); by eapply list_elem_of_lookup_2).
    apply list_elem_of_lookup_1 in He0 as [j Hj].
    specialize (Hle j _ ltac:(rewrite list_lookup_fmap, Hj; reflexivity)).
    unfold cluster_cost.
    rewrite (qsum_map_ext (λ q, sqdist (row q) (row p))
               (λ q, entry (distance_matrix data) p q))
      by (intros q _; by rewrite entry_distance, sqdist_sym).
    rewrite (qsum_map_ext (λ q, sqdist (row q) (row e0))
               (λ q, entry (distance_matrix data) e0 q))
      by (intros q _; by rewrite entry_distance, sqdist_sym).
    exact Hle.
  - injection H as <-. apply Hold.
Qed.

Lemma refine_cost (clusters exemplars exemplars' : list nat) (k : nat) :
  (∀ k e q, exemplars !! k = Some e →
            q ∈ AffinityPropagation.members clusters k →
            e ∈ AffinityPropagation.members clusters k) →
  AffinityPropagation.refine (distance_matrix data) clusters exemplars = Ok exemplars' →
  (k < length exemplars)%nat →
  cluster_cost data clusters k (mean_of data exemplars' k)
  ≤ cluster_cost data clusters k (mean_of data exemplars k).
Proof.
  intros Hin H Hk.
  assert (HP : length exemplars' = length exemplars
               ∧ ∀ k e e0, exemplars' !! k = Some e → exemplars !! k = Some e0 →
                   cluster_cost data clusters k (row e)
                   ≤ cluster_cost data clusters k (row e0)).
  { unfold AffinityPropagation.refine in H. revert H.
    apply (foldM_invariant
             (λ E, length E = length exemplars
                   ∧ ∀ k e e0, E !! k = Some e → exemplars !! k = Some e0 →
                       cluster_cost data clusters k (row e)
                       ≤ cluster_cost data clusters k (row e0))).
    - intros E j E' Hj%elem_of_seq [HlenE HE] Hstep. split.
      + apply refine_cluster_length in Hstep. congruence.
      + intros k' e e0 He He0. destruct (decide (k' = j)) as [->|Hne].
        * apply (refine_cluster_step clusters E E' j e0 e Hstep); [lia|..|done].
          -- intros q Hq. by eapply Hin.
          -- intros e1 He1. by eapply HE.
        * rewrite (refine_cluster_other _ _ _ _ _ _ Hstep Hne) in He. by eapply HE.
    - split; [done|]. intros k' e e0 He He0. rewrite He in He0.
      injection He0 as <-. apply Qcle_refl. }
  destruct HP as [Hl HP].
  destruct (lookup_lt_is_Some_2 exemplars k Hk) as [e0 He0].
  destruct (lookup_lt_is_Some_2 exemplars' k ltac:(lia)) as [e He].
  rewrite (mean_of_lookup _ _ _ He), (mean_of_lookup _ _ _ He0). by eapply HP.
Qed.
End Refinement.

Section Elected.
Local Open Scope nat_scope.

Lemma round_lengths (self : AffinityPropagation.t) (S : list (list Qc))
    (st st' : AffinityPropagation.loop_state) :
  AffinityPropagation.round self S st = Ok st' →
  length (AffinityPropagation.ls_A st') ≤ length (AffinityPropagation.ls_A st)
  ∧ length (AffinityPropagation.ls_exemplars st') ≤ length (AffinityPropagation.ls_A st).
Proof.
  unfold AffinityPropagation.round. intros H.
  apply bind_Ok in H as (update & _ & H). injection H as <-. simpl.
  unfold AffinityPropagation.damp, mat_zip_with, diag.
  rewrite !length_zip_with, !length_imap, !length_zip_with. lia.
Qed.

(** The mask of exemplars never has more entries than there are
    points. *)
Lemma loop_exemplars (fuel : nat) (self : AffinityPropagation.t) (S : list (list Qc))
    (st st' : AffinityPropagation.loop_state) (n : nat) :
  AffinityPropagation.loop fuel self S st = Ok st' →
  length (AffinityPropagation.ls_A st) ≤ n →
  length (AffinityPropagation.ls_exemplars st) ≤ n →
  length (AffinityPropagation.ls_exemplars st') ≤ n.
Proof.
  revert st. induction fuel as [|fuel IH]; intros st H HA HE; simpl in H.
  - by injection H as <-.
  - case_decide.
    + apply bind_Ok in H as (st1 & Hr & H). apply round_lengths in Hr as [H1 H2].
      apply (IH st1 H); lia.
    + by injection H as <-.
Qed.

Lemma elected_in_range (self : AffinityPropagation.t) (S : list (list Qc))
    (st : AffinityPropagation.loop_state) (n e : nat) :
  AffinityPropagation.loop (AffinityPropagation.max_iter self) self S
    (AffinityPropagation.initial_state n) = Ok st →
  e ∈ where_true (AffinityPropagation.ls_exemplars st) → e < n.
Proof.
  intros H He%where_true_bound.
  apply (loop_exemplars _ _ _ _ _ n) in H; [lia|..]; simpl.
  - unfold zeros2. by rewrite length_replicate.
  - by rewrite length_replicate.
Qed.
End Elected.

(** When the symmetry-breaking perturbation has scale zero, so that the
    exemplars are refined on the squared distances themselves, the
    within-cluster sum of squares that [fit_predict] reports after the
    refinement and the re-assignment is at most that of the raw
    assignment to the elected exemplars. *)
Theorem refinement_lowers_wcss (self alg : AffinityPropagation.t)
    (data : list (list Qc)) (m : nat) (g g' : rng) :
  (∀ r, r ∈ data → length r = m) →
  perturbation_scale self data = Ok 0%Qc →
  AffinityPropagation.fit_predict self data g = Ok (alg, g') →
  ∃ w w0, AffinityPropagation.wcss alg = Some w
          ∧ raw_wcss self data g = Ok w0
          ∧ (w ≤ w0)%Qc.
Proof.
  intros Hrect Hmag H. unfold AffinityPropagation.fit_predict in H.
  apply bind_Ok in H as ([S g1] & Hprep & H). cbn [fst snd] in H.
  pose proof (prepare_unperturbed _ _ _ _ _ Hmag Hprep) as ->.
  rewrite distances_with_preference in H.
  apply bind_Ok in H as (st & Hloop & H).
  apply bind_Ok in H as (c0 & Hc0 & H).
  apply bind_Ok in H as (E1 & HE1 & H).
  apply bind_Ok in H as (c1 & Hc1 & H).
  injection H as <- _. cbn [AffinityPropagation.wcss].
  set (E0 := where_true (AffinityPropagation.ls_exemplars st)) in *.
  eexists _, (AffinityPropagation.compute_wcss data c0 (AffinityPropagation.rows data E0)).
  split; [reflexivity|]. split.
  { unfold raw_wcss, raw_assignment. rewrite Hprep. cbn [mbind result_bind fst snd].
    rewrite Hloop. cbn [mbind result_bind]. fold E0.
    rewrite distances_with_preference, Hc0. reflexivity. }
  pose proof (refine_length _ _ _ _ HE1) as HK.
  destruct (assign_bound _ _ _ Hc0) as [Hn0 Hb0].
  destruct (assign_bound _ _ _ Hc1) as [Hn1 Hb1].
  unfold distance_matrix in Hn0, Hn1. rewrite length_map in Hn0, Hn1.
  rewrite !wcss_by_cluster by done.
  unfold AffinityPropagation.rows at 2 4. rewrite !length_map.
  change (qsum (map (λ k, cluster_cost data c1 k (mean_of data E1 k)) (seq 0 (length E1)))
          ≤ qsum (map (λ k, cluster_cost data c0 k (mean_of data E0 k))
                      (seq 0 (length E0))))%Qc.
  rewrite (cost_by_point data c1 (mean_of data E1) (length E1) Hb1).
  apply Qcle_trans
    with (qsum (map (λ k, cluster_cost data c0 k (mean_of data E1 k)) (seq 0 (length E0)))).
  - rewrite (cost_by_point data c0 (mean_of data E1) (length E0) Hb0).
    rewrite Hn0, Hn1. apply qsum_map_le. intros i Hi%elem_of_seq.
    apply (reassign_le data E1 c0 c1 i Hc1); [lia|].
    destruct (lookup_lt_is_Some_2 c0 i ltac:(lia)) as [c Hc]. rewrite Hc. simpl.
    rewrite HK. apply Hb0. by eapply list_elem_of_lookup_2.
  - apply qsum_map_le. intros k Hk%elem_of_seq.
    apply (refine_cost data c0 E0 E1 k); [|done|lia].
    intros k' e q He Hq. apply (exemplar_in_cluster data m E0 c0 k' e q); try done.
    intros e' He'. by eapply elected_in_range.
Qed.

Lemma tied_data_rows (r : list Qc) : r ∈ tied_data → length r = 1%nat.
Proof.
  unfold tied_data, column_data. intros (z & -> & _)%list_elem_of_fmap. done.
Qed.

Lemma tied_data_scale : perturbation_scale default_engine tied_data = Ok 0%Qc.
Proof.
  assert (H : result_value (perturbation_scale default_engine tied_data) = Some 0%Q)
    by (vm_compute; reflexivity).
  destruct (perturbation_scale default_engine tied_data) as [x|e]; [|done].
  f_equal. apply Qc_is_canon. injection H as ->. reflexivity.
Qed.

Lemma tied_data_fit :
  is_ok (AffinityPropagation.fit_predict default_engine tied_data (MT19937.seed 0)) = true.
Proof. vm_compute. reflexivity. Qed.

(** Groups with features 3, 4, 4 and 4: the scale is zero, one exemplar
    is elected and the refinement replaces it. *)
Lemma refinement_lowers_wcss_witness :
  ∃ alg g' w w0,
    AffinityPropagation.fit_predict default_engine tied_data (MT19937.seed 0) = Ok (alg, g')
    ∧ AffinityPropagation.wcss alg = Some w
    ∧ raw_wcss default_engine tied_data (MT19937.seed 0) = Ok w0
    ∧ (w ≤ w0)%Qc.
Proof.
  destruct (is_ok_true _ tied_data_fit) as [[alg g'] Hfit].
  destruct (refinement_lowers_wcss default_engine alg tied_data 1 (MT19937.seed 0) g'
              tied_data_rows tied_data_scale Hfit) as (w & w0 & Hw & Hw0 & Hle).
  exists alg, g', w, w0. split; [exact Hfit|]. split; [exact Hw|]. split; [exact Hw0|].
  exact Hle.
Defined.

(** C8, as the code has it.  Groups with features 50000, 40000, 10000
    and 110000: the iteration converges and elects points 1 and 3; the
    perturbation has scale 1e8, so the distances that the refinement
    reads are not the actual ones; the refinement replaces exemplar 1 by
    point 0, and the sum of squares rises from 1.0e9 to 1.7e9. *)
Theorem refinement_raises_wcss :
  fit_summary (AffinityPropagation.fit_predict default_engine wide_data (MT19937.seed 0))
  = Some (Some 1700000000%Q, Some true, Some [0; 3]%nat, Some [0; 0; 0; 1]%nat)
  ∧ raw_assignment default_engine wide_data (MT19937.seed 0)
    = Ok ([1; 3]%nat, [0; 0; 0; 1]%nat)
  ∧ result_value (raw_wcss default_engine wide_data (MT19937.seed 0)) = Some 1000000000%Q
  ∧ result_value (perturbation_scale default_engine wide_data) = Some 100000000%Q
  ∧ (1000000000 < 1700000000)%Q.
Proof. vm_compute. done. Qed.

(** ** Runs of the engine that elect no exemplar *)

Section NoExemplar.
Local Open Scope Qc_scope.

Lemma where_true_replicate_false (n : nat) : where_true (replicate n false) = [].
Proof.
  destruct (where_true (replicate n false)) as [|i l] eqn:H; [done|].
  assert (Hi : i ∈ where_true (replicate n false)) by (rewrite H; left).
  apply where_true_elem in Hi. by apply lookup_replicate in Hi as [? _].
Qed.

(** With no exemplar the nearest one is looked for among no columns. *)
Lemma assign_no_exemplars (D : list (list Qc)) :
  D ≠ [] → AffinityPropagation.assign D [] = Raise ValueError.
Proof. by destruct D. Qed.

Lemma prepare_raises (self : AffinityPropagation.t) (data : list (list Qc))
    (g : rng) (e : exn) :
  AffinityPropagation.prepare self data g = Raise e → e = ValueError.
Proof.
  unfold AffinityPropagation.prepare.
  destruct (np_min _) as [mag|e'] eqn:Hmin; simpl.
  - by destruct (MT19937.random_sample _ _ _).
  - intros [= <-]. unfold np_min in Hmin.
    destruct (map qabs _); [by injection Hmin as <- | done].
Qed.

Lemma prepare_empty (self : AffinityPropagation.t) (g : rng) :
  AffinityPropagation.prepare self [] g = Raise ValueError.
Proof.
  unfold AffinityPropagation.prepare, AffinityPropagation.with_preference. simpl.
  by destruct (AffinityPropagation.truthy _).
Qed.

Lemma fit_predict_no_exemplar (self : AffinityPropagation.t) (data : list (list Qc))
    (g : rng) :
  (∀ S g1, AffinityPropagation.prepare self data g = Ok (S, g1) →
     ∃ st, AffinityPropagation.loop (AffinityPropagation.max_iter self) self S
             (AffinityPropagation.initial_state (length data)) = Ok st
           ∧ where_true (AffinityPropagation.ls_exemplars st) = []) →
  AffinityPropagation.fit_predict self data g = Raise ValueError.
Proof.
  intros Hloop. unfold AffinityPropagation.fit_predict.
  destruct data as [|row data]; [by rewrite prepare_empty|].
  destruct (AffinityPropagation.prepare self (row :: data) g) as [[S g1]|e] eqn:Hprep.
  - destruct (Hloop S g1 eq_refl) as (st & Hst & Hex).
    cbn [mbind result_bind fst snd]. rewrite Hst. cbn [mbind result_bind].
    rewrite Hex, assign_no_exemplars; [done|].
    intros Hnil. apply (f_equal length) in Hnil.
    rewrite distances_length, (prepare_rows _ _ _ _ _ Hprep) in Hnil. done.
  - by rewrite (prepare_raises _ _ _ _ Hprep).
Qed.

(** With no round allowed ([max_iter = 0]), or no unchanged round asked
    for ([convergence_iter = 0]), the loop body never runs, no exemplar
    is elected and [fit_predict] raises [ValueError], whatever the
    data. *)
Theorem fit_predict_without_rounds (self : AffinityPropagation.t)
    (data : list (list Qc)) (g : rng) :
  AffinityPropagation.max_iter self = 0%nat
  ∨ AffinityPropagation.convergence_iter self = 0%nat →
  AffinityPropagation.fit_predict self data g = Raise ValueError.
Proof.
  intros H. apply fit_predict_no_exemplar. intros S g1 _.
  exists (AffinityPropagation.initial_state (length data)). split.
  - destruct (AffinityPropagation.max_iter self) as [|fuel] eqn:Hm; [done|].
    destruct H as [H|H]; [done|]. simpl. rewrite H.
    case_decide as Hc; [|done]. destruct Hc as [_ Hc]. simpl in Hc. lia.
  - apply where_true_replicate_false.
Qed.

Lemma fit_predict_without_rounds_witness :
  AffinityPropagation.convergence_iter (AffinityPropagation.init (qfrac 1 2) 300 0 None)
  = 0%nat
  ∧ AffinityPropagation.fit_predict (AffinityPropagation.init (qfrac 1 2) 300 0 None)
      (column_data [0; 1; 5]%Z) (MT19937.seed 0) = Raise ValueError.
Proof.
  split; [reflexivity|].
  apply (fit_predict_without_rounds (AffinityPropagation.init (qfrac 1 2) 300 0 None)).
  right. reflexivity.
Defined.
End NoExemplar.

Section Identical.
Local Open Scope Qc_scope.

Lemma imap_replicate_const {A B} (f : nat → A → B) (n : nat) (x : A) (y : B) :
  (∀ i, f i x = y) → imap f (replicate n x) = replicate n y.
Proof.
  revert f. induction n as [|n IH]; intros f Hf; [done|].
  simpl. rewrite Hf. f_equal. apply IH. intros i. apply Hf.
Qed.

Lemma mapM_replicate {A B} (f : A → result B) (n : nat) (x : A) (y : B) :
  f x = Ok y → mapM f (replicate n x) = Ok (replicate n y).
Proof. intros Hf. induction n as [|n IH]; [done|]. simpl. by rewrite Hf, IH. Qed.

Lemma concat_replicate {A} (n m : nat) (x : A) :
  concat (replicate n (replicate m x)) = replicate (n * m) x.
Proof. induction n as [|n IH]; [done|]. simpl. by rewrite IH, replicate_add. Qed.

Lemma map_seq_const {A} (f : nat → A) (x : A) (a n : nat) :
  (∀ i, f i = x) → map f (seq a n) = replicate n x.
Proof.
  intros Hf. revert a. induction n as [|n IH]; intros a; [done|].
  simpl. by rewrite Hf, IH.
Qed.

Lemma filter_replicate_none {A} (P : A → Prop) `{∀ x, Decision (P x)} (n : nat) (x : A) :
  ¬ P x → filter P (replicate n x) = [].
Proof. intros Hx. induction n as [|n IH]; [done|]. simpl. by rewrite filter_cons_False. Qed.

Lemma zeros_lookup_default (n j : nat) : default 0 (zeros n !! j) = 0.
Proof.
  unfold zeros. destruct (replicate n 0 !! j) as [x|] eqn:Hx; [|done].
  by apply lookup_replicate in Hx as [-> _].
Qed.

Lemma sort_by_replicate (n : nat) (c : Qc) :
  sort_by qle_bool (replicate n c) = replicate n c.
Proof.
  unfold sort_by. induction n as [|n IH]; [done|]. simpl. rewrite IH.
  destruct n as [|n]; [done|]. simpl. unfold qle_bool.
  rewrite bool_decide_eq_true_2; [done | apply Qcle_refl].
Qed.

(** The median of equal values is that value. *)
Lemma median_replicate (n : nat) (c : Qc) :
  (1 ≤ n)%nat → median (replicate n c) = Some c.
Proof.
  intros Hn. unfold median. rewrite sort_by_replicate, length_replicate.
  rewrite decide_False by lia.
  assert (Hhalf : (n / 2 < n)%nat) by (apply Nat.div_lt; lia).
  destruct (Nat.even n).
  - rewrite !lookup_replicate_2 by lia. simpl. f_equal.
    apply Qc_is_canon. simpl. rewrite !Qred_correct. field.
  - by rewrite lookup_replicate_2.
Qed.

Lemma similarity_identical (n : nat) (r : list Qc) :
  AffinityPropagation.similarity (replicate n r) = zeros2 n n.
Proof.
  unfold AffinityPropagation.similarity, zeros2, zeros.
  change (map ?f ?l) with (f <$> l). rewrite fmap_replicate.
  change (map ?f ?l) with (f <$> l). rewrite fmap_replicate.
  rewrite sqdist_refl. by replace (- 0) with 0 by ring.
Qed.

Lemma with_preference_zeros (pref : option Qc) (n : nat) :
  AffinityPropagation.truthy pref = None → (1 ≤ n)%nat →
  AffinityPropagation.with_preference pref (zeros2 n n) = zeros2 n n.
Proof.
  intros Hp Hn. unfold AffinityPropagation.with_preference. rewrite Hp.
  unfold zeros2, zeros. rewrite concat_replicate, median_replicate by nia.
  unfold set_diag. apply imap_replicate_const. intros i. apply insert_replicate.
Qed.

Lemma np_min_zeros (n : nat) :
  (1 ≤ n)%nat → np_min (map qabs (replicate n 0)) = Ok 0.
Proof.
  intros Hn. change (map ?f ?l) with (f <$> l). rewrite fmap_replicate.
  assert (Ha : qabs 0 = 0) by (unfold qabs; by case_decide).
  rewrite Ha. destruct n as [|n]; [lia|]. clear Hn. simpl. f_equal.
  assert (Hm : qmin 0 0 = 0) by (unfold qmin; by case_decide).
  induction n as [|n IH]; [done|]. simpl. by rewrite Hm.
Qed.
End Identical.

Section ZeroState.
Local Open Scope Qc_scope.

Lemma argmax_from_zeros (best i n : nat) :
  argmax_from best 0 i (replicate n 0) = best.
Proof.
  revert i. induction n as [|n IH]; intros i; [done|]. simpl. apply IH.
Qed.

Lemma argmax_ext_from_zeros (best i n : nat) :
  argmax_ext_from best (Fin 0) i (replicate n (Fin 0)) = best.
Proof.
  revert i. induction n as [|n IH]; intros i; [done|]. simpl. apply IH.
Qed.

(** A row of zero similarities and zero availabilities gets zero
    responsibilities: the maximum and the second maximum are both 0. *)
Lemma responsibility_row_zeros (n : nat) :
  (2 ≤ n)%nat →
  AffinityPropagation.responsibility_row (zeros n) (zeros n) = Ok (zeros n).
Proof.
  intros Hn. destruct n as [|[|n]]; [lia..|]. clear Hn.
  unfold AffinityPropagation.responsibility_row, zeros.
  rewrite zip_with_replicate. replace (0 + 0) with 0 by ring.
  assert (Hk : argmax (replicate (S (S n)) 0) = Ok 0%nat)
    by (simpl; f_equal; apply (argmax_from_zeros 0 2 n)).
  rewrite Hk. cbn [mbind result_bind].
  change (map ?f ?l) with (f <$> l). rewrite !fmap_replicate.
  cbn [replicate lookup list_lookup default insert list_insert].
  replace (0 - 0) with 0 by ring.
  assert (Hk2 : argmax_ext (NegInf :: Fin 0 :: replicate n (Fin 0)) = Ok 1%nat)
    by (simpl; f_equal; apply (argmax_ext_from_zeros 1 2 n)).
  rewrite Hk2. cbn [mbind result_bind lookup list_lookup default].
  by replace (0 - 0) with 0 by ring.
Qed.

Lemma sum0_zeros2 (n m k : nat) : sum0 k (zeros2 n m) = zeros k.
Proof.
  unfold sum0, zeros. apply map_seq_const. intros j.
  unfold column, zeros2. change (map ?f ?l) with (f <$> l). rewrite fmap_replicate.
  rewrite zeros_lookup_default. apply qsum_zeros.
Qed.

Lemma diag_zeros2 (n : nat) : diag (zeros2 n n) = zeros n.
Proof.
  unfold diag, zeros2. apply imap_replicate_const. intros i. apply zeros_lookup_default.
Qed.

Lemma availability_update_zeros (n : nat) :
  AffinityPropagation.availability_update (zeros2 n n) = zeros2 n n.
Proof.
  unfold AffinityPropagation.availability_update.
  assert (Hpos : mat_map (λ r, if decide (r < 0) then 0 else r) (zeros2 n n) = zeros2 n n).
  { unfold mat_map, zeros2, zeros. change (map ?f ?l) with (f <$> l).
    rewrite fmap_replicate. change (map ?f ?l) with (f <$> l).
    rewrite fmap_replicate. by destruct (decide (0 < 0)). }
  assert (Hlen : length (zeros2 n n) = n) by apply length_replicate.
  cbv zeta. rewrite Hlen, !Hpos, !sum0_zeros2, !diag_zeros2.
  unfold zeros2, zeros. rewrite !zip_with_replicate. replace (0 - 0) with 0 by ring.
  change (map ?f ?l) with (f <$> l). rewrite fmap_replicate.
  rewrite !zip_with_replicate. replace (0 - 0 + 0) with 0 by ring.
  unfold mat_map. change (map ?f ?l) with (f <$> l). rewrite fmap_replicate.
  change (map ?f ?l) with (f <$> l). rewrite fmap_replicate.
  assert (Hc : (if decide (0 < 0) then 0 else 0) = 0) by by destruct (decide (0 < 0)).
  rewrite Hc. unfold set_diag_vec. apply imap_replicate_const. intros i.
  fold (zeros n). rewrite zeros_lookup_default. apply insert_replicate.
Qed.

Lemma damp_zeros (d : Qc) (n : nat) :
  AffinityPropagation.damp d (zeros2 n n) (zeros2 n n) = zeros2 n n.
Proof.
  unfold AffinityPropagation.damp, mat_zip_with, zeros2, zeros.
  rewrite !zip_with_replicate. do 2 f_equal. ring.
Qed.

(** A round on all-zero similarities, availabilities and
    responsibilities changes nothing and elects nobody. *)
Lemma round_zeros (self : AffinityPropagation.t) (n : nat)
    (st : AffinityPropagation.loop_state) :
  (2 ≤ n)%nat →
  AffinityPropagation.ls_A st = zeros2 n n →
  AffinityPropagation.ls_R st = zeros2 n n →
  AffinityPropagation.ls_exemplars st = replicate n false →
  ∃ st', AffinityPropagation.round self (zeros2 n n) st = Ok st'
         ∧ AffinityPropagation.ls_A st' = zeros2 n n
         ∧ AffinityPropagation.ls_R st' = zeros2 n n
         ∧ AffinityPropagation.ls_exemplars st' = replicate n false.
Proof.
  intros Hn HA HR HE. unfold AffinityPropagation.round. rewrite HA, HR, HE.
  assert (Hup : mapM (λ p : list Qc * list Qc,
                        AffinityPropagation.responsibility_row p.1 p.2)
                  (zip (zeros2 n n) (zeros2 n n)) = Ok (zeros2 n n)).
  { unfold zeros2. rewrite zip_with_replicate.
    apply mapM_replicate. simpl. by apply responsibility_row_zeros. }
  rewrite Hup. cbn [mbind result_bind].
  rewrite !damp_zeros, availability_update_zeros, !damp_zeros, diag_zeros2.
  eexists. split; [reflexivity|]. cbn [AffinityPropagation.ls_A
    AffinityPropagation.ls_R AffinityPropagation.ls_exemplars]. split_and!; [done..|].
  unfold zeros. by rewrite zip_with_replicate.
Qed.

Lemma loop_zeros (fuel : nat) (self : AffinityPropagation.t) (n : nat)
    (st : AffinityPropagation.loop_state) :
  (2 ≤ n)%nat →
  AffinityPropagation.ls_A st = zeros2 n n →
  AffinityPropagation.ls_R st = zeros2 n n →
  AffinityPropagation.ls_exemplars st = replicate n false →
  ∃ st', AffinityPropagation.loop fuel self (zeros2 n n) st = Ok st'
         ∧ AffinityPropagation.ls_exemplars st' = replicate n false.
Proof.
  intros Hn. revert st. induction fuel as [|fuel IH]; intros st HA HR HE; simpl.
  - eauto.
  - case_decide; [|eauto].
    destruct (round_zeros self n st Hn HA HR HE) as (st1 & -> & HA1 & HR1 & HE1).
    simpl. by apply IH.
Qed.
End ZeroState.

(** Two or more observations that all coincide, with no preference
    given: every similarity is zero, so is their median and the scale
    of the perturbation, the iteration never leaves the all-zero state,
    no exemplar is elected, and [fit_predict] raises [ValueError]
    instead of reporting one cluster. *)
Theorem fit_predict_identical_rows (self : AffinityPropagation.t)
    (data : list (list Qc)) (r0 : list Qc) (g : rng) :
  AffinityPropagation.truthy (AffinityPropagation.preference self) = None →
  (2 ≤ length data)%nat →
  (∀ r, r ∈ data → r = r0) →
  AffinityPropagation.fit_predict self data g = Raise ValueError.
Proof.
  intros Hp Hn Hall.
  pose proof (proj2 (replicate_as_elem_of r0 (length data) data) (conj eq_refl Hall)) as Hd.
  remember (length data) as n eqn:Hlen. subst data. clear Hlen Hall.
  apply fit_predict_no_exemplar. intros S g1 Hprep. rewrite length_replicate.
  assert (HS : AffinityPropagation.with_preference (AffinityPropagation.preference self)
                 (AffinityPropagation.similarity (replicate n r0)) = zeros2 n n)
    by (rewrite similarity_identical; apply with_preference_zeros; [done | lia]).
  assert (Hmag : perturbation_scale self (replicate n r0) = Ok 0%Qc).
  { unfold perturbation_scale. rewrite HS. unfold zeros2, zeros.
    rewrite concat_replicate. apply np_min_zeros. nia. }
  rewrite (prepare_unperturbed _ _ _ _ _ Hmag Hprep), HS.
  destruct (loop_zeros (AffinityPropagation.max_iter self) self n
              (AffinityPropagation.initial_state n) Hn eq_refl eq_refl eq_refl)
    as (st & Hst & HE).
  exists st. split; [done|]. rewrite HE. apply where_true_replicate_false.
Qed.

Lemma flat_data_rows (r : list Qc) : r ∈ column_data [7; 7; 7] → r = [qz 7].
Proof.
  unfold column_data. intros (z & -> & Hz)%list_elem_of_fmap.
  repeat (apply elem_of_cons in Hz as [->|Hz]; [done|]). by apply elem_of_nil in Hz.
Qed.

(** Three groups with the same single feature. *)
Lemma fit_predict_identical_rows_witness :
  AffinityPropagation.fit_predict default_engine (column_data [7; 7; 7]) (MT19937.seed 0)
  = Raise ValueError.
Proof.
  apply (fit_predict_identical_rows default_engine (column_data [7; 7; 7]) [qz 7]).
  - reflexivity.
  - simpl. lia.
  - exact flat_data_rows.
Defined.

(** ** What a fit reports *)

Lemma refine_cluster_bound (D : list (list Qc)) (clusters exemplars exemplars' : list nat)
    (k : nat) :
  AffinityPropagation.refine_cluster D clusters exemplars k = Ok exemplars' →
  (∀ e, e ∈ exemplars → (e < length clusters)%nat) →
  ∀ e, e ∈ exemplars' → (e < length clusters)%nat.
Proof.
  unfold AffinityPropagation.refine_cluster. intros H Hb. case_decide.
  - apply bind_Ok in H as (i & Hi & H). injection H as <-.
    intros e (j & Hj)%list_elem_of_lookup_1.
    destruct (decide (j = k)) as [->|Hne].
    + pose proof (lookup_lt_Some _ _ _ Hj) as Hk. rewrite length_insert in Hk.
      rewrite list_lookup_insert_eq in Hj by done. injection Hj as <-.
      apply argmin_bound in Hi. rewrite length_map in Hi.
      destruct (lookup_lt_is_Some_2 _ _ Hi) as [p Hp]. rewrite Hp. simpl.
      apply list_elem_of_lookup_2, members_elem in Hp. by eapply lookup_lt_Some.
    + rewrite list_lookup_insert_ne in Hj by done.
      apply Hb. by eapply list_elem_of_lookup_2.
  - by injection H as <-.
Qed.

Lemma refine_bound (D : list (list Qc)) (clusters exemplars exemplars' : list nat) :
  AffinityPropagation.refine D clusters exemplars = Ok exemplars' →
  (∀ e, e ∈ exemplars → (e < length clusters)%nat) →
  ∀ e, e ∈ exemplars' → (e < length clusters)%nat.
Proof.
  unfold AffinityPropagation.refine. intros H Hb. revert H.
  apply (foldM_invariant (λ E : list nat, ∀ e, e ∈ E → (e < length clusters)%nat));
    [|done].
  intros E k E' _ HE Hstep. by eapply refine_cluster_bound.
Qed.

(** A fit that returns reports at least one cluster; every exemplar is
    the position of an observation; the mean of a cluster is the row of
    its exemplar; and every observation has the index of one of the
    clusters. *)
Theorem fit_predict_well_formed (self alg : AffinityPropagation.t)
    (data : list (list Qc)) (g g' : rng) :
  AffinityPropagation.fit_predict self data g = Ok (alg, g') →
  ∃ index n exemplars means,
    AffinityPropagation.cluster_index alg = Some index
    ∧ AffinityPropagation.n_clusters alg = Some n
    ∧ AffinityPropagation.exemplars alg = Some exemplars
    ∧ AffinityPropagation.cluster_means alg = Some means
    ∧ (1 ≤ n)%nat
    ∧ length exemplars = n ∧ length means = n ∧ length index = length data
    ∧ (∀ k e, exemplars !! k = Some e →
         (e < length data)%nat ∧ means !! k = data !! e)
    ∧ (∀ i c, index !! i = Some c → (c < n)%nat).
Proof.
  unfold AffinityPropagation.fit_predict. intros H.
  apply bind_Ok in H as ([S g1] & Hprep & H). cbn [fst snd] in H.
  apply bind_Ok in H as (st & Hloop & H).
  apply bind_Ok in H as (c0 & Hc0 & H).
  apply bind_Ok in H as (E1 & HE1 & H).
  apply bind_Ok in H as (c1 & Hc1 & H).
  injection H as <- _.
  pose proof (prepare_rows _ _ _ _ _ Hprep) as Hn.
  pose proof (refine_length _ _ _ _ HE1) as HK.
  destruct (assign_bound _ _ _ Hc0) as [Hn0 _].
  destruct (assign_bound _ _ _ Hc1) as [Hn1 Hb1].
  rewrite distances_length, Hn in Hn0, Hn1.
  assert (Hne : where_true (AffinityPropagation.ls_exemplars st) ≠ []).
  { intros Hnil. rewrite Hnil in Hc0.
    destruct data as [|row data]; [by rewrite prepare_empty in Hprep|].
    rewrite assign_no_exemplars in Hc0; [done|].
    intros HD. apply (f_equal length) in HD. rewrite distances_length, Hn in HD. done. }
  exists c1, (length (where_true (AffinityPropagation.ls_exemplars st))), E1,
    (AffinityPropagation.rows data E1).
  cbn [AffinityPropagation.cluster_index AffinityPropagation.n_clusters
       AffinityPropagation.exemplars AffinityPropagation.cluster_means].
  split_and!; try done.
  - destruct (where_true _); [done | simpl; lia].
  - unfold AffinityPropagation.rows. by rewrite length_map.
  - intros k e He.
    assert (He_lt : (e < length data)%nat).
    { rewrite <- Hn0. apply (refine_bound _ _ _ _ HE1); [|by eapply list_elem_of_lookup_2].
      intros e' He'. rewrite Hn0. by eapply elected_in_range. }
    split; [done|]. unfold AffinityPropagation.rows. rewrite list_lookup_fmap, He. simpl.
    by destruct (lookup_lt_is_Some_2 data e He_lt) as [r ->].
  - intros i c Hc. rewrite <- HK. apply Hb1. by eapply list_elem_of_lookup_2.
Qed.

Lemma fit_predict_well_formed_witness :
  ∃ alg g' index n exemplars means,
    AffinityPropagation.fit_predict default_engine (column_data [0; 1; 5]) (MT19937.seed 42)
    = Ok (alg, g')
    ∧ AffinityPropagation.cluster_index alg = Some index
    ∧ AffinityPropagation.n_clusters alg = Some n
    ∧ AffinityPropagation.exemplars alg = Some exemplars
    ∧ AffinityPropagation.cluster_means alg = Some means
    ∧ (1 ≤ n)%nat ∧ length exemplars = n ∧ length means = n.
Proof.
  destruct (is_ok_true _ example_fit_succeeds) as [[alg g'] Hfit].
  destruct (fit_predict_well_formed default_engine alg (column_data [0; 1; 5])
              (MT19937.seed 42) g' Hfit)
    as (index & n & exemplars & means & H1 & H2 & H3 & H4 & H5 & H6 & H7 & _).
  exists alg, g', index, n, exemplars, means. by split_and!.
Defined.

(** ** The cluster set of [form_clusters_using_current_parameters] *)

Section Formed.
Local Open Scope Qc_scope.



Lemma qsum_count (k : nat) (index : list nat) :
  qsum (map (λ c, if decide (c = k) then 1 else 0) index)
  = qz (Z.of_nat (length (filter (λ c, c = k) index))).
Proof.
  induction index as [|c index IH]; [done|].
  cbn [map qsum foldr]. fold (qsum (map (λ c, if decide (c = k) then 1 else 0) index)).
  rewrite IH. destruct (decide (c = k)) as [->|Hne].
  - rewrite filter_cons_True by done. cbn [length].
    rewrite Nat2Z.inj_succ, <- Z.add_1_l. by rewrite qz_add.
  - rewrite filter_cons_False by done. apply Qcplus_0_l.
Qed.

(** The column sums of a hard partition are the numbers of points of
    the clusters. *)
Lemma sum0_hard_partition (n_group n : nat) (index : list nat) :
  length index = n_group →
  sum0 n (Clustering.hard_partition n_group n index)
  = map (λ k, qz (Z.of_nat (length (filter (λ c, c = k) index)))) (seq 0 n).
Proof.
  intros Hlen. unfold sum0. apply map_ext_in. intros k Hk%in_seq.
  rewrite <- qsum_count. f_equal. unfold column.
  apply list_eq. intros i. rewrite !list_lookup_fmap.
  destruct (index !! i) as [c|] eqn:Hc.
  - assert (Hi : (i < length (Clustering.hard_partition n_group n index))%nat)
      by (rewrite hard_partition_length, <- Hlen; by eapply lookup_lt_Some).
    destruct (lookup_lt_is_Some_2 _ _ Hi) as [row Hrow]. rewrite Hrow.
    apply hard_partition_lookup in Hrow as [_ ->]. rewrite Hc. simpl.
    rewrite one_hot_lookup by lia. simpl. f_equal.
    destruct (decide (k = c)), (decide (c = k)); congruence.
  - rewrite (proj2 (lookup_ge_None _ i)); [done|].
    rewrite hard_partition_length, <- Hlen. by apply lookup_ge_None.
Qed.

Lemma qsum_counts (n : nat) (index : list nat) :
  (∀ c, c ∈ index → (c < n)%nat) →
  qsum (map (λ k, qz (Z.of_nat (length (filter (λ c, c = k) index)))) (seq 0 n))
  = qz (Z.of_nat (length index)).
Proof.
  intros Hb.
  rewrite (qsum_map_ext _ (λ k, qsum (map (λ p : unit * nat,
                                             if decide (p.2 = k) then 1 else 0)
                                          (map (λ c, (tt, c)) index)))).
  - rewrite (regroup (map (λ c, (tt, c)) index) (λ _ _, 1) n).
    + rewrite map_map, (qsum_ones _ index) by done. done.
    + intros p (c & -> & Hc)%list_elem_of_fmap. by apply Hb.
  - intros k _. rewrite map_map. symmetry. apply qsum_count.
Qed.
End Formed.

(** Under hard partitioning, for two or more groups: [count[k]] is the
    number of groups with index [k], [weights[k]] is that number over
    the number of groups, the counts add up to the number of groups and
    the weights to 1. *)
Theorem cluster_weights_are_fractions (self : Clustering.t) (g : rng)
    (data : list (list Qc)) (r : Clustering.t * rng * option (gmap string pyval)) :
  Clustering.sim_hard_partitions self = true →
  Clustering.data self = Some data →
  length data ≠ 1%nat →
  Clustering.form_clusters_using_current_parameters self g = Ok r →
  ∃ (count index : list nat) (weights : list Qc) (n_cluster : nat),
    Clustering.clusters r.1.1 !! "count" = Some (PArrI count)
    ∧ Clustering.clusters r.1.1 !! "index" = Some (PArrI index)
    ∧ Clustering.clusters r.1.1 !! "weights" = Some (PArrF weights)
    ∧ Clustering.clusters r.1.1 !! "n_cluster" = Some (PInt (Z.of_nat n_cluster))
    ∧ length count = n_cluster ∧ length weights = n_cluster
    ∧ (∀ k, (k < n_cluster)%nat →
         count !! k = Some (length (filter (λ c, c = k) index))
         ∧ weights !! k
           = Some (qz (Z.of_nat (length (filter (λ c, c = k) index)))
                   / qz (Z.of_nat (length data)))%Qc)
    ∧ qsum (map (λ c, qz (Z.of_nat c)) count) = qz (Z.of_nat (length data))
    ∧ qsum weights = 1%Qc.
Proof.
  intros Hhard Hdata Hn H.
  unfold Clustering.form_clusters_using_current_parameters, Clustering.get_data in H.
  rewrite Hdata in H. cbn [mbind result_bind] in H. rewrite decide_False in H by done.
  apply bind_Ok in H as (pref & _ & H).
  apply bind_Ok in H as ([alg g1] & Hfit & H).
  destruct (fit_predict_index _ _ _ _ _ Hfit)
    as (index & n & ex & means & w & conv & Hi & Hc & He & Hm & Hw & Hv & Hlen & _ & Hk).
  cbn [mbind result_bind fst snd] in H. rewrite Hi, Hc, Hm, Hw, He, Hv, Hhard in H.
  cbn [mbind result_bind Clustering.fitted] in H. injection H as <-.
  assert (Hpos : qz (Z.of_nat (length data)) ≠ 0%Qc).
  { intros Hz%qz_eq_0. destruct data as [|row data]; [|done].
    unfold AffinityPropagation.fit_predict in Hfit. by rewrite prepare_empty in Hfit. }
  rewrite sum0_hard_partition by done.
  eexists _, index, _, n. cbn [fst Clustering.clusters Clustering.set_clusters].
  simplify_map_eq. split_and!; try reflexivity.
  - by rewrite length_map, length_seq.
  - by rewrite !length_map, length_seq.
  - intros k Hkn. rewrite !list_lookup_fmap, lookup_seq_lt by done. done.
  - rewrite map_map, qsum_counts by done. by rewrite Hlen.
  - rewrite qsum_map_div, qsum_counts by done. rewrite Hlen.
    unfold Qcdiv. by apply Qcmult_inv_r.
Qed.

Lemma cluster_weights_are_fractions_witness :
  ∃ r (weights : list Qc),
    Clustering.form_clusters_using_current_parameters
      (new_clustering ["tower"] 2 2 true (Some (column_data [0; 1; 5]))) (MT19937.seed 0)
    = Ok r
    ∧ Clustering.clusters r.1.1 !! "weights" = Some (PArrF weights)
    ∧ qsum weights = 1%Qc.
Proof.
  destruct (is_ok_true _ example_form_succeeds) as [r Hr].
  destruct (cluster_weights_are_fractions
              (new_clustering ["tower"] 2 2 true (Some (column_data [0; 1; 5])))
              (MT19937.seed 0) (column_data [0; 1; 5]) r eq_refl eq_refl
              ltac:(simpl; lia) Hr)
    as (count & index & weights & n & _ & _ & Hw & _ & _ & _ & _ & _ & Hsum).
  exists r, weights. split; [exact Hr|]. split; [exact Hw | exact Hsum].
Defined.

(** ** The clusters of the incomplete groups *)

(** After [adjust_weighting_for_incomplete_groups], [index_first] and
    [index_last] are cluster ids: not negative and below the number of
    clusters; the start days are left as they were. *)
Theorem boundary_clusters_in_range (self self' : Clustering.t) :
  Clustering.adjust_weighting_for_incomplete_groups self = Ok self' →
  ∃ n, (dict_get (Clustering.clusters self) "n_cluster" ≫= as_int) = Ok n
       ∧ 0 ≤ Clustering.index_first self' < n
       ∧ 0 ≤ Clustering.index_last self' < n
       ∧ Clustering.sim_start_days self' = Clustering.sim_start_days self.
Proof.
  unfold Clustering.adjust_weighting_for_incomplete_groups. intros H.
  apply bind_Ok in H as (data & _ & H).
  apply bind_Ok in H as (n & Hn & H).
  apply bind_Ok in H as (dist_first & Hdf & H).
  apply bind_Ok in H as (dist_last & Hdl & H).
  apply bind_Ok in H as (index_first & Hif & H).
  apply bind_Ok in H as (index_last & Hil & H).
  apply bind_Ok in H as (ffirst & _ & H).
  apply bind_Ok in H as (flast & _ & H).
  apply bind_Ok in H as (pm & _ & H).
  apply bind_Ok in H as (x & _ & H).
  apply bind_Ok in H as (y & _ & H).
  injection H as <-. exists n. split; [exact Hn|].
  apply mapM_Ok_length in Hdf, Hdl. rewrite length_seq in Hdf, Hdl.
  apply argmin_bound in Hif, Hil.
  unfold Clustering.set_clusters, Clustering.set_index_last, Clustering.set_index_first.
  cbn [Clustering.index_first Clustering.index_last Clustering.sim_start_days].
  split_and!; try done; lia.
Qed.

Lemma boundary_clusters_in_range_witness :
  ∃ self' n,
    Clustering.adjust_weighting_for_incomplete_groups example_small_clustered = Ok self'
    ∧ 0 ≤ Clustering.index_first self' < n
    ∧ 0 ≤ Clustering.index_last self' < n.
Proof.
  destruct (is_ok_true _ example_small_adjusts) as [self' Hadj].
  destruct (boundary_clusters_in_range example_small_clustered self' Hadj)
    as (n & _ & Hf & Hl & _).
  exists self', n. split; [exact Hadj|]. split; [exact Hf | exact Hl].
Defined.

(** ** The group length that [calculate_metrics] accepts *)

Lemma daily_avg_dni_loop_weights (dni : list Qc) (n_pts_day : nat) (self : Clustering.t) :
  Clustering.weights (Clustering.daily_avg_dni_loop dni n_pts_day self)
  = Clustering.weights self.
Proof.
  unfold Clustering.daily_avg_dni_loop.
  generalize (seq 0 365).
  change (Clustering.weights self)
    with (Clustering.weights (Clustering.set_daily_avg_dni (PArrF (zeros 365)) self)).
  generalize (Clustering.set_daily_avg_dni (PArrF (zeros 365)) self).
  intros s l. revert s. induction l as [|d l IH]; intros s; simpl; [done|].
  by rewrite IH.
Qed.

Lemma weights_set_data (v1 : option (list (list Qc))) (v2 v3 : option (list Qc))
    (self : Clustering.t) :
  Clustering.weights
    (Clustering.set_data_last v3 (Clustering.set_data_first v2 (Clustering.set_data v1 self)))
  = Clustering.weights self.
Proof. reflexivity. Qed.

Lemma calculate_metrics_weights (weather : Clustering.Weather)
    (self self' : Clustering.t) :
  Clustering.calculate_metrics weather self = Ok self' →
  Clustering.weights self' = Clustering.weights (Clustering.set_weighting self).
Proof.
  unfold Clustering.calculate_metrics. intros H.
  apply bind_Ok in H as (hourly & _ & H).
  apply bind_Ok in H as (metrics & _ & H).
  apply bind_Ok in H as (n_group & _ & H).
  case_decide; [discriminate|].
  apply bind_Ok in H as (rows & _ & H).
  apply bind_Ok in H as (first & _ & H).
  apply bind_Ok in H as (last & _ & H).
  injection H as <-.
  by rewrite weights_set_data, daily_avg_dni_loop_weights.
Qed.

(** [calculate_metrics] builds one row for each complete group, and
    with no complete group it returns only if no metric has a positive
    weight. *)
Lemma calculate_metrics_rows (weather : Clustering.Weather) (self self' : Clustering.t) :
  Clustering.calculate_metrics weather self = Ok self' →
  ∃ rows, Clustering.data self' = Some rows
          ∧ Clustering.count_groups self = Ok (length rows)
          ∧ (length rows = 0%nat →
             filter (λ kv : string * Qc, (0 < kv.2)%Qc) (Clustering.weights self') = []).
Proof.
  intros H. pose proof (calculate_metrics_weights _ _ _ H) as Hw.
  revert H. unfold Clustering.calculate_metrics. intros H.
  apply bind_Ok in H as (hourly & _ & H).
  apply bind_Ok in H as (metrics & _ & H).
  apply bind_Ok in H as (n_group & Hcount & H).
  case_decide as Hempty; [discriminate|].
  apply bind_Ok in H as (rows & Hrows & H).
  apply bind_Ok in H as (first & _ & H).
  apply bind_Ok in H as (last & _ & H).
  apply mapM_Ok_length in Hrows. rewrite length_seq in Hrows.
  assert (Hdata : Clustering.data self' = Some rows).
  { injection H as <-. apply data_set_data. }
  clear H.
  rewrite daily_avg_dni_loop_weights in Hempty. rewrite <- Hw in Hempty.
  rewrite (count_groups_ndays _ self) in Hcount
    by (by rewrite daily_avg_dni_loop_ndays, set_weighting_ndays).
  clear Hw. rewrite <- Hrows in Hcount, Hempty. clear Hrows.
  exists rows. split; [exact Hdata|]. split; [exact Hcount|].
  intros Hz. destruct (decide (filter (λ kv : string * Qc, (0 < kv.2)%Qc)
                                 (Clustering.weights self') = [])) as [Hnil|Hne].
  - exact Hnil.
  - exfalso. apply Hempty. split; [exact Hz | exact Hne].
Qed.

(** With a metric of positive weight, [calculate_metrics] returns only
    for a group length between 1 and 363 days, and then builds one row
    for each of the [363 // ndays] complete groups, at least one. *)
Theorem metrics_need_group_length (weather : Clustering.Weather)
    (self self' : Clustering.t) (k : string) (w : Qc) :
  Clustering.calculate_metrics weather self = Ok self' →
  (k, w) ∈ Clustering.weights self' →
  (0 < w)%Qc →
  1 ≤ Clustering.ndays self ≤ 363
  ∧ ∃ rows, Clustering.data self' = Some rows
            ∧ Z.of_nat (length rows) = 363 / Clustering.ndays self
            ∧ (1 ≤ length rows)%nat.
Proof.
  intros H Hk Hw.
  destruct (calculate_metrics_rows _ _ _ H) as (rows & Hdata & Hcount & Hempty).
  assert (Hpos : (0 < length rows)%nat).
  { destruct (length rows) as [|n] eqn:Hlen; [|lia]. exfalso.
    assert (Hin : (k, w) ∈ filter (λ kv : string * Qc, (0 < kv.2)%Qc)
                                  (Clustering.weights self'))
      by (by apply list_elem_of_filter).
    rewrite Hempty in Hin by done. by apply elem_of_nil in Hin. }
  destruct (count_groups_Ok self (length rows) Hcount Hpos) as [H1 Hq].
  split.
  - split; [done|]. destruct (decide (Clustering.ndays self ≤ 363)) as [|Hbig]; [done|].
    rewrite Z.div_small in Hq by lia. lia.
  - exists rows. split_and!; [done | done | lia].
Qed.

Lemma example_plant_dni :
  ("dni", 1%Qc) ∈ Clustering.weights (Clustering.set_weighting example_plant).
Proof. vm_compute. left. Qed.

Lemma metrics_need_group_length_witness :
  ∃ self', Clustering.calculate_metrics example_weather example_plant = Ok self'
           ∧ 1 ≤ Clustering.ndays example_plant ≤ 363.
Proof.
  destruct (is_ok_true _ (run_clustering_calculate_metrics _ _ _ _ example_run_succeeds))
    as [self' Hcalc].
  exists self'. split; [exact Hcalc|].
  assert (Hw : ("dni", 1%Qc) ∈ Clustering.weights self')
    by (rewrite (calculate_metrics_weights _ _ _ Hcalc); exact example_plant_dni).
  exact (proj1 (metrics_need_group_length example_weather example_plant self'
                  "dni" 1%Qc Hcalc Hw eq_refl)).
Defined.

(** ** The relabelling of the clusters in the order of their exemplars *)

Section InsertionSort.
Context {A : Type} (le : A → A → bool).
Hypothesis le_total : ∀ a b, le a b = true ∨ le b a = true.
Hypothesis le_trans : ∀ a b c, le a b = true → le b c = true → le a c = true.

Lemma insert_sorted_perm (x : A) (l : list A) : insert_sorted le x l ≡ₚ x :: l.
Proof.
  induction l as [|y l IH]; simpl; [done|].
  destruct (le x y); [done|]. rewrite IH. apply Permutation_swap.
Qed.

Lemma sort_by_perm (l : list A) : sort_by le l ≡ₚ l.
Proof.
  unfold sort_by. induction l as [|x l IH]; simpl; [done|].
  by rewrite insert_sorted_perm, IH.
Qed.

Lemma insert_sorted_ascending (x : A) (l : list A) :
  ascending le l → ascending le (insert_sorted le x l).
Proof.
  induction l as [|y l IH]; simpl; [done|]. intros [Hy Hl].
  destruct (le x y) eqn:Hxy; simpl.
  - split_and!; [|done..]. constructor; [done|].
    eapply Forall_impl; [exact Hy|]. intros z Hz. by eapply le_trans.
  - split; [|by apply IH]. rewrite insert_sorted_perm. constructor; [|done].
    destruct (le_total x y); congruence.
Qed.

Lemma sort_by_ascending (l : list A) : ascending le (sort_by le l).
Proof.
  unfold sort_by. induction l as [|x l IH]; simpl; [done|].
  by apply insert_sorted_ascending.
Qed.

Lemma ascending_lookup (l : list A) (i j : nat) (a b : A) :
  ascending le l → (i < j)%nat → l !! i = Some a → l !! j = Some b → le a b = true.
Proof.
  revert i j. induction l as [|x l IH]; intros i j Hl Hij Hi Hj; [done|].
  destruct Hl as [Hx Hl]. destruct j as [|j]; [lia|]. destruct i as [|i].
  - injection Hi as <-. rewrite Forall_forall in Hx. apply Hx.
    by eapply list_elem_of_lookup_2.
  - apply (IH i j); [done | lia | done..].
Qed.
End InsertionSort.

Lemma foldM_prefix {A B} (P : list B → A → Prop) (f : A → B → result A)
    (l : list B) (a a' : A) :
  (∀ pre b a a', P pre a → f a b = Ok a' → P (pre ++ [b]) a') →
  P [] a → foldM f a l = Ok a' → P l a'.
Proof.
  intros Hstep.
  enough (H : ∀ pre a, P pre a → foldM f a l = Ok a' → P (pre ++ l) a')
    by apply (H []).
  induction l as [|b l IH]; intros pre a0 Hp H; simpl in H.
  - injection H as <-. by rewrite app_nil_r.
  - apply bind_Ok in H as (a1 & Hf & H).
    replace (pre ++ b :: l) with ((pre ++ [b]) ++ l) by by rewrite <- app_assoc.
    apply (IH _ a1); [by eapply Hstep | done].
Qed.

Lemma dict_get_Ok (d : gmap string pyval) (key : string) (v : pyval) :
  dict_get d key = Ok v → d !! key = Some v.
Proof. unfold dict_get. destruct (d !! key); [by intros [= ->] | done]. Qed.

(** One pass of the first loop writes [exemplars[inds[i]]] to position
    [i] of the new array of exemplars. *)
Lemma sort_cluster_exemplars (inds : list nat) (clusters sorted sorted' : gmap string pyval)
    (i : nat) (ex d : list nat) :
  clusters !! "exemplars" = Some (PArrI ex) →
  sorted !! "exemplars" = Some (PArrI d) →
  Clustering.sort_cluster inds clusters sorted i = Ok sorted' →
  ∃ k x, inds !! i = Some k ∧ ex !! k = Some x
         ∧ sorted' !! "exemplars" = Some (PArrI (<[i := x]> d)).
Proof.
  intros Hex Hd H. unfold Clustering.sort_cluster in H.
  apply bind_Ok in H as (k & Hk & H). apply getitem_Ok in Hk.
  apply bind_Ok in H as (src & _ & H).
  apply bind_Ok in H as (dst & _ & H).
  apply bind_Ok in H as (s3 & Hfold & H).
  apply bind_Ok in H as (msrc & _ & H).
  apply bind_Ok in H as (mdst & _ & H).
  apply bind_Ok in H as (row & _ & H).
  injection H as <-.
  cbn [foldM] in Hfold.
  apply bind_Ok in Hfold as (s1 & H1 & Hfold).
  apply bind_Ok in Hfold as (s2 & H2 & Hfold).
  apply bind_Ok in Hfold as (s3' & H3 & Hfold).
  injection Hfold as <-.
  apply bind_Ok in H1 as (c1 & _ & H1). apply bind_Ok in H1 as (d1 & _ & H1).
  apply bind_Ok in H1 as (v1 & _ & H1). injection H1 as <-.
  apply bind_Ok in H2 as (c2 & _ & H2). apply bind_Ok in H2 as (d2 & _ & H2).
  apply bind_Ok in H2 as (v2 & _ & H2). injection H2 as <-.
  apply bind_Ok in H3 as (c3 & Hc3 & H3). apply bind_Ok in H3 as (d3 & Hd3 & H3).
  apply bind_Ok in H3 as (v3 & Hv3 & H3). injection H3 as <-.
  apply dict_get_Ok in Hc3, Hd3. rewrite Hex in Hc3. injection Hc3 as <-.
  rewrite !lookup_insert_ne in Hd3 by done. rewrite Hd in Hd3. injection Hd3 as <-.
  cbn [Clustering.copy_item] in Hv3.
  apply bind_Ok in Hv3 as (x & Hx & Hv3). apply getitem_Ok in Hx. injection Hv3 as <-.
  exists k, x. split_and!; [done..|].
  rewrite lookup_insert_ne by done. by rewrite lookup_insert_eq.
Qed.

Lemma argsort_entries (ex : list nat) (p : nat * nat) :
  p ∈ sort_by (λ a b : nat * nat, bool_decide (a.1 ≤ b.1)%nat) (imap (λ i x, (x, i)) ex) →
  ex !! p.2 = Some p.1.
Proof.
  rewrite sort_by_perm. intros (i & x & -> & Hx)%elem_of_lookup_imap. done.
Qed.

Lemma argsort_length (ex : list nat) :
  length (sort_by (λ a b : nat * nat, bool_decide (a.1 ≤ b.1)%nat)
            (imap (λ i x, (x, i)) ex)) = length ex.
Proof. by rewrite sort_by_perm, length_imap. Qed.

Lemma fst_imap_pair (ex : list nat) : map fst (imap (λ i x, (x, i)) ex) = ex.
Proof.
  apply list_eq. intros i. rewrite list_lookup_fmap, list_lookup_imap.
  by destruct (ex !! i).
Qed.

(** The relabelled exemplars are the old exemplars in sorted order. *)
Lemma sort_clusters_exemplars (u : uninit) (self self' : Clustering.t) (ex : list nat) :
  Clustering.clusters self !! "exemplars" = Some (PArrI ex) →
  Clustering.clusters self !! "n_cluster" = Some (PInt (Z.of_nat (length ex))) →
  Clustering.sort_clusters u self = Ok self' →
  Clustering.clusters self' !! "exemplars"
  = Some (PArrI (map fst (sort_by (λ a b : nat * nat, bool_decide (a.1 ≤ b.1)%nat)
                            (imap (λ i x, (x, i)) ex)))).
Proof.
  intros Hex Hn H. unfold Clustering.sort_clusters in H.
  apply bind_Ok in H as (data & _ & H).
  apply bind_Ok in H as (n & Hn' & H).
  unfold dict_get in Hn'. rewrite Hn in Hn'. injection Hn' as <-.
  apply bind_Ok in H as (ex' & Hex' & H).
  unfold dict_get in Hex'. rewrite Hex in Hex'. injection Hex' as <-.
  apply bind_Ok in H as (cs1 & Hf1 & H).
  apply bind_Ok in H as (cs2 & Hf2 & H).
  injection H as <-. cbn [Clustering.clusters Clustering.set_clusters].
  set (ps := sort_by (λ a b : nat * nat, bool_decide (a.1 ≤ b.1)%nat)
               (imap (λ i x, (x, i)) ex)) in *.
  transitivity (cs1 !! "exemplars").
  { revert Hf2. apply (foldM_invariant (λ s, s !! "exemplars" = cs1 !! "exemplars"));
      [|done].
    intros a b a' _ <-. by apply sort_index_frame. }
  rewrite Nat2Z.id in Hf1.
  assert (HP : ∃ d, cs1 !! "exemplars" = Some (PArrI d) ∧ length d = length ex
                    ∧ ∀ j, j ∈ seq 0 (length ex) → (j < length ex)%nat →
                           d !! j = fst <$> ps !! j).
  { revert Hf1.
    apply (foldM_prefix
             (λ pre s, ∃ d, s !! "exemplars" = Some (PArrI d) ∧ length d = length ex
                            ∧ ∀ j, j ∈ pre → (j < length ex)%nat →
                                   d !! j = fst <$> ps !! j)).
    - intros pre b s s' (d & Hd & Hlen & Hpre) Hstep.
      destruct (sort_cluster_exemplars _ _ _ _ _ ex d Hex Hd Hstep)
        as (k & x & Hk & Hx & Hd').
      exists (<[b := x]> d). split; [done|]. split; [by rewrite length_insert|].
      intros j Hj Hjlt. destruct (decide (j = b)) as [->|Hne].
      + rewrite list_lookup_insert_eq by lia.
        unfold argsort in Hk. fold ps in Hk. rewrite list_lookup_fmap in Hk.
        destruct (ps !! b) as [[y k']|] eqn:Hp; [|done]. simpl in *.
        injection Hk as ->.
        pose proof (argsort_entries ex (y, k) (list_elem_of_lookup_2 _ _ _ Hp)) as Hy.
        simpl in Hy. congruence.
      + rewrite list_lookup_insert_ne by done. apply Hpre; [|done].
        apply elem_of_app in Hj as [Hj|Hj]; [done|].
        apply list_elem_of_singleton in Hj. done.
    - rewrite map_lookup_imap, Hex. simpl. eexists. split; [reflexivity|].
      split; [by rewrite length_map|]. intros j Hj. by apply elem_of_nil in Hj. }
  destruct HP as (d & Hd & Hlen & Hall). rewrite Hd. do 2 f_equal.
  apply list_eq. intros j. rewrite list_lookup_fmap.
  destruct (decide (j < length ex)%nat) as [Hj|Hj].
  - apply Hall; [|done]. apply elem_of_seq. lia.
  - rewrite (proj2 (lookup_ge_None d j)) by lia.
    rewrite (proj2 (lookup_ge_None ps j)); [done|].
    unfold ps. rewrite argsort_length. lia.
Qed.

Lemma relabelled_exemplars_sorted_aux (u : uninit) (self self' : Clustering.t)
    (ex : list nat) :
  Clustering.clusters self !! "exemplars" = Some (PArrI ex) →
  Clustering.clusters self !! "n_cluster" = Some (PInt (Z.of_nat (length ex))) →
  Clustering.sort_clusters u self = Ok self' →
  ∃ d, Clustering.clusters self' !! "exemplars" = Some (PArrI d) ∧ d ≡ₚ ex.
Proof.
  intros Hex Hn H. eexists. split; [by eapply sort_clusters_exemplars|].
  rewrite <- (fst_imap_pair ex) at 2. apply Permutation_map, sort_by_perm.
Qed.

Lemma by_key_total (p q : nat * nat) :
  bool_decide (p.1 ≤ q.1)%nat = true ∨ bool_decide (q.1 ≤ p.1)%nat = true.
Proof.
  destruct (decide (p.1 ≤ q.1)%nat); [left | right]; apply bool_decide_eq_true_2; lia.
Qed.

Lemma by_key_trans (p q r : nat * nat) :
  bool_decide (p.1 ≤ q.1)%nat = true → bool_decide (q.1 ≤ r.1)%nat = true →
  bool_decide (p.1 ≤ r.1)%nat = true.
Proof.
  intros Hp%bool_decide_eq_true Hq%bool_decide_eq_true.
  apply bool_decide_eq_true_2. lia.
Qed.

(** When [n_cluster] is the number of exemplars, the relabelling leaves
    the exemplars in non-decreasing order, and they are the exemplars
    it found, rearranged. *)
Theorem relabelled_exemplars_ascending (u : uninit) (self self' : Clustering.t)
    (ex : list nat) :
  Clustering.clusters self !! "exemplars" = Some (PArrI ex) →
  Clustering.clusters self !! "n_cluster" = Some (PInt (Z.of_nat (length ex))) →
  Clustering.sort_clusters u self = Ok self' →
  ∃ d, Clustering.clusters self' !! "exemplars" = Some (PArrI d)
       ∧ d ≡ₚ ex
       ∧ ∀ i j a b, (i < j)%nat → d !! i = Some a → d !! j = Some b → (a ≤ b)%nat.
Proof.
  intros Hex Hn H. eexists. split; [by eapply sort_clusters_exemplars|]. split.
  - rewrite <- (fst_imap_pair ex) at 2. apply Permutation_map, sort_by_perm.
  - intros i j a b Hij Ha Hb. rewrite list_lookup_fmap in Ha, Hb.
    destruct (_ !! i) as [[a' ka]|] eqn:Hpa; [|done].
    destruct (_ !! j) as [[b' kb]|] eqn:Hpb; [|done].
    simpl in Ha, Hb. injection Ha as ->. injection Hb as ->.
    pose proof (ascending_lookup _ _ i j (a, ka) (b, kb)
                  (sort_by_ascending _ by_key_total by_key_trans _) Hij Hpa Hpb) as Hle.
    by apply bool_decide_eq_true in Hle.
Qed.

Lemma example_unsorted_sorts :
  is_ok (Clustering.sort_clusters memory_zero example_unsorted) = true.
Proof. vm_compute. reflexivity. Qed.

Lemma example_unsorted_exemplars :
  Clustering.clusters example_unsorted !! "exemplars" = Some (PArrI [2; 0]%nat).
Proof. vm_compute. reflexivity. Qed.

Lemma example_unsorted_n_cluster :
  Clustering.clusters example_unsorted !! "n_cluster"
  = Some (PInt (Z.of_nat (length [2; 0]%nat))).
Proof. vm_compute. reflexivity. Qed.

Lemma relabelled_exemplars_ascending_witness :
  ∃ self' d,
    Clustering.sort_clusters memory_zero example_unsorted = Ok self'
    ∧ Clustering.clusters self' !! "exemplars" = Some (PArrI d)
    ∧ d ≡ₚ [2; 0]%nat.
Proof.
  destruct (is_ok_true _ example_unsorted_sorts) as [self' Hs].
  destruct (relabelled_exemplars_ascending memory_zero example_unsorted self' [2; 0]%nat
              example_unsorted_exemplars example_unsorted_n_cluster Hs)
    as (d & Hd & Hperm & _).
  exists self', d. split; [exact Hs|]. split; [exact Hd | exact Hperm].
Defined.

(** ** The simulation windows after [run_clustering] *)

Lemma fit_predict_exemplars (self alg : AffinityPropagation.t) (data : list (list Qc))
    (g g' : rng) :
  AffinityPropagation.fit_predict self data g = Ok (alg, g') →
  ∃ ex, AffinityPropagation.exemplars alg = Some ex
        ∧ AffinityPropagation.n_clusters alg = Some (length ex)
        ∧ ∀ e, e ∈ ex → (e < length data)%nat.
Proof.
  unfold AffinityPropagation.fit_predict. intros H.
  apply bind_Ok in H as ([S g1] & Hprep & H). cbn [fst snd] in H.
  apply bind_Ok in H as (st & Hloop & H).
  apply bind_Ok in H as (c0 & Hc0 & H).
  apply bind_Ok in H as (E1 & HE1 & H).
  apply bind_Ok in H as (c1 & Hc1 & H).
  injection H as <- _.
  pose proof (prepare_rows _ _ _ _ _ Hprep) as Hn.
  destruct (assign_bound _ _ _ Hc0) as [Hn0 _]. rewrite distances_length, Hn in Hn0.
  exists E1. cbn [AffinityPropagation.exemplars AffinityPropagation.n_clusters].
  split; [done|]. split; [by rewrite (refine_length _ _ _ _ HE1)|].
  intros e He. rewrite <- Hn0. apply (refine_bound _ _ _ _ HE1); [|done].
  intros e' He'. rewrite Hn0. by eapply elected_in_range.
Qed.

Section Pipeline.
Context (data : list (list Qc)) (nd : Z).

Lemma form_clusters_state (self : Clustering.t) (g : rng)
    (r : Clustering.t * rng * option (gmap string pyval)) :
  clustering_state data nd self →
  Clustering.form_clusters_using_current_parameters self g = Ok r →
  clustering_state data nd r.1.1.
Proof.
  intros (Hd & Hnd & Hcl) H.
  unfold Clustering.form_clusters_using_current_parameters, Clustering.get_data in H.
  rewrite Hd in H. cbn [mbind result_bind] in H. case_decide as Hone.
  - injection H as <-. by split_and!.
  - apply bind_Ok in H as (pref & _ & H).
    apply bind_Ok in H as ([alg g1] & Hfit & H).
    destruct (fit_predict_index _ _ _ _ _ Hfit)
      as (index & n & ex & means & w & conv & Hi & Hc & He & Hm & Hw & Hv & _).
    destruct (fit_predict_exemplars _ _ _ _ _ Hfit) as (ex' & He' & Hn' & Hb).
    rewrite He in He'. injection He' as <-. rewrite Hc in Hn'. injection Hn' as ->.
    cbn [mbind result_bind fst snd] in H. rewrite Hi, Hc, Hm, Hw, He, Hv in H.
    cbn [mbind result_bind Clustering.fitted] in H.
    apply bind_Ok in H as (pm & _ & H). injection H as <-.
    split_and!; [done..|]. right. exists ex.
    cbn [fst Clustering.clusters Clustering.set_clusters]. by simplify_map_eq.
Qed.

Lemma search_round_state (d0 : Qc) (self : Clustering.t) (g : rng) (s : Clustering.search)
    (r : Clustering.t * rng * Clustering.search) :
  clustering_state data nd self →
  Clustering.search_round d0 self g s = Ok r →
  clustering_state data nd r.1.1.
Proof.
  intros Hs H. unfold Clustering.search_round in H.
  apply bind_Ok in H as ([[self1 g1] ret] & Hform & H).
  apply form_clusters_state in Hform; [|exact Hs]. cbn [fst snd] in *.
  apply bind_Ok in H as (conv & _ & H). destruct conv; cbn [negb] in H.
  - apply bind_Ok in H as (Nc & _ & H). case_decide.
    + by injection H as <-.
    + apply bind_Ok in H as (m1 & _ & H). apply bind_Ok in H as (m2 & _ & H).
      by injection H as <-.
  - by injection H as <-.
Qed.

Lemma search_loop_state (fuel : nat) (d0 : Qc) (self : Clustering.t) (g : rng)
    (s : Clustering.search) (r : Clustering.t * rng * Clustering.search) :
  clustering_state data nd self →
  Clustering.search_loop fuel d0 self g s = Ok r →
  clustering_state data nd r.1.1.
Proof.
  revert self g s. induction fuel as [|fuel IH]; simpl; intros self g s Hs H.
  - by injection H as <-.
  - destruct (Clustering.s_finished s).
    + by injection H as <-.
    + apply bind_Ok in H as (r1 & Hround & H).
      apply search_round_state in Hround; [|done]. by eapply IH.
Qed.

(** After [create_clusters] every exemplar is the position of a group. *)
Lemma create_clusters_exemplars (u : uninit) (self self' : Clustering.t) (g g' : rng) :
  clustering_state data nd self →
  Clustering.create_clusters u self g = Ok (self', g') →
  Clustering.data self' = Some data ∧ Clustering.ndays self' = nd
  ∧ exemplars_in_range (length data) (Clustering.clusters self').
Proof.
  intros Hs H. unfold Clustering.create_clusters in H.
  apply bind_Ok in H as (formed & Hformed & H).
  apply bind_Ok in H as (s2 & Hsort & H). injection H as <- _.
  assert (Hf : clustering_state data nd formed.1).
  { destruct (Clustering.afp_enforce_Ncluster self); cbn [negb] in Hformed.
    - apply bind_Ok in Hformed as (r & Hloop & Hformed).
      apply search_loop_state in Hloop; [|done].
      destruct (Clustering.s_finished r.2).
      + by injection Hformed as <-.
      + apply bind_Ok in Hformed as (x & _ & Hformed). by injection Hformed as <-.
    - apply bind_Ok in Hformed as (r & Hform & Hformed). injection Hformed as <-.
      by eapply form_clusters_state. }
  destruct Hf as (Hd & Hnd & Hcl).
  assert (Hkeep : Clustering.data s2 = Clustering.data formed.1
                  ∧ Clustering.ndays s2 = Clustering.ndays formed.1).
  { unfold Clustering.sort_clusters in Hsort.
    apply bind_Ok in Hsort as (x1 & _ & Hsort). apply bind_Ok in Hsort as (x2 & _ & Hsort).
    apply bind_Ok in Hsort as (x3 & _ & Hsort). apply bind_Ok in Hsort as (x4 & _ & Hsort).
    apply bind_Ok in Hsort as (x5 & _ & Hsort). by injection Hsort as <-. }
  destruct Hkeep as [-> ->]. split; [done|]. split; [done|].
  destruct Hcl as [Hempty|(ex & Hex & Hn & Hb)].
  - unfold Clustering.sort_clusters, Clustering.get_data in Hsort.
    rewrite Hd, Hempty in Hsort. done.
  - destruct (relabelled_exemplars_sorted_aux u formed.1 s2 ex Hex Hn Hsort)
      as (d & Hd' & Hperm).
    exists d. split; [done|]. split.
    + rewrite (sort_clusters_frame u formed.1 s2 "n_cluster") by (keys || done).
      rewrite Hn. simpl. by rewrite (Permutation_length Hperm).
    + intros e He. apply Hb. by rewrite <- Hperm.
Qed.
End Pipeline.

Lemma clusters_set_data (v1 : option (list (list Qc))) (v2 v3 : option (list Qc))
    (self : Clustering.t) :
  Clustering.clusters
    (Clustering.set_data_last v3 (Clustering.set_data_first v2 (Clustering.set_data v1 self)))
  = Clustering.clusters self.
Proof. reflexivity. Qed.

Lemma daily_avg_dni_loop_clusters (dni : list Qc) (n_pts_day : nat) (self : Clustering.t) :
  Clustering.clusters (Clustering.daily_avg_dni_loop dni n_pts_day self)
  = Clustering.clusters self.
Proof.
  unfold Clustering.daily_avg_dni_loop.
  generalize (seq 0 365).
  change (Clustering.clusters self)
    with (Clustering.clusters (Clustering.set_daily_avg_dni (PArrF (zeros 365)) self)).
  generalize (Clustering.set_daily_avg_dni (PArrF (zeros 365)) self).
  intros s l. revert s. induction l as [|d l IH]; intros s; simpl; [done|].
  by rewrite IH.
Qed.

Lemma set_weighting_clusters (self : Clustering.t) :
  Clustering.clusters (Clustering.set_weighting self) = Clustering.clusters self.
Proof.
  unfold Clustering.set_weighting.
  destruct (Clustering.get_default_weights self) as [[w0 d0] b0].
  by destruct (_ || _).
Qed.

Lemma calculate_metrics_clusters (weather : Clustering.Weather)
    (self self' : Clustering.t) :
  Clustering.calculate_metrics weather self = Ok self' →
  Clustering.clusters self' = Clustering.clusters self.
Proof.
  unfold Clustering.calculate_metrics. intros H.
  apply bind_Ok in H as (hourly & _ & H).
  apply bind_Ok in H as (metrics & _ & H).
  apply bind_Ok in H as (n_group & _ & H).
  case_decide; [discriminate|].
  apply bind_Ok in H as (rows & _ & H).
  apply bind_Ok in H as (first & _ & H).
  apply bind_Ok in H as (last & _ & H).
  injection H as <-.
  by rewrite clusters_set_data, daily_avg_dni_loop_clusters, set_weighting_clusters.
Qed.

Lemma getitem_Z_elem {A} (l : list A) (z : Z) (x : A) : getitem_Z l z = Ok x → x ∈ l.
Proof.
  unfold getitem_Z. intros H.
  repeat case_decide; try done; apply getitem_Ok in H; by eapply list_elem_of_lookup_2.
Qed.

Lemma adjust_weighting_keeps (self self' : Clustering.t) :
  Clustering.adjust_weighting_for_incomplete_groups self = Ok self' →
  Clustering.sim_start_days self' = Clustering.sim_start_days self
  ∧ Clustering.ndays self' = Clustering.ndays self
  ∧ ∃ n, (dict_get (Clustering.clusters self) "n_cluster" ≫= as_int) = Ok n ∧ 0 < n.
Proof.
  unfold Clustering.adjust_weighting_for_incomplete_groups. intros H.
  apply bind_Ok in H as (data & _ & H).
  apply bind_Ok in H as (n & Hn & H).
  apply bind_Ok in H as (dist_first & Hdf & H).
  apply bind_Ok in H as (dist_last & _ & H).
  apply bind_Ok in H as (index_first & Hif & H).
  do 6 (apply bind_Ok in H as (? & _ & H)). injection H as <-.
  split; [done|]. split; [done|]. exists n. split; [exact Hn|].
  apply mapM_Ok_length in Hdf. rewrite length_seq in Hdf.
  apply argmin_bound in Hif. lia.
Qed.

(** For a freshly constructed object ([clusters = {}]), a run of
    [run_clustering] that returns leaves at least one cluster, and the
    simulation window of every cluster lies within the year: it starts
    at second 0 or later, ends at the end of day 365 or before, and
    encloses the window of the solution with one day to spare on either
    side. *)
Theorem simulation_windows_in_year (u : uninit) (weather : Clustering.Weather)
    (self self' : Clustering.t) (g g' : rng) :
  Clustering.clusters self = ∅ →
  Clustering.run_clustering u weather self g = Ok (self', g') →
  (∃ w, Clustering.get_sim_start_end_times self' 0 = Ok w)
  ∧ ∀ clusterid t0 t1,
      Clustering.get_sim_start_end_times self' clusterid = Ok (t0, t1) →
      0 ≤ t0 ∧ t0 < t1 ∧ t1 ≤ 365 * 24 * 3600
      ∧ Clustering.get_soln_start_end_times self' clusterid
        = Ok (t0 + 24 * 3600, t1 - 24 * 3600)
      ∧ t0 + 24 * 3600 < t1 - 24 * 3600.
Proof.
  unfold Clustering.run_clustering. intros Hfresh Hrun.
  apply bind_Ok in Hrun as (s1 & Hcalc & Hrun).
  apply bind_Ok in Hrun as ([s2 g2] & Hcreate & Hrun). cbn [fst snd] in Hrun.
  apply bind_Ok in Hrun as (s3 & Hdays & Hrun).
  apply bind_Ok in Hrun as (s4 & Hadj & Hrun). injection Hrun as <- _.
  destruct (calculate_metrics_rows _ _ _ Hcalc) as (rows & Hrows & Hcount & _).
  pose proof (calculate_metrics_ndays _ _ _ Hcalc) as Hnd1.
  pose proof (calculate_metrics_clusters _ _ _ Hcalc) as Hcl1.
  assert (Hstate : clustering_state rows (Clustering.ndays self) s1).
  { split_and!; [done..|]. left. by rewrite Hcl1. }
  destruct (create_clusters_exemplars rows _ u s1 s2 g g2 Hstate Hcreate)
    as (Hd2 & Hnd2 & d & Hex & Hnc & Hb).
  unfold Clustering.set_sim_days, dict_get in Hdays. rewrite Hex in Hdays.
  cbn [mbind result_bind as_arrI] in Hdays. injection Hdays as <-.
  destruct (adjust_weighting_keeps _ _ Hadj) as (Hsd & Hnd4 & n & Hn & Hpos).
  change (Clustering.clusters (Clustering.set_sim_start_days _ ?s))
    with (Clustering.clusters s) in Hn.
  unfold dict_get in Hn. rewrite Hnc in Hn. injection Hn as <-.
  unfold Clustering.get_sim_start_end_times, Clustering.get_soln_start_end_times.
  rewrite Hsd, Hnd4.
  change (Clustering.sim_start_days (Clustering.set_sim_start_days ?v _)) with v.
  change (Clustering.ndays (Clustering.set_sim_start_days _ ?s)) with (Clustering.ndays s).
  rewrite Hnd2. split.
  - destruct d as [|e d]; [simpl in Hpos; lia|]. by eexists.
  - intros clusterid t0 t1 Htimes.
    apply bind_Ok in Htimes as (day & Hday & Htimes). rewrite Hday.
    cbn [mbind result_bind]. injection Htimes as <- <-.
    apply getitem_Z_elem in Hday.
    apply list_elem_of_fmap in Hday as (e & -> & He). apply Hb in He.
    destruct (count_groups_Ok self (length rows) Hcount ltac:(lia)) as [Hpos' Hq].
    set (nd := Clustering.ndays self) in *.
    assert (Hprod : Z.of_nat (length rows) * nd ≤ 363)
      by (rewrite Hq, Z.mul_comm; apply Z.mul_div_le; lia).
    assert (He1 : (Z.of_nat e + 1) * nd ≤ 363) by nia.
    split_and!; [nia | nia | nia | f_equal; f_equal; lia | nia].
Qed.

Lemma simulation_windows_in_year_witness :
  ∃ self' g' w,
    Clustering.clusters example_plant = ∅
    ∧ Clustering.run_clustering memory_zero example_weather example_plant (MT19937.seed 0)
      = Ok (self', g')
    ∧ Clustering.get_sim_start_end_times self' 0 = Ok w.
Proof.
  destruct (is_ok_true _ example_run_succeeds) as [[self' g'] Hrun].
  destruct (proj1 (simulation_windows_in_year memory_zero example_weather example_plant
                     self' (MT19937.seed 0) g' eq_refl Hrun)) as [w Hw].
  exists self', g', w. split; [reflexivity|]. split; [exact Hrun | exact Hw].
Defined.
